(** * Measurement lifecycle of the meter-reading API (src/index.ts)

    A shallow embedding of the three Express handlers of [src/index.ts]
    ([POST /upload], [PATCH /confirm], [GET /:customer_code/list]) and of the
    helpers they call, followed by the properties of the measurement store
    that the handlers maintain or fail to maintain.

    The in-memory [database] array is threaded explicitly through the
    handlers.  Everything a handler obtains from outside the process (the
    clock, the image library, the recognition service) is an argument of the
    handler. *)

From Stdlib Require Import Floats.PrimFloat ZArith Ascii String.
From stdpp Require Import base decidable option list strings pretty.

Local Open Scope string_scope.

(** ** JavaScript values and builtins *)

Module Js.

(** JavaScript numbers are IEEE binary64 values. *)
Definition number : Type := float.

(** The values a field of a parsed JSON body can hold, restricted to the
    scalars; [VUndefined] is an absent field.  Arrays and nested objects are
    not part of the model: what is proved of a request is proved of the
    requests whose fields are scalars or absent. *)
Inductive value : Type :=
| VUndefined
| VNull
| VBool (b : bool)
| VNumber (n : number)
| VString (s : string).

Inductive type_tag : Type :=
| TUndefined | TObject | TBoolean | TNumber | TString.

Global Instance type_tag_eq_dec : EqDecision type_tag.
Proof. solve_decision. Defined.

(** [typeof v]. *)
Definition typeof (v : value) : type_tag :=
  match v with
  | VUndefined => TUndefined
  | VNull => TObject
  | VBool _ => TBoolean
  | VNumber _ => TNumber
  | VString _ => TString
  end.

Definition is_nan (n : number) : bool := negb (PrimFloat.eqb n n).

(** ToBoolean: the condition of [if (v)] and the operand of [!v]. *)
Definition truthy (v : value) : bool :=
  match v with
  | VUndefined | VNull => false
  | VBool b => b
  | VNumber n => negb (PrimFloat.eqb n 0%float || is_nan n)
  | VString s => negb (String.eqb s "")
  end.

(** [a === b]. *)
Definition strict_eq (a b : value) : bool :=
  match a, b with
  | VUndefined, VUndefined => true
  | VNull, VNull => true
  | VBool x, VBool y => Bool.eqb x y
  | VNumber x, VNumber y => PrimFloat.eqb x y
  | VString x, VString y => String.eqb x y
  | _, _ => false
  end.

Definition in_range (lo hi : N) (c : ascii) : bool :=
  (lo <=? N_of_ascii c)%N && (N_of_ascii c <=? hi)%N.

Definition is_lower (c : ascii) : bool := in_range 97 122 c.
Definition is_upper (c : ascii) : bool := in_range 65 90 c.
Definition is_digit (c : ascii) : bool := in_range 48 57 c.

Definition upper_ascii (c : ascii) : ascii :=
  if is_lower c then ascii_of_N (N_of_ascii c - 32) else c.

(** *** Text

    A string holds the UTF-8 bytes of a JavaScript string, as the string
    literals of this file do.  A JavaScript string with an unpaired
    surrogate has no such bytes and is not part of the model. *)

Definition is_continuation (b : ascii) : bool := in_range 128 191 b.

(** The characters of a text, each with its own bytes: a byte below 128,
    or a lead byte 194..223, 224..239 or 240..244 followed by one, two or
    three continuation bytes.  [None] when the bytes are not of that form,
    in which case they are the encoding of no string. *)
Fixpoint utf8_chars (s : string) : option (list string) :=
  match s with
  | EmptyString => Some []
  | String b1 r1 =>
    if in_range 0 127 b1 then
      cons (String b1 "") <$> utf8_chars r1
    else if in_range 194 223 b1 then
      match r1 with
      | String b2 r2 =>
        if is_continuation b2
        then cons (String b1 (String b2 "")) <$> utf8_chars r2
        else None
      | _ => None
      end
    else if in_range 224 239 b1 then
      match r1 with
      | String b2 (String b3 r3) =>
        if is_continuation b2 && is_continuation b3
        then cons (String b1 (String b2 (String b3 ""))) <$> utf8_chars r3
        else None
      | _ => None
      end
    else if in_range 240 244 b1 then
      match r1 with
      | String b2 (String b3 (String b4 r4)) =>
        if is_continuation b2 && is_continuation b3 && is_continuation b4
        then cons (String b1 (String b2 (String b3 (String b4 ""))))
               <$> utf8_chars r4
        else None
      | _ => None
      end
    else None
  end.

(** The upper-case form of every character outside ASCII that has one other
    than itself: the locale-independent mappings of the Unicode Character
    Database, [UnicodeData.txt] and the unconditional entries of
    [SpecialCasing.txt], which is what [String.prototype.toUpperCase] applies.
    The table is that of Unicode 14.0, whose mappings Unicode 15.0 and 15.1
    (the version that Node 20.17.0 of the Dockerfile follows) keep without
    adding any.  Some characters become two or three ("ß" becomes "SS"), and
    a few become ASCII letters ("ſ", the long s, becomes "S"). *)
Definition upper_table : list (string * string) :=
  [("µ", "Μ"); ("ß", "SS"); ("à", "À"); ("á", "Á"); ("â", "Â"); ("ã", "Ã");
   ("ä", "Ä"); ("å", "Å"); ("æ", "Æ"); ("ç", "Ç"); ("è", "È"); ("é", "É");
   ("ê", "Ê"); ("ë", "Ë"); ("ì", "Ì"); ("í", "Í"); ("î", "Î"); ("ï", "Ï");
   ("ð", "Ð"); ("ñ", "Ñ"); ("ò", "Ò"); ("ó", "Ó"); ("ô", "Ô"); ("õ", "Õ");
   ("ö", "Ö"); ("ø", "Ø"); ("ù", "Ù"); ("ú", "Ú"); ("û", "Û"); ("ü", "Ü");
   ("ý", "Ý"); ("þ", "Þ"); ("ÿ", "Ÿ"); ("ā", "Ā"); ("ă", "Ă"); ("ą", "Ą");
   ("ć", "Ć"); ("ĉ", "Ĉ"); ("ċ", "Ċ"); ("č", "Č"); ("ď", "Ď"); ("đ", "Đ");
   ("ē", "Ē"); ("ĕ", "Ĕ"); ("ė", "Ė"); ("ę", "Ę"); ("ě", "Ě"); ("ĝ", "Ĝ");
   ("ğ", "Ğ"); ("ġ", "Ġ"); ("ģ", "Ģ"); ("ĥ", "Ĥ"); ("ħ", "Ħ"); ("ĩ", "Ĩ");
   ("ī", "Ī"); ("ĭ", "Ĭ"); ("į", "Į"); ("ı", "I"); ("ĳ", "Ĳ"); ("ĵ", "Ĵ");
   ("ķ", "Ķ"); ("ĺ", "Ĺ"); ("ļ", "Ļ"); ("ľ", "Ľ"); ("ŀ", "Ŀ"); ("ł", "Ł");
   ("ń", "Ń"); ("ņ", "Ņ"); ("ň", "Ň"); ("ŉ", "ʼN"); ("ŋ", "Ŋ"); ("ō", "Ō");
   ("ŏ", "Ŏ"); ("ő", "Ő"); ("œ", "Œ"); ("ŕ", "Ŕ"); ("ŗ", "Ŗ"); ("ř", "Ř");
   ("ś", "Ś"); ("ŝ", "Ŝ"); ("ş", "Ş"); ("š", "Š"); ("ţ", "Ţ"); ("ť", "Ť");
   ("ŧ", "Ŧ"); ("ũ", "Ũ"); ("ū", "Ū"); ("ŭ", "Ŭ"); ("ů", "Ů"); ("ű", "Ű");
   ("ų", "Ų"); ("ŵ", "Ŵ"); ("ŷ", "Ŷ"); ("ź", "Ź"); ("ż", "Ż"); ("ž", "Ž");
   ("ſ", "S"); ("ƀ", "Ƀ"); ("ƃ", "Ƃ"); ("ƅ", "Ƅ"); ("ƈ", "Ƈ"); ("ƌ", "Ƌ");
   ("ƒ", "Ƒ"); ("ƕ", "Ƕ"); ("ƙ", "Ƙ"); ("ƚ", "Ƚ"); ("ƞ", "Ƞ"); ("ơ", "Ơ");
   ("ƣ", "Ƣ"); ("ƥ", "Ƥ"); ("ƨ", "Ƨ"); ("ƭ", "Ƭ"); ("ư", "Ư"); ("ƴ", "Ƴ");
   ("ƶ", "Ƶ"); ("ƹ", "Ƹ"); ("ƽ", "Ƽ"); ("ƿ", "Ƿ"); ("ǅ", "Ǆ"); ("ǆ", "Ǆ");
   ("ǈ", "Ǉ"); ("ǉ", "Ǉ"); ("ǋ", "Ǌ"); ("ǌ", "Ǌ"); ("ǎ", "Ǎ"); ("ǐ", "Ǐ");
   ("ǒ", "Ǒ"); ("ǔ", "Ǔ"); ("ǖ", "Ǖ"); ("ǘ", "Ǘ"); ("ǚ", "Ǚ"); ("ǜ", "Ǜ");
   ("ǝ", "Ǝ"); ("ǟ", "Ǟ"); ("ǡ", "Ǡ"); ("ǣ", "Ǣ"); ("ǥ", "Ǥ"); ("ǧ", "Ǧ");
   ("ǩ", "Ǩ"); ("ǫ", "Ǫ"); ("ǭ", "Ǭ"); ("ǯ", "Ǯ"); ("ǰ", "J̌"); ("ǲ", "Ǳ");
   ("ǳ", "Ǳ"); ("ǵ", "Ǵ"); ("ǹ", "Ǹ"); ("ǻ", "Ǻ"); ("ǽ", "Ǽ"); ("ǿ", "Ǿ");
   ("ȁ", "Ȁ"); ("ȃ", "Ȃ"); ("ȅ", "Ȅ"); ("ȇ", "Ȇ"); ("ȉ", "Ȉ"); ("ȋ", "Ȋ");
   ("ȍ", "Ȍ"); ("ȏ", "Ȏ"); ("ȑ", "Ȑ"); ("ȓ", "Ȓ"); ("ȕ", "Ȕ"); ("ȗ", "Ȗ");
   ("ș", "Ș"); ("ț", "Ț"); ("ȝ", "Ȝ"); ("ȟ", "Ȟ"); ("ȣ", "Ȣ"); ("ȥ", "Ȥ");
   ("ȧ", "Ȧ"); ("ȩ", "Ȩ"); ("ȫ", "Ȫ"); ("ȭ", "Ȭ"); ("ȯ", "Ȯ"); ("ȱ", "Ȱ");
   ("ȳ", "Ȳ"); ("ȼ", "Ȼ"); ("ȿ", "Ȿ"); ("ɀ", "Ɀ"); ("ɂ", "Ɂ"); ("ɇ", "Ɇ");
   ("ɉ", "Ɉ"); ("ɋ", "Ɋ"); ("ɍ", "Ɍ"); ("ɏ", "Ɏ"); ("ɐ", "Ɐ"); ("ɑ", "Ɑ");
   ("ɒ", "Ɒ"); ("ɓ", "Ɓ"); ("ɔ", "Ɔ"); ("ɖ", "Ɖ"); ("ɗ", "Ɗ"); ("ə", "Ə");
   ("ɛ", "Ɛ"); ("ɜ", "Ɜ"); ("ɠ", "Ɠ"); ("ɡ", "Ɡ"); ("ɣ", "Ɣ"); ("ɥ", "Ɥ");
   ("ɦ", "Ɦ"); ("ɨ", "Ɨ"); ("ɩ", "Ɩ"); ("ɪ", "Ɪ"); ("ɫ", "Ɫ"); ("ɬ", "Ɬ");
   ("ɯ", "Ɯ"); ("ɱ", "Ɱ"); ("ɲ", "Ɲ"); ("ɵ", "Ɵ"); ("ɽ", "Ɽ"); ("ʀ", "Ʀ");
   ("ʂ", "Ʂ"); ("ʃ", "Ʃ"); ("ʇ", "Ʇ"); ("ʈ", "Ʈ"); ("ʉ", "Ʉ"); ("ʊ", "Ʊ");
   ("ʋ", "Ʋ"); ("ʌ", "Ʌ"); ("ʒ", "Ʒ"); ("ʝ", "Ʝ"); ("ʞ", "Ʞ"); ("ͅ", "Ι");
   ("ͱ", "Ͱ"); ("ͳ", "Ͳ"); ("ͷ", "Ͷ"); ("ͻ", "Ͻ"); ("ͼ", "Ͼ"); ("ͽ", "Ͽ");
   ("ΐ", "Ϊ́"); ("ά", "Ά"); ("έ", "Έ"); ("ή", "Ή"); ("ί", "Ί"); ("ΰ", "Ϋ́");
   ("α", "Α"); ("β", "Β"); ("γ", "Γ"); ("δ", "Δ"); ("ε", "Ε"); ("ζ", "Ζ");
   ("η", "Η"); ("θ", "Θ"); ("ι", "Ι"); ("κ", "Κ"); ("λ", "Λ"); ("μ", "Μ");
   ("ν", "Ν"); ("ξ", "Ξ"); ("ο", "Ο"); ("π", "Π"); ("ρ", "Ρ"); ("ς", "Σ");
   ("σ", "Σ"); ("τ", "Τ"); ("υ", "Υ"); ("φ", "Φ"); ("χ", "Χ"); ("ψ", "Ψ");
   ("ω", "Ω"); ("ϊ", "Ϊ"); ("ϋ", "Ϋ"); ("ό", "Ό"); ("ύ", "Ύ"); ("ώ", "Ώ");
   ("ϐ", "Β"); ("ϑ", "Θ"); ("ϕ", "Φ"); ("ϖ", "Π"); ("ϗ", "Ϗ"); ("ϙ", "Ϙ");
   ("ϛ", "Ϛ"); ("ϝ", "Ϝ"); ("ϟ", "Ϟ"); ("ϡ", "Ϡ"); ("ϣ", "Ϣ"); ("ϥ", "Ϥ");
   ("ϧ", "Ϧ"); ("ϩ", "Ϩ"); ("ϫ", "Ϫ"); ("ϭ", "Ϭ"); ("ϯ", "Ϯ"); ("ϰ", "Κ");
   ("ϱ", "Ρ"); ("ϲ", "Ϲ"); ("ϳ", "Ϳ"); ("ϵ", "Ε"); ("ϸ", "Ϸ"); ("ϻ", "Ϻ");
   ("а", "А"); ("б", "Б"); ("в", "В"); ("г", "Г"); ("д", "Д"); ("е", "Е");
   ("ж", "Ж"); ("з", "З"); ("и", "И"); ("й", "Й"); ("к", "К"); ("л", "Л");
   ("м", "М"); ("н", "Н"); ("о", "О"); ("п", "П"); ("р", "Р"); ("с", "С");
   ("т", "Т"); ("у", "У"); ("ф", "Ф"); ("х", "Х"); ("ц", "Ц"); ("ч", "Ч");
   ("ш", "Ш"); ("щ", "Щ"); ("ъ", "Ъ"); ("ы", "Ы"); ("ь", "Ь"); ("э", "Э");
   ("ю", "Ю"); ("я", "Я"); ("ѐ", "Ѐ"); ("ё", "Ё"); ("ђ", "Ђ"); ("ѓ", "Ѓ");
   ("є", "Є"); ("ѕ", "Ѕ"); ("і", "І"); ("ї", "Ї"); ("ј", "Ј"); ("љ", "Љ");
   ("њ", "Њ"); ("ћ", "Ћ"); ("ќ", "Ќ"); ("ѝ", "Ѝ"); ("ў", "Ў"); ("џ", "Џ");
   ("ѡ", "Ѡ"); ("ѣ", "Ѣ"); ("ѥ", "Ѥ"); ("ѧ", "Ѧ"); ("ѩ", "Ѩ"); ("ѫ", "Ѫ");
   ("ѭ", "Ѭ"); ("ѯ", "Ѯ"); ("ѱ", "Ѱ"); ("ѳ", "Ѳ"); ("ѵ", "Ѵ"); ("ѷ", "Ѷ");
   ("ѹ", "Ѹ"); ("ѻ", "Ѻ"); ("ѽ", "Ѽ"); ("ѿ", "Ѿ"); ("ҁ", "Ҁ"); ("ҋ", "Ҋ");
   ("ҍ", "Ҍ"); ("ҏ", "Ҏ"); ("ґ", "Ґ"); ("ғ", "Ғ"); ("ҕ", "Ҕ"); ("җ", "Җ");
   ("ҙ", "Ҙ"); ("қ", "Қ"); ("ҝ", "Ҝ"); ("ҟ", "Ҟ"); ("ҡ", "Ҡ"); ("ң", "Ң");
   ("ҥ", "Ҥ"); ("ҧ", "Ҧ"); ("ҩ", "Ҩ"); ("ҫ", "Ҫ"); ("ҭ", "Ҭ"); ("ү", "Ү");
   ("ұ", "Ұ"); ("ҳ", "Ҳ"); ("ҵ", "Ҵ"); ("ҷ", "Ҷ"); ("ҹ", "Ҹ"); ("һ", "Һ");
   ("ҽ", "Ҽ"); ("ҿ", "Ҿ"); ("ӂ", "Ӂ"); ("ӄ", "Ӄ"); ("ӆ", "Ӆ"); ("ӈ", "Ӈ");
   ("ӊ", "Ӊ"); ("ӌ", "Ӌ"); ("ӎ", "Ӎ"); ("ӏ", "Ӏ"); ("ӑ", "Ӑ"); ("ӓ", "Ӓ");
   ("ӕ", "Ӕ"); ("ӗ", "Ӗ"); ("ә", "Ә"); ("ӛ", "Ӛ"); ("ӝ", "Ӝ"); ("ӟ", "Ӟ");
   ("ӡ", "Ӡ"); ("ӣ", "Ӣ"); ("ӥ", "Ӥ"); ("ӧ", "Ӧ"); ("ө", "Ө"); ("ӫ", "Ӫ");
   ("ӭ", "Ӭ"); ("ӯ", "Ӯ"); ("ӱ", "Ӱ"); ("ӳ", "Ӳ"); ("ӵ", "Ӵ"); ("ӷ", "Ӷ");
   ("ӹ", "Ӹ"); ("ӻ", "Ӻ"); ("ӽ", "Ӽ"); ("ӿ", "Ӿ"); ("ԁ", "Ԁ"); ("ԃ", "Ԃ");
   ("ԅ", "Ԅ"); ("ԇ", "Ԇ"); ("ԉ", "Ԉ"); ("ԋ", "Ԋ"); ("ԍ", "Ԍ"); ("ԏ", "Ԏ");
   ("ԑ", "Ԑ"); ("ԓ", "Ԓ"); ("ԕ", "Ԕ"); ("ԗ", "Ԗ"); ("ԙ", "Ԙ"); ("ԛ", "Ԛ");
   ("ԝ", "Ԝ"); ("ԟ", "Ԟ"); ("ԡ", "Ԡ"); ("ԣ", "Ԣ"); ("ԥ", "Ԥ"); ("ԧ", "Ԧ");
   ("ԩ", "Ԩ"); ("ԫ", "Ԫ"); ("ԭ", "Ԭ"); ("ԯ", "Ԯ"); ("ա", "Ա"); ("բ", "Բ");
   ("գ", "Գ"); ("դ", "Դ"); ("ե", "Ե"); ("զ", "Զ"); ("է", "Է"); ("ը", "Ը");
   ("թ", "Թ"); ("ժ", "Ժ"); ("ի", "Ի"); ("լ", "Լ"); ("խ", "Խ"); ("ծ", "Ծ");
   ("կ", "Կ"); ("հ", "Հ"); ("ձ", "Ձ"); ("ղ", "Ղ"); ("ճ", "Ճ"); ("մ", "Մ");
   ("յ", "Յ"); ("ն", "Ն"); ("շ", "Շ"); ("ո", "Ո"); ("չ", "Չ"); ("պ", "Պ");
   ("ջ", "Ջ"); ("ռ", "Ռ"); ("ս", "Ս"); ("վ", "Վ"); ("տ", "Տ"); ("ր", "Ր");
   ("ց", "Ց"); ("ւ", "Ւ"); ("փ", "Փ"); ("ք", "Ք"); ("օ", "Օ"); ("ֆ", "Ֆ");
   ("և", "ԵՒ"); ("ა", "Ა"); ("ბ", "Ბ"); ("გ", "Გ"); ("დ", "Დ"); ("ე", "Ე");
   ("ვ", "Ვ"); ("ზ", "Ზ"); ("თ", "Თ"); ("ი", "Ი"); ("კ", "Კ"); ("ლ", "Ლ");
   ("მ", "Მ"); ("ნ", "Ნ"); ("ო", "Ო"); ("პ", "Პ"); ("ჟ", "Ჟ"); ("რ", "Რ");
   ("ს", "Ს"); ("ტ", "Ტ"); ("უ", "Უ"); ("ფ", "Ფ"); ("ქ", "Ქ"); ("ღ", "Ღ");
   ("ყ", "Ყ"); ("შ", "Შ"); ("ჩ", "Ჩ"); ("ც", "Ც"); ("ძ", "Ძ"); ("წ", "Წ");
   ("ჭ", "Ჭ"); ("ხ", "Ხ"); ("ჯ", "Ჯ"); ("ჰ", "Ჰ"); ("ჱ", "Ჱ"); ("ჲ", "Ჲ");
   ("ჳ", "Ჳ"); ("ჴ", "Ჴ"); ("ჵ", "Ჵ"); ("ჶ", "Ჶ"); ("ჷ", "Ჷ"); ("ჸ", "Ჸ");
   ("ჹ", "Ჹ"); ("ჺ", "Ჺ"); ("ჽ", "Ჽ"); ("ჾ", "Ჾ"); ("ჿ", "Ჿ"); ("ᏸ", "Ᏸ");
   ("ᏹ", "Ᏹ"); ("ᏺ", "Ᏺ"); ("ᏻ", "Ᏻ"); ("ᏼ", "Ᏼ"); ("ᏽ", "Ᏽ"); ("ᲀ", "В");
   ("ᲁ", "Д"); ("ᲂ", "О"); ("ᲃ", "С"); ("ᲄ", "Т"); ("ᲅ", "Т"); ("ᲆ", "Ъ");
   ("ᲇ", "Ѣ"); ("ᲈ", "Ꙋ"); ("ᵹ", "Ᵹ"); ("ᵽ", "Ᵽ"); ("ᶎ", "Ᶎ"); ("ḁ", "Ḁ");
   ("ḃ", "Ḃ"); ("ḅ", "Ḅ"); ("ḇ", "Ḇ"); ("ḉ", "Ḉ"); ("ḋ", "Ḋ"); ("ḍ", "Ḍ");
   ("ḏ", "Ḏ"); ("ḑ", "Ḑ"); ("ḓ", "Ḓ"); ("ḕ", "Ḕ"); ("ḗ", "Ḗ"); ("ḙ", "Ḙ");
   ("ḛ", "Ḛ"); ("ḝ", "Ḝ"); ("ḟ", "Ḟ"); ("ḡ", "Ḡ"); ("ḣ", "Ḣ"); ("ḥ", "Ḥ");
   ("ḧ", "Ḧ"); ("ḩ", "Ḩ"); ("ḫ", "Ḫ"); ("ḭ", "Ḭ"); ("ḯ", "Ḯ"); ("ḱ", "Ḱ");
   ("ḳ", "Ḳ"); ("ḵ", "Ḵ"); ("ḷ", "Ḷ"); ("ḹ", "Ḹ"); ("ḻ", "Ḻ"); ("ḽ", "Ḽ");
   ("ḿ", "Ḿ"); ("ṁ", "Ṁ"); ("ṃ", "Ṃ"); ("ṅ", "Ṅ"); ("ṇ", "Ṇ"); ("ṉ", "Ṉ");
   ("ṋ", "Ṋ"); ("ṍ", "Ṍ"); ("ṏ", "Ṏ"); ("ṑ", "Ṑ"); ("ṓ", "Ṓ"); ("ṕ", "Ṕ");
   ("ṗ", "Ṗ"); ("ṙ", "Ṙ"); ("ṛ", "Ṛ"); ("ṝ", "Ṝ"); ("ṟ", "Ṟ"); ("ṡ", "Ṡ");
   ("ṣ", "Ṣ"); ("ṥ", "Ṥ"); ("ṧ", "Ṧ"); ("ṩ", "Ṩ"); ("ṫ", "Ṫ"); ("ṭ", "Ṭ");
   ("ṯ", "Ṯ"); ("ṱ", "Ṱ"); ("ṳ", "Ṳ"); ("ṵ", "Ṵ"); ("ṷ", "Ṷ"); ("ṹ", "Ṹ");
   ("ṻ", "Ṻ"); ("ṽ", "Ṽ"); ("ṿ", "Ṿ"); ("ẁ", "Ẁ"); ("ẃ", "Ẃ"); ("ẅ", "Ẅ");
   ("ẇ", "Ẇ"); ("ẉ", "Ẉ"); ("ẋ", "Ẋ"); ("ẍ", "Ẍ"); ("ẏ", "Ẏ"); ("ẑ", "Ẑ");
   ("ẓ", "Ẓ"); ("ẕ", "Ẕ"); ("ẖ", "H̱"); ("ẗ", "T̈"); ("ẘ", "W̊"); ("ẙ", "Y̊");
   ("ẚ", "Aʾ"); ("ẛ", "Ṡ"); ("ạ", "Ạ"); ("ả", "Ả"); ("ấ", "Ấ"); ("ầ", "Ầ");
   ("ẩ", "Ẩ"); ("ẫ", "Ẫ"); ("ậ", "Ậ"); ("ắ", "Ắ"); ("ằ", "Ằ"); ("ẳ", "Ẳ");
   ("ẵ", "Ẵ"); ("ặ", "Ặ"); ("ẹ", "Ẹ"); ("ẻ", "Ẻ"); ("ẽ", "Ẽ"); ("ế", "Ế");
   ("ề", "Ề"); ("ể", "Ể"); ("ễ", "Ễ"); ("ệ", "Ệ"); ("ỉ", "Ỉ"); ("ị", "Ị");
   ("ọ", "Ọ"); ("ỏ", "Ỏ"); ("ố", "Ố"); ("ồ", "Ồ"); ("ổ", "Ổ"); ("ỗ", "Ỗ");
   ("ộ", "Ộ"); ("ớ", "Ớ"); ("ờ", "Ờ"); ("ở", "Ở"); ("ỡ", "Ỡ"); ("ợ", "Ợ");
   ("ụ", "Ụ"); ("ủ", "Ủ"); ("ứ", "Ứ"); ("ừ", "Ừ"); ("ử", "Ử"); ("ữ", "Ữ");
   ("ự", "Ự"); ("ỳ", "Ỳ"); ("ỵ", "Ỵ"); ("ỷ", "Ỷ"); ("ỹ", "Ỹ"); ("ỻ", "Ỻ");
   ("ỽ", "Ỽ"); ("ỿ", "Ỿ"); ("ἀ", "Ἀ"); ("ἁ", "Ἁ"); ("ἂ", "Ἂ"); ("ἃ", "Ἃ");
   ("ἄ", "Ἄ"); ("ἅ", "Ἅ"); ("ἆ", "Ἆ"); ("ἇ", "Ἇ"); ("ἐ", "Ἐ"); ("ἑ", "Ἑ");
   ("ἒ", "Ἒ"); ("ἓ", "Ἓ"); ("ἔ", "Ἔ"); ("ἕ", "Ἕ"); ("ἠ", "Ἠ"); ("ἡ", "Ἡ");
   ("ἢ", "Ἢ"); ("ἣ", "Ἣ"); ("ἤ", "Ἤ"); ("ἥ", "Ἥ"); ("ἦ", "Ἦ"); ("ἧ", "Ἧ");
   ("ἰ", "Ἰ"); ("ἱ", "Ἱ"); ("ἲ", "Ἲ"); ("ἳ", "Ἳ"); ("ἴ", "Ἴ"); ("ἵ", "Ἵ");
   ("ἶ", "Ἶ"); ("ἷ", "Ἷ"); ("ὀ", "Ὀ"); ("ὁ", "Ὁ"); ("ὂ", "Ὂ"); ("ὃ", "Ὃ");
   ("ὄ", "Ὄ"); ("ὅ", "Ὅ"); ("ὐ", "Υ̓"); ("ὑ", "Ὑ"); ("ὒ", "Υ̓̀"); ("ὓ", "Ὓ");
   ("ὔ", "Υ̓́"); ("ὕ", "Ὕ"); ("ὖ", "Υ̓͂"); ("ὗ", "Ὗ"); ("ὠ", "Ὠ"); ("ὡ", "Ὡ");
   ("ὢ", "Ὢ"); ("ὣ", "Ὣ"); ("ὤ", "Ὤ"); ("ὥ", "Ὥ"); ("ὦ", "Ὦ"); ("ὧ", "Ὧ");
   ("ὰ", "Ὰ"); ("ά", "Ά"); ("ὲ", "Ὲ"); ("έ", "Έ"); ("ὴ", "Ὴ"); ("ή", "Ή");
   ("ὶ", "Ὶ"); ("ί", "Ί"); ("ὸ", "Ὸ"); ("ό", "Ό"); ("ὺ", "Ὺ"); ("ύ", "Ύ");
   ("ὼ", "Ὼ"); ("ώ", "Ώ"); ("ᾀ", "ἈΙ"); ("ᾁ", "ἉΙ"); ("ᾂ", "ἊΙ"); ("ᾃ", "ἋΙ");
   ("ᾄ", "ἌΙ"); ("ᾅ", "ἍΙ"); ("ᾆ", "ἎΙ"); ("ᾇ", "ἏΙ"); ("ᾈ", "ἈΙ"); ("ᾉ", "ἉΙ");
   ("ᾊ", "ἊΙ"); ("ᾋ", "ἋΙ"); ("ᾌ", "ἌΙ"); ("ᾍ", "ἍΙ"); ("ᾎ", "ἎΙ"); ("ᾏ", "ἏΙ");
   ("ᾐ", "ἨΙ"); ("ᾑ", "ἩΙ"); ("ᾒ", "ἪΙ"); ("ᾓ", "ἫΙ"); ("ᾔ", "ἬΙ"); ("ᾕ", "ἭΙ");
   ("ᾖ", "ἮΙ"); ("ᾗ", "ἯΙ"); ("ᾘ", "ἨΙ"); ("ᾙ", "ἩΙ"); ("ᾚ", "ἪΙ"); ("ᾛ", "ἫΙ");
   ("ᾜ", "ἬΙ"); ("ᾝ", "ἭΙ"); ("ᾞ", "ἮΙ"); ("ᾟ", "ἯΙ"); ("ᾠ", "ὨΙ"); ("ᾡ", "ὩΙ");
   ("ᾢ", "ὪΙ"); ("ᾣ", "ὫΙ"); ("ᾤ", "ὬΙ"); ("ᾥ", "ὭΙ"); ("ᾦ", "ὮΙ"); ("ᾧ", "ὯΙ");
   ("ᾨ", "ὨΙ"); ("ᾩ", "ὩΙ"); ("ᾪ", "ὪΙ"); ("ᾫ", "ὫΙ"); ("ᾬ", "ὬΙ"); ("ᾭ", "ὭΙ");
   ("ᾮ", "ὮΙ"); ("ᾯ", "ὯΙ"); ("ᾰ", "Ᾰ"); ("ᾱ", "Ᾱ"); ("ᾲ", "ᾺΙ"); ("ᾳ", "ΑΙ");
   ("ᾴ", "ΆΙ"); ("ᾶ", "Α͂"); ("ᾷ", "Α͂Ι"); ("ᾼ", "ΑΙ"); ("ι", "Ι"); ("ῂ", "ῊΙ");
   ("ῃ", "ΗΙ"); ("ῄ", "ΉΙ"); ("ῆ", "Η͂"); ("ῇ", "Η͂Ι"); ("ῌ", "ΗΙ"); ("ῐ", "Ῐ");
   ("ῑ", "Ῑ"); ("ῒ", "Ϊ̀"); ("ΐ", "Ϊ́"); ("ῖ", "Ι͂"); ("ῗ", "Ϊ͂"); ("ῠ", "Ῠ");
   ("ῡ", "Ῡ"); ("ῢ", "Ϋ̀"); ("ΰ", "Ϋ́"); ("ῤ", "Ρ̓"); ("ῥ", "Ῥ"); ("ῦ", "Υ͂");
   ("ῧ", "Ϋ͂"); ("ῲ", "ῺΙ"); ("ῳ", "ΩΙ"); ("ῴ", "ΏΙ"); ("ῶ", "Ω͂"); ("ῷ", "Ω͂Ι");
   ("ῼ", "ΩΙ"); ("ⅎ", "Ⅎ"); ("ⅰ", "Ⅰ"); ("ⅱ", "Ⅱ"); ("ⅲ", "Ⅲ"); ("ⅳ", "Ⅳ");
   ("ⅴ", "Ⅴ"); ("ⅵ", "Ⅵ"); ("ⅶ", "Ⅶ"); ("ⅷ", "Ⅷ"); ("ⅸ", "Ⅸ"); ("ⅹ", "Ⅹ");
   ("ⅺ", "Ⅺ"); ("ⅻ", "Ⅻ"); ("ⅼ", "Ⅼ"); ("ⅽ", "Ⅽ"); ("ⅾ", "Ⅾ"); ("ⅿ", "Ⅿ");
   ("ↄ", "Ↄ"); ("ⓐ", "Ⓐ"); ("ⓑ", "Ⓑ"); ("ⓒ", "Ⓒ"); ("ⓓ", "Ⓓ"); ("ⓔ", "Ⓔ");
   ("ⓕ", "Ⓕ"); ("ⓖ", "Ⓖ"); ("ⓗ", "Ⓗ"); ("ⓘ", "Ⓘ"); ("ⓙ", "Ⓙ"); ("ⓚ", "Ⓚ");
   ("ⓛ", "Ⓛ"); ("ⓜ", "Ⓜ"); ("ⓝ", "Ⓝ"); ("ⓞ", "Ⓞ"); ("ⓟ", "Ⓟ"); ("ⓠ", "Ⓠ");
   ("ⓡ", "Ⓡ"); ("ⓢ", "Ⓢ"); ("ⓣ", "Ⓣ"); ("ⓤ", "Ⓤ"); ("ⓥ", "Ⓥ"); ("ⓦ", "Ⓦ");
   ("ⓧ", "Ⓧ"); ("ⓨ", "Ⓨ"); ("ⓩ", "Ⓩ"); ("ⰰ", "Ⰰ"); ("ⰱ", "Ⰱ"); ("ⰲ", "Ⰲ");
   ("ⰳ", "Ⰳ"); ("ⰴ", "Ⰴ"); ("ⰵ", "Ⰵ"); ("ⰶ", "Ⰶ"); ("ⰷ", "Ⰷ"); ("ⰸ", "Ⰸ");
   ("ⰹ", "Ⰹ"); ("ⰺ", "Ⰺ"); ("ⰻ", "Ⰻ"); ("ⰼ", "Ⰼ"); ("ⰽ", "Ⰽ"); ("ⰾ", "Ⰾ");
   ("ⰿ", "Ⰿ"); ("ⱀ", "Ⱀ"); ("ⱁ", "Ⱁ"); ("ⱂ", "Ⱂ"); ("ⱃ", "Ⱃ"); ("ⱄ", "Ⱄ");
   ("ⱅ", "Ⱅ"); ("ⱆ", "Ⱆ"); ("ⱇ", "Ⱇ"); ("ⱈ", "Ⱈ"); ("ⱉ", "Ⱉ"); ("ⱊ", "Ⱊ");
   ("ⱋ", "Ⱋ"); ("ⱌ", "Ⱌ"); ("ⱍ", "Ⱍ"); ("ⱎ", "Ⱎ"); ("ⱏ", "Ⱏ"); ("ⱐ", "Ⱐ");
   ("ⱑ", "Ⱑ"); ("ⱒ", "Ⱒ"); ("ⱓ", "Ⱓ"); ("ⱔ", "Ⱔ"); ("ⱕ", "Ⱕ"); ("ⱖ", "Ⱖ");
   ("ⱗ", "Ⱗ"); ("ⱘ", "Ⱘ"); ("ⱙ", "Ⱙ"); ("ⱚ", "Ⱚ"); ("ⱛ", "Ⱛ"); ("ⱜ", "Ⱜ");
   ("ⱝ", "Ⱝ"); ("ⱞ", "Ⱞ"); ("ⱟ", "Ⱟ"); ("ⱡ", "Ⱡ"); ("ⱥ", "Ⱥ"); ("ⱦ", "Ⱦ");
   ("ⱨ", "Ⱨ"); ("ⱪ", "Ⱪ"); ("ⱬ", "Ⱬ"); ("ⱳ", "Ⱳ"); ("ⱶ", "Ⱶ"); ("ⲁ", "Ⲁ");
   ("ⲃ", "Ⲃ"); ("ⲅ", "Ⲅ"); ("ⲇ", "Ⲇ"); ("ⲉ", "Ⲉ"); ("ⲋ", "Ⲋ"); ("ⲍ", "Ⲍ");
   ("ⲏ", "Ⲏ"); ("ⲑ", "Ⲑ"); ("ⲓ", "Ⲓ"); ("ⲕ", "Ⲕ"); ("ⲗ", "Ⲗ"); ("ⲙ", "Ⲙ");
   ("ⲛ", "Ⲛ"); ("ⲝ", "Ⲝ"); ("ⲟ", "Ⲟ"); ("ⲡ", "Ⲡ"); ("ⲣ", "Ⲣ"); ("ⲥ", "Ⲥ");
   ("ⲧ", "Ⲧ"); ("ⲩ", "Ⲩ"); ("ⲫ", "Ⲫ"); ("ⲭ", "Ⲭ"); ("ⲯ", "Ⲯ"); ("ⲱ", "Ⲱ");
   ("ⲳ", "Ⲳ"); ("ⲵ", "Ⲵ"); ("ⲷ", "Ⲷ"); ("ⲹ", "Ⲹ"); ("ⲻ", "Ⲻ"); ("ⲽ", "Ⲽ");
   ("ⲿ", "Ⲿ"); ("ⳁ", "Ⳁ"); ("ⳃ", "Ⳃ"); ("ⳅ", "Ⳅ"); ("ⳇ", "Ⳇ"); ("ⳉ", "Ⳉ");
   ("ⳋ", "Ⳋ"); ("ⳍ", "Ⳍ"); ("ⳏ", "Ⳏ"); ("ⳑ", "Ⳑ"); ("ⳓ", "Ⳓ"); ("ⳕ", "Ⳕ");
   ("ⳗ", "Ⳗ"); ("ⳙ", "Ⳙ"); ("ⳛ", "Ⳛ"); ("ⳝ", "Ⳝ"); ("ⳟ", "Ⳟ"); ("ⳡ", "Ⳡ");
   ("ⳣ", "Ⳣ"); ("ⳬ", "Ⳬ"); ("ⳮ", "Ⳮ"); ("ⳳ", "Ⳳ"); ("ⴀ", "Ⴀ"); ("ⴁ", "Ⴁ");
   ("ⴂ", "Ⴂ"); ("ⴃ", "Ⴃ"); ("ⴄ", "Ⴄ"); ("ⴅ", "Ⴅ"); ("ⴆ", "Ⴆ"); ("ⴇ", "Ⴇ");
   ("ⴈ", "Ⴈ"); ("ⴉ", "Ⴉ"); ("ⴊ", "Ⴊ"); ("ⴋ", "Ⴋ"); ("ⴌ", "Ⴌ"); ("ⴍ", "Ⴍ");
   ("ⴎ", "Ⴎ"); ("ⴏ", "Ⴏ"); ("ⴐ", "Ⴐ"); ("ⴑ", "Ⴑ"); ("ⴒ", "Ⴒ"); ("ⴓ", "Ⴓ");
   ("ⴔ", "Ⴔ"); ("ⴕ", "Ⴕ"); ("ⴖ", "Ⴖ"); ("ⴗ", "Ⴗ"); ("ⴘ", "Ⴘ"); ("ⴙ", "Ⴙ");
   ("ⴚ", "Ⴚ"); ("ⴛ", "Ⴛ"); ("ⴜ", "Ⴜ"); ("ⴝ", "Ⴝ"); ("ⴞ", "Ⴞ"); ("ⴟ", "Ⴟ");
   ("ⴠ", "Ⴠ"); ("ⴡ", "Ⴡ"); ("ⴢ", "Ⴢ"); ("ⴣ", "Ⴣ"); ("ⴤ", "Ⴤ"); ("ⴥ", "Ⴥ");
   ("ⴧ", "Ⴧ"); ("ⴭ", "Ⴭ"); ("ꙁ", "Ꙁ"); ("ꙃ", "Ꙃ"); ("ꙅ", "Ꙅ"); ("ꙇ", "Ꙇ");
   ("ꙉ", "Ꙉ"); ("ꙋ", "Ꙋ"); ("ꙍ", "Ꙍ"); ("ꙏ", "Ꙏ"); ("ꙑ", "Ꙑ"); ("ꙓ", "Ꙓ");
   ("ꙕ", "Ꙕ"); ("ꙗ", "Ꙗ"); ("ꙙ", "Ꙙ"); ("ꙛ", "Ꙛ"); ("ꙝ", "Ꙝ"); ("ꙟ", "Ꙟ");
   ("ꙡ", "Ꙡ"); ("ꙣ", "Ꙣ"); ("ꙥ", "Ꙥ"); ("ꙧ", "Ꙧ"); ("ꙩ", "Ꙩ"); ("ꙫ", "Ꙫ");
   ("ꙭ", "Ꙭ"); ("ꚁ", "Ꚁ"); ("ꚃ", "Ꚃ"); ("ꚅ", "Ꚅ"); ("ꚇ", "Ꚇ"); ("ꚉ", "Ꚉ");
   ("ꚋ", "Ꚋ"); ("ꚍ", "Ꚍ"); ("ꚏ", "Ꚏ"); ("ꚑ", "Ꚑ"); ("ꚓ", "Ꚓ"); ("ꚕ", "Ꚕ");
   ("ꚗ", "Ꚗ"); ("ꚙ", "Ꚙ"); ("ꚛ", "Ꚛ"); ("ꜣ", "Ꜣ"); ("ꜥ", "Ꜥ"); ("ꜧ", "Ꜧ");
   ("ꜩ", "Ꜩ"); ("ꜫ", "Ꜫ"); ("ꜭ", "Ꜭ"); ("ꜯ", "Ꜯ"); ("ꜳ", "Ꜳ"); ("ꜵ", "Ꜵ");
   ("ꜷ", "Ꜷ"); ("ꜹ", "Ꜹ"); ("ꜻ", "Ꜻ"); ("ꜽ", "Ꜽ"); ("ꜿ", "Ꜿ"); ("ꝁ", "Ꝁ");
   ("ꝃ", "Ꝃ"); ("ꝅ", "Ꝅ"); ("ꝇ", "Ꝇ"); ("ꝉ", "Ꝉ"); ("ꝋ", "Ꝋ"); ("ꝍ", "Ꝍ");
   ("ꝏ", "Ꝏ"); ("ꝑ", "Ꝑ"); ("ꝓ", "Ꝓ"); ("ꝕ", "Ꝕ"); ("ꝗ", "Ꝗ"); ("ꝙ", "Ꝙ");
   ("ꝛ", "Ꝛ"); ("ꝝ", "Ꝝ"); ("ꝟ", "Ꝟ"); ("ꝡ", "Ꝡ"); ("ꝣ", "Ꝣ"); ("ꝥ", "Ꝥ");
   ("ꝧ", "Ꝧ"); ("ꝩ", "Ꝩ"); ("ꝫ", "Ꝫ"); ("ꝭ", "Ꝭ"); ("ꝯ", "Ꝯ"); ("ꝺ", "Ꝺ");
   ("ꝼ", "Ꝼ"); ("ꝿ", "Ꝿ"); ("ꞁ", "Ꞁ"); ("ꞃ", "Ꞃ"); ("ꞅ", "Ꞅ"); ("ꞇ", "Ꞇ");
   ("ꞌ", "Ꞌ"); ("ꞑ", "Ꞑ"); ("ꞓ", "Ꞓ"); ("ꞔ", "Ꞔ"); ("ꞗ", "Ꞗ"); ("ꞙ", "Ꞙ");
   ("ꞛ", "Ꞛ"); ("ꞝ", "Ꞝ"); ("ꞟ", "Ꞟ"); ("ꞡ", "Ꞡ"); ("ꞣ", "Ꞣ"); ("ꞥ", "Ꞥ");
   ("ꞧ", "Ꞧ"); ("ꞩ", "Ꞩ"); ("ꞵ", "Ꞵ"); ("ꞷ", "Ꞷ"); ("ꞹ", "Ꞹ"); ("ꞻ", "Ꞻ");
   ("ꞽ", "Ꞽ"); ("ꞿ", "Ꞿ"); ("ꟁ", "Ꟁ"); ("ꟃ", "Ꟃ"); ("ꟈ", "Ꟈ"); ("ꟊ", "Ꟊ");
   ("ꟑ", "Ꟑ"); ("ꟗ", "Ꟗ"); ("ꟙ", "Ꟙ"); ("ꟶ", "Ꟶ"); ("ꭓ", "Ꭓ"); ("ꭰ", "Ꭰ");
   ("ꭱ", "Ꭱ"); ("ꭲ", "Ꭲ"); ("ꭳ", "Ꭳ"); ("ꭴ", "Ꭴ"); ("ꭵ", "Ꭵ"); ("ꭶ", "Ꭶ");
   ("ꭷ", "Ꭷ"); ("ꭸ", "Ꭸ"); ("ꭹ", "Ꭹ"); ("ꭺ", "Ꭺ"); ("ꭻ", "Ꭻ"); ("ꭼ", "Ꭼ");
   ("ꭽ", "Ꭽ"); ("ꭾ", "Ꭾ"); ("ꭿ", "Ꭿ"); ("ꮀ", "Ꮀ"); ("ꮁ", "Ꮁ"); ("ꮂ", "Ꮂ");
   ("ꮃ", "Ꮃ"); ("ꮄ", "Ꮄ"); ("ꮅ", "Ꮅ"); ("ꮆ", "Ꮆ"); ("ꮇ", "Ꮇ"); ("ꮈ", "Ꮈ");
   ("ꮉ", "Ꮉ"); ("ꮊ", "Ꮊ"); ("ꮋ", "Ꮋ"); ("ꮌ", "Ꮌ"); ("ꮍ", "Ꮍ"); ("ꮎ", "Ꮎ");
   ("ꮏ", "Ꮏ"); ("ꮐ", "Ꮐ"); ("ꮑ", "Ꮑ"); ("ꮒ", "Ꮒ"); ("ꮓ", "Ꮓ"); ("ꮔ", "Ꮔ");
   ("ꮕ", "Ꮕ"); ("ꮖ", "Ꮖ"); ("ꮗ", "Ꮗ"); ("ꮘ", "Ꮘ"); ("ꮙ", "Ꮙ"); ("ꮚ", "Ꮚ");
   ("ꮛ", "Ꮛ"); ("ꮜ", "Ꮜ"); ("ꮝ", "Ꮝ"); ("ꮞ", "Ꮞ"); ("ꮟ", "Ꮟ"); ("ꮠ", "Ꮠ");
   ("ꮡ", "Ꮡ"); ("ꮢ", "Ꮢ"); ("ꮣ", "Ꮣ"); ("ꮤ", "Ꮤ"); ("ꮥ", "Ꮥ"); ("ꮦ", "Ꮦ");
   ("ꮧ", "Ꮧ"); ("ꮨ", "Ꮨ"); ("ꮩ", "Ꮩ"); ("ꮪ", "Ꮪ"); ("ꮫ", "Ꮫ"); ("ꮬ", "Ꮬ");
   ("ꮭ", "Ꮭ"); ("ꮮ", "Ꮮ"); ("ꮯ", "Ꮯ"); ("ꮰ", "Ꮰ"); ("ꮱ", "Ꮱ"); ("ꮲ", "Ꮲ");
   ("ꮳ", "Ꮳ"); ("ꮴ", "Ꮴ"); ("ꮵ", "Ꮵ"); ("ꮶ", "Ꮶ"); ("ꮷ", "Ꮷ"); ("ꮸ", "Ꮸ");
   ("ꮹ", "Ꮹ"); ("ꮺ", "Ꮺ"); ("ꮻ", "Ꮻ"); ("ꮼ", "Ꮼ"); ("ꮽ", "Ꮽ"); ("ꮾ", "Ꮾ");
   ("ꮿ", "Ꮿ"); ("ﬀ", "FF"); ("ﬁ", "FI"); ("ﬂ", "FL"); ("ﬃ", "FFI"); ("ﬄ", "FFL");
   ("ﬅ", "ST"); ("ﬆ", "ST"); ("ﬓ", "ՄՆ"); ("ﬔ", "ՄԵ"); ("ﬕ", "ՄԻ"); ("ﬖ", "ՎՆ");
   ("ﬗ", "ՄԽ"); ("ａ", "Ａ"); ("ｂ", "Ｂ"); ("ｃ", "Ｃ"); ("ｄ", "Ｄ"); ("ｅ", "Ｅ");
   ("ｆ", "Ｆ"); ("ｇ", "Ｇ"); ("ｈ", "Ｈ"); ("ｉ", "Ｉ"); ("ｊ", "Ｊ"); ("ｋ", "Ｋ");
   ("ｌ", "Ｌ"); ("ｍ", "Ｍ"); ("ｎ", "Ｎ"); ("ｏ", "Ｏ"); ("ｐ", "Ｐ"); ("ｑ", "Ｑ");
   ("ｒ", "Ｒ"); ("ｓ", "Ｓ"); ("ｔ", "Ｔ"); ("ｕ", "Ｕ"); ("ｖ", "Ｖ"); ("ｗ", "Ｗ");
   ("ｘ", "Ｘ"); ("ｙ", "Ｙ"); ("ｚ", "Ｚ"); ("𐐨", "𐐀"); ("𐐩", "𐐁"); ("𐐪", "𐐂");
   ("𐐫", "𐐃"); ("𐐬", "𐐄"); ("𐐭", "𐐅"); ("𐐮", "𐐆"); ("𐐯", "𐐇"); ("𐐰", "𐐈");
   ("𐐱", "𐐉"); ("𐐲", "𐐊"); ("𐐳", "𐐋"); ("𐐴", "𐐌"); ("𐐵", "𐐍"); ("𐐶", "𐐎");
   ("𐐷", "𐐏"); ("𐐸", "𐐐"); ("𐐹", "𐐑"); ("𐐺", "𐐒"); ("𐐻", "𐐓"); ("𐐼", "𐐔");
   ("𐐽", "𐐕"); ("𐐾", "𐐖"); ("𐐿", "𐐗"); ("𐑀", "𐐘"); ("𐑁", "𐐙"); ("𐑂", "𐐚");
   ("𐑃", "𐐛"); ("𐑄", "𐐜"); ("𐑅", "𐐝"); ("𐑆", "𐐞"); ("𐑇", "𐐟"); ("𐑈", "𐐠");
   ("𐑉", "𐐡"); ("𐑊", "𐐢"); ("𐑋", "𐐣"); ("𐑌", "𐐤"); ("𐑍", "𐐥"); ("𐑎", "𐐦");
   ("𐑏", "𐐧"); ("𐓘", "𐒰"); ("𐓙", "𐒱"); ("𐓚", "𐒲"); ("𐓛", "𐒳"); ("𐓜", "𐒴");
   ("𐓝", "𐒵"); ("𐓞", "𐒶"); ("𐓟", "𐒷"); ("𐓠", "𐒸"); ("𐓡", "𐒹"); ("𐓢", "𐒺");
   ("𐓣", "𐒻"); ("𐓤", "𐒼"); ("𐓥", "𐒽"); ("𐓦", "𐒾"); ("𐓧", "𐒿"); ("𐓨", "𐓀");
   ("𐓩", "𐓁"); ("𐓪", "𐓂"); ("𐓫", "𐓃"); ("𐓬", "𐓄"); ("𐓭", "𐓅"); ("𐓮", "𐓆");
   ("𐓯", "𐓇"); ("𐓰", "𐓈"); ("𐓱", "𐓉"); ("𐓲", "𐓊"); ("𐓳", "𐓋"); ("𐓴", "𐓌");
   ("𐓵", "𐓍"); ("𐓶", "𐓎"); ("𐓷", "𐓏"); ("𐓸", "𐓐"); ("𐓹", "𐓑"); ("𐓺", "𐓒");
   ("𐓻", "𐓓"); ("𐖗", "𐕰"); ("𐖘", "𐕱"); ("𐖙", "𐕲"); ("𐖚", "𐕳"); ("𐖛", "𐕴");
   ("𐖜", "𐕵"); ("𐖝", "𐕶"); ("𐖞", "𐕷"); ("𐖟", "𐕸"); ("𐖠", "𐕹"); ("𐖡", "𐕺");
   ("𐖣", "𐕼"); ("𐖤", "𐕽"); ("𐖥", "𐕾"); ("𐖦", "𐕿"); ("𐖧", "𐖀"); ("𐖨", "𐖁");
   ("𐖩", "𐖂"); ("𐖪", "𐖃"); ("𐖫", "𐖄"); ("𐖬", "𐖅"); ("𐖭", "𐖆"); ("𐖮", "𐖇");
   ("𐖯", "𐖈"); ("𐖰", "𐖉"); ("𐖱", "𐖊"); ("𐖳", "𐖌"); ("𐖴", "𐖍"); ("𐖵", "𐖎");
   ("𐖶", "𐖏"); ("𐖷", "𐖐"); ("𐖸", "𐖑"); ("𐖹", "𐖒"); ("𐖻", "𐖔"); ("𐖼", "𐖕");
   ("𐳀", "𐲀"); ("𐳁", "𐲁"); ("𐳂", "𐲂"); ("𐳃", "𐲃"); ("𐳄", "𐲄"); ("𐳅", "𐲅");
   ("𐳆", "𐲆"); ("𐳇", "𐲇"); ("𐳈", "𐲈"); ("𐳉", "𐲉"); ("𐳊", "𐲊"); ("𐳋", "𐲋");
   ("𐳌", "𐲌"); ("𐳍", "𐲍"); ("𐳎", "𐲎"); ("𐳏", "𐲏"); ("𐳐", "𐲐"); ("𐳑", "𐲑");
   ("𐳒", "𐲒"); ("𐳓", "𐲓"); ("𐳔", "𐲔"); ("𐳕", "𐲕"); ("𐳖", "𐲖"); ("𐳗", "𐲗");
   ("𐳘", "𐲘"); ("𐳙", "𐲙"); ("𐳚", "𐲚"); ("𐳛", "𐲛"); ("𐳜", "𐲜"); ("𐳝", "𐲝");
   ("𐳞", "𐲞"); ("𐳟", "𐲟"); ("𐳠", "𐲠"); ("𐳡", "𐲡"); ("𐳢", "𐲢"); ("𐳣", "𐲣");
   ("𐳤", "𐲤"); ("𐳥", "𐲥"); ("𐳦", "𐲦"); ("𐳧", "𐲧"); ("𐳨", "𐲨"); ("𐳩", "𐲩");
   ("𐳪", "𐲪"); ("𐳫", "𐲫"); ("𐳬", "𐲬"); ("𐳭", "𐲭"); ("𐳮", "𐲮"); ("𐳯", "𐲯");
   ("𐳰", "𐲰"); ("𐳱", "𐲱"); ("𐳲", "𐲲"); ("𑣀", "𑢠"); ("𑣁", "𑢡"); ("𑣂", "𑢢");
   ("𑣃", "𑢣"); ("𑣄", "𑢤"); ("𑣅", "𑢥"); ("𑣆", "𑢦"); ("𑣇", "𑢧"); ("𑣈", "𑢨");
   ("𑣉", "𑢩"); ("𑣊", "𑢪"); ("𑣋", "𑢫"); ("𑣌", "𑢬"); ("𑣍", "𑢭"); ("𑣎", "𑢮");
   ("𑣏", "𑢯"); ("𑣐", "𑢰"); ("𑣑", "𑢱"); ("𑣒", "𑢲"); ("𑣓", "𑢳"); ("𑣔", "𑢴");
   ("𑣕", "𑢵"); ("𑣖", "𑢶"); ("𑣗", "𑢷"); ("𑣘", "𑢸"); ("𑣙", "𑢹"); ("𑣚", "𑢺");
   ("𑣛", "𑢻"); ("𑣜", "𑢼"); ("𑣝", "𑢽"); ("𑣞", "𑢾"); ("𑣟", "𑢿"); ("𖹠", "𖹀");
   ("𖹡", "𖹁"); ("𖹢", "𖹂"); ("𖹣", "𖹃"); ("𖹤", "𖹄"); ("𖹥", "𖹅"); ("𖹦", "𖹆");
   ("𖹧", "𖹇"); ("𖹨", "𖹈"); ("𖹩", "𖹉"); ("𖹪", "𖹊"); ("𖹫", "𖹋"); ("𖹬", "𖹌");
   ("𖹭", "𖹍"); ("𖹮", "𖹎"); ("𖹯", "𖹏"); ("𖹰", "𖹐"); ("𖹱", "𖹑"); ("𖹲", "𖹒");
   ("𖹳", "𖹓"); ("𖹴", "𖹔"); ("𖹵", "𖹕"); ("𖹶", "𖹖"); ("𖹷", "𖹗"); ("𖹸", "𖹘");
   ("𖹹", "𖹙"); ("𖹺", "𖹚"); ("𖹻", "𖹛"); ("𖹼", "𖹜"); ("𖹽", "𖹝"); ("𖹾", "𖹞");
   ("𖹿", "𖹟"); ("𞤢", "𞤀"); ("𞤣", "𞤁"); ("𞤤", "𞤂"); ("𞤥", "𞤃"); ("𞤦", "𞤄");
   ("𞤧", "𞤅"); ("𞤨", "𞤆"); ("𞤩", "𞤇"); ("𞤪", "𞤈"); ("𞤫", "𞤉"); ("𞤬", "𞤊");
   ("𞤭", "𞤋"); ("𞤮", "𞤌"); ("𞤯", "𞤍"); ("𞤰", "𞤎"); ("𞤱", "𞤏"); ("𞤲", "𞤐");
   ("𞤳", "𞤑"); ("𞤴", "𞤒"); ("𞤵", "𞤓"); ("𞤶", "𞤔"); ("𞤷", "𞤕"); ("𞤸", "𞤖");
   ("𞤹", "𞤗"); ("𞤺", "𞤘"); ("𞤻", "𞤙"); ("𞤼", "𞤚"); ("𞤽", "𞤛"); ("𞤾", "𞤜");
   ("𞤿", "𞤝"); ("𞥀", "𞤞"); ("𞥁", "𞤟"); ("𞥂", "𞤠"); ("𞥃", "𞤡")].

Fixpoint table_lookup (k : string) (t : list (string * string)) : option string :=
  match t with
  | [] => None
  | (k', v) :: t' => if String.eqb k' k then Some v else table_lookup k t'
  end.

(** The upper-case form of one character. *)
Definition upper_char (c : string) : string :=
  match c with
  | String b EmptyString => String (upper_ascii b) EmptyString
  | _ => default c (table_lookup c upper_table)
  end.

Definition join (cs : list string) : string := fold_right String.append "" cs.

(** [s.toUpperCase()]: every character is replaced by its upper-case form.
    Bytes that are not UTF-8 text stand for no string and are kept. *)
Definition toUpperCase (s : string) : string :=
  match utf8_chars s with
  | Some cs => join (upper_char <$> cs)
  | None => s
  end.

(** A character: a text that [utf8_chars] splits off whole, whatever
    follows it. *)
Definition utf8_char (c : string) : Prop :=
  forall r, utf8_chars (c ++ r) = cons c <$> utf8_chars r.

(** What [upper_table] puts for a character is a text of characters that
    the table and [upper_ascii] leave as they are. *)
Definition upper_case_text (u : string) : bool :=
  match utf8_chars u with
  | Some cs =>
    negb (String.eqb u "") && forallb (fun c => String.eqb (upper_char c) c) cs
  | None => false
  end.

(** [xs.includes(s)] on an array of strings. *)
Definition includes (xs : list string) (s : string) : bool :=
  existsb (String.eqb s) xs.

(** Matching an anchored literal [/^p/] against [s]: the rest of [s] after
    the match, which is also [s.replace(/^p/, '')] when it matches. *)
Fixpoint strip_prefix (p s : string) : option string :=
  match p, s with
  | EmptyString, _ => Some s
  | String a p', String b s' =>
      if Ascii.eqb a b then strip_prefix p' s' else None
  | String _ _, EmptyString => None
  end.

(** The base64 alphabet [[A-Za-z0-9+/]]. *)
Definition is_base64_char (c : ascii) : bool :=
  is_upper c || is_lower c || is_digit c
  || Ascii.eqb c "+" || Ascii.eqb c "/".

(** ASCII whitespace as removed by [atob]: TAB, LF, FF, CR and space. *)
Definition is_ascii_whitespace (c : ascii) : bool :=
  let n := N_of_ascii c in
  (n =? 9)%N || (n =? 10)%N || (n =? 12)%N || (n =? 13)%N || (n =? 32)%N.

(** Removes one or two trailing [=] signs (given the characters in reverse
    order). *)
Definition drop_padding_rev (rev_chars : list ascii) : list ascii :=
  match rev_chars with
  | "="%char :: "="%char :: r => r
  | "="%char :: r => r
  | r => r
  end.

(** Whether [atob(data)] returns rather than throws: the forgiving-base64
    decoding of the HTML standard.  Whitespace is removed; when the length
    is a multiple of four up to two trailing [=] are removed; what is left
    must not have length 1 modulo 4 and must lie in the base64 alphabet.
    The decoded text itself is never used by the program. *)
Definition atob_ok (data : string) : bool :=
  let chars :=
    List.filter (fun c => negb (is_ascii_whitespace c))
                (list_ascii_of_string data) in
  let chars :=
    if (N.of_nat (length chars) mod 4 =? 0)%N
    then rev (drop_padding_rev (rev chars)) else chars in
  negb (N.of_nat (length chars) mod 4 =? 1)%N
  && forallb is_base64_char chars.

End Js.

Import Js.

(** ** The data model *)

(** [interface Measure].  [measure_datetime] is declared a string; at run
    time it holds whatever value of the request body passed [isValidDate],
    so it is kept as a value.  [measure_value] is first the recognised
    reading and, after confirmation, the confirmed one. *)
Record Measure : Type := mkMeasure {
  measure_uuid : string;
  customer_code : string;
  measure_datetime : value;
  measure_type : string;
  filePath : string;
  measure_value : option number;
  has_confirmed : bool
}.

(** [let database: Measure[] = []], in insertion order. *)
Abbreviation database := (list Measure).

(** The JSON body of every error response. *)
Record error_body : Type := mkError {
  error_code : string;
  error_description : string
}.

(** One element of the [measures] array answered by the list endpoint. *)
Record measure_view : Type := mkView {
  view_measure_uuid : string;
  view_measure_datetime : value;
  view_measure_type : string;
  view_has_confirmed : bool;
  view_image_url : string
}.

Inductive body : Type :=
| ErrorBody (e : error_body)
| UploadBody (image_url : string) (value_read : number) (uuid : string)
| ConfirmBody (success : bool)
| ListBody (customer : string) (measures : list measure_view).

(** What a handler does with [res]: it answers with a status and a JSON body,
    or it throws outside of any [try] and never answers. *)
Inductive response : Type :=
| Respond (status : nat) (b : body)
| Unhandled.

Definition respond_error (status : nat) (code description : string) : response :=
  Respond status (ErrorBody (mkError code description)).

(** A value of [req.query]: absent, a string, or an array or nested object
    (repeated or bracketed parameters), which is truthy and not a string. *)
Inductive query_value : Type :=
| QUndefined
| QString (s : string)
| QOther.

(** What the outside world answers during one [POST /upload]: the two
    readings of [Date.now()] (file name, identifier), whether
    [sharp(buffer).toFile(filePath)] returned, and the result of
    [processAndDescribeImage] ([null] is [None]). *)
Record upload_env : Type := mkEnv {
  now_filename : Z;
  sharp_ok : bool;
  recognized : option number;
  now_uuid : Z
}.

Definition dquote : string := String (ascii_of_N 34) EmptyString.

(** ** Validation *)

Definition formatErrorResponse (description : string) : error_body :=
  {| error_code := "INVALID_DATA"; error_description := description |}.

(** The four failures of [validateUploadRequest], in the order of its
    checks. *)
Definition customer_code_error : error_body :=
  formatErrorResponse "Código do cliente inválido. Esperado uma string.".

Definition measure_datetime_error : error_body :=
  formatErrorResponse
    "Data e hora da medição inválidas. Esperado uma string de data válida.".

Definition measure_type_error : error_body :=
  formatErrorResponse
    ("Tipo de medição inválido. Esperado " ++ dquote ++ "WATER" ++ dquote
     ++ " ou " ++ dquote ++ "GAS" ++ dquote ++ ".").

Definition image_error : error_body :=
  formatErrorResponse
    "Dados da imagem inválidos. Certifique-se de que a imagem esteja codificada em Base64".

Definition validMeasureTypes : list string := ["WATER"; "GAS"].

Definition data_uri_types : list string :=
  ["jpeg"; "png"; "webp"; "heic"; "heif"].

(** [image.replace(base64ImageRegex, '')] when the regular expression
    [/^data:image\/(jpeg|png|webp|heic|heif);base64,/] matches. *)
Definition strip_data_uri (image : string) : option string :=
  let try_type (acc : option string) (t : string) :=
    match acc with
    | Some r => Some r
    | None => strip_prefix ("data:image/" ++ t ++ ";base64,") image
    end in
  fold_left try_type data_uri_types None.

(** [/^[A-Za-z0-9+/]*={0,2}$/.test(s)]. *)
Fixpoint base64Pattern_rest (s : string) : string :=
  match s with
  | EmptyString => EmptyString
  | String c r => if is_base64_char c then base64Pattern_rest r else s
  end.

Definition base64Pattern_test (s : string) : bool :=
  let r := base64Pattern_rest s in
  String.eqb r "" || String.eqb r "=" || String.eqb r "==".

(** [isBase64Image] on a string.  [base64Data.length] counts UTF-16 units
    and [String.length] bytes: they agree on ASCII text, and a payload with
    a character outside ASCII is turned down by the regular expression
    whatever its length. *)
Definition isBase64Image_string (image : string) : bool :=
  let base64Data :=
    match strip_data_uri image with
    | Some rest => rest
    | None => image
    end in
  if negb (N.of_nat (String.length base64Data) mod 4 =? 0)%N then false
  else if negb (base64Pattern_test base64Data) then false
  else atob_ok base64Data.

(** [isBase64Image].  It is only called on a truthy image.  On a boolean or
    a number there is no prefix to remove, [base64Data.length] is [undefined]
    and [undefined % 4 !== 0] holds, so the answer is [false]. *)
Definition isBase64Image (image : value) : bool :=
  match image with
  | VString s => isBase64Image_string s
  | _ => false
  end.

(** ** The error responses of the handlers *)

Definition double_report : response :=
  respond_error 409 "DOUBLE_REPORT"
    "Leitura do mês já realizada para o mesmo tipo".

Definition save_failed : response :=
  respond_error 500 "INTERNAL_ERROR" "Falha ao salvar a imagem".

Definition recognition_failed : response :=
  respond_error 500 "INTERNAL_ERROR"
    "Falha ao recuperar o valor da medição da IA".

Definition confirm_invalid_data : response :=
  respond_error 400 "INVALID_DATA"
    "Tipos de entrada inválidos. Esperado measure_uuid como uma string e confirmed_value como um número.".

Definition measure_not_found : response :=
  respond_error 404 "MEASURE_NOT_FOUND" "Medição não encontrada.".

Definition confirmation_duplicate : response :=
  respond_error 409 "CONFIRMATION_DUPLICATE" "Medição já confirmada.".

Definition invalid_type : response :=
  respond_error 400 "INVALID_TYPE"
    "Tipo de medição não permitido. Valores válidos são WATER ou GAS.".

Definition measures_not_found : response :=
  respond_error 404 "MEASURES_NOT_FOUND" "Nenhuma leitura encontrada.".

Section Handlers.

(** Whether [new Date(s)] is a valid date for a string [s].  Beyond the
    ISO format the accepted strings are left to the JavaScript engine. *)
Variable Date_parse_ok : string -> bool.

(** [__dirname]. *)
Variable dirname : string.

(** [isValidDate]: [!isNaN(new Date(dateString).getTime())].  A non-string
    argument is converted to a number of milliseconds ([undefined] to NaN,
    [null] and [false] to 0, [true] to 1), which is a valid time value when
    it is finite and at most 8.64e15 in magnitude. *)
Definition isValidDate (dateString : value) : bool :=
  match dateString with
  | VUndefined => false
  | VNull => true
  | VBool _ => true
  | VNumber n => PrimFloat.leb (PrimFloat.abs n) 8.64e15%float
  | VString s => Date_parse_ok s
  end.

Definition validateUploadRequest
    (image customer_code measure_datetime measure_type : value)
    : option error_body :=
  if bool_decide (typeof customer_code <> TString) then
    Some customer_code_error
  else if negb (isValidDate measure_datetime) then
    Some measure_datetime_error
  else if bool_decide (typeof measure_type <> TString)
          || match measure_type with
             | VString t => negb (includes validMeasureTypes (toUpperCase t))
             | _ => true
             end then
    Some measure_type_error
  else if negb (truthy image) || negb (isBase64Image image) then
    Some image_error
  else None.

(** ** [POST /upload] *)

(** The request body after [const { image, customer_code, measure_datetime,
    measure_type } = req.body]. *)
Record upload_body : Type := mkUpload {
  body_image : value;
  body_customer_code : value;
  body_measure_datetime : value;
  body_measure_type : value
}.

(** [path.join(__dirname, 'tmp', `${now}.jpg`)] for a reading [now] of
    [Date.now()], on a POSIX system where [__dirname] is a normalised
    absolute path other than the root. *)
Definition tmp_file (now : Z) : string :=
  dirname ++ "/tmp/" ++ pretty now ++ ".jpg".

(** [database.find(measure => measure.measure_datetime === measure_datetime)]:
    the first record in insertion order with that date, with its index. *)
Definition find_by_datetime (db : database) (measure_datetime0 : value)
    : option (nat * Measure) :=
  list_find (fun m => strict_eq (measure_datetime m) measure_datetime0 = true) db.

(** The handler.  Decoding the image into [buffer] and writing it with
    [sharp] only matter through [sharp_ok]; the [finally] block deletes the
    temporary file and does not touch the database or the response. *)
Definition upload (db : database) (req : upload_body) (env : upload_env)
    : database * response :=
  match validateUploadRequest (body_image req) (body_customer_code req)
          (body_measure_datetime req) (body_measure_type req) with
  | Some validationError => (db, Respond 400 (ErrorBody validationError))
  | None =>
    match body_image req, body_customer_code req, body_measure_type req with
    | VString image, VString customer_code0, VString measure_type0 =>
      let filePath0 := tmp_file (now_filename env) in
      let existingMeasure := find_by_datetime db (body_measure_datetime req) in
      if match existingMeasure with
         | Some (_, existing) => String.eqb (measure_type existing) measure_type0
         | None => false
         end
      then
        (db, double_report)
      else if negb (sharp_ok env) then
        (db, save_failed)
      else
        match recognized env with
        | None =>
          (db, recognition_failed)
        | Some measureValue =>
          let newMeasure :=
            {| measure_uuid := pretty (now_uuid env);
               customer_code := customer_code0;
               measure_datetime := body_measure_datetime req;
               measure_type := measure_type0;
               filePath := filePath0;
               measure_value := Some measureValue;
               has_confirmed := false |} in
          ((db ++ [newMeasure])%list,
           Respond 200 (UploadBody filePath0 measureValue
                          (measure_uuid newMeasure)))
        end
    | _, _, _ => (db, Unhandled)
    end
  end.

(** ** [PATCH /confirm] *)

(** [database.find(measure => measure.measure_uuid === measure_uuid)]. *)
Definition find_by_uuid (db : database) (uuid : string)
    : option (nat * Measure) :=
  list_find (fun m => measure_uuid m = uuid) db.

(** [measure.measure_value = confirmed_value; measure.has_confirmed = true]. *)
Definition confirm_measure (m : Measure) (confirmed_value : number) : Measure :=
  {| measure_uuid := measure_uuid m;
     customer_code := customer_code m;
     measure_datetime := measure_datetime m;
     measure_type := measure_type m;
     filePath := filePath m;
     measure_value := Some confirmed_value;
     has_confirmed := true |}.

(** The handler.  [measure] is the object stored in the array, so the two
    assignments update the database in place, at the index where [find]
    stopped. *)
Definition confirm (db : database) (measure_uuid0 confirmed_value : value)
    : database * response :=
  if bool_decide (typeof measure_uuid0 <> TString)
     || bool_decide (typeof confirmed_value <> TNumber) then
    (db, confirm_invalid_data)
  else
    match measure_uuid0, confirmed_value with
    | VString uuid, VNumber v =>
      match find_by_uuid db uuid with
      | None =>
        (db, measure_not_found)
      | Some (i, measure) =>
        if has_confirmed measure then
          (db, confirmation_duplicate)
        else
          (<[i := confirm_measure measure v]> db,
           Respond 200 (ConfirmBody true))
      end
    | _, _ => (db, Unhandled)
    end.

(** ** [GET /:customer_code/list] *)

(** [measure_type && typeof measure_type === 'string'], with the string. *)
Definition supplied_type (measure_type0 : query_value) : option string :=
  match measure_type0 with
  | QString s => if String.eqb s "" then None else Some s
  | QUndefined | QOther => None
  end.

Definition to_view (measure : Measure) : measure_view :=
  {| view_measure_uuid := measure_uuid measure;
     view_measure_datetime := measure_datetime measure;
     view_measure_type := measure_type measure;
     view_has_confirmed := has_confirmed measure;
     view_image_url := filePath measure |}.

(** The two [filter] calls of the handler. *)
Definition list_filter (db : database) (customer_code0 : string)
    (measure_type0 : query_value) : list Measure :=
  let measures := filter (fun m => customer_code m = customer_code0) db in
  match supplied_type measure_type0 with
  | Some s =>
    let normalizedMeasureType := toUpperCase s in
    filter (fun m => toUpperCase (measure_type m) = normalizedMeasureType)
           measures
  | None => measures
  end.

Definition list_measures (db : database) (customer_code0 : string)
    (measure_type0 : query_value) : response :=
  if match supplied_type measure_type0 with
     | Some s => negb (includes validMeasureTypes (toUpperCase s))
     | None => false
     end
  then
    invalid_type
  else
    let measures := list_filter db customer_code0 measure_type0 in
    if Nat.eqb (length measures) 0 then
      measures_not_found
    else
      Respond 200 (ListBody customer_code0 (to_view <$> measures)).

(** The record that [upload] stores for an accepted request whose customer
    code, type and recognised value are [c], [t] and [v]. *)
Definition new_measure (req : upload_body) (env : upload_env)
    (c t : string) (v : number) : Measure :=
  {| measure_uuid := pretty (now_uuid env);
     customer_code := c;
     measure_datetime := body_measure_datetime req;
     measure_type := t;
     filePath := tmp_file (now_filename env);
     measure_value := Some v;
     has_confirmed := false |}.

(** ** The server as a transition system *)

Inductive request : Type :=
| PostUpload (req : upload_body) (env : upload_env)
| PatchConfirm (measure_uuid0 confirmed_value : value)
| GetList (customer_code0 : string) (measure_type0 : query_value).

(** One request handled from start to end. *)
Definition handle (db : database) (r : request) : database * response :=
  match r with
  | PostUpload req env => upload db req env
  | PatchConfirm u v => confirm db u v
  | GetList c t => (db, list_measures db c t)
  end.

(** The database after a sequence of requests handled one after the other. *)
Definition run (db : database) (rs : list request) : database :=
  fold_left (fun d r => fst (handle d r)) rs db.

(** The answers to the same requests, in order. *)
Fixpoint answers (db : database) (rs : list request) : list response :=
  match rs with
  | [] => []
  | r :: rs' => snd (handle db r) :: answers (fst (handle db r)) rs'
  end.

(** The databases the server can be in: it starts empty. *)
Definition reachable (db : database) : Prop :=
  exists rs, run [] rs = db.

End Handlers.

(** ** Vocabulary of the properties *)

(** No two stored records have the same date and the same type. *)
Definition unique_keys (db : database) : Prop :=
  forall i j m1 m2,
    db !! i = Some m1 -> db !! j = Some m2 ->
    strict_eq (measure_datetime m1) (measure_datetime m2) = true ->
    measure_type m1 = measure_type m2 ->
    i = j.

(** No two stored records have the same identifier. *)
Definition unique_ids (db : database) : Prop :=
  forall i j m1 m2,
    db !! i = Some m1 -> db !! j = Some m2 ->
    measure_uuid m1 = measure_uuid m2 ->
    i = j.

(** The type filter of the listing as the specification words it: with a
    type supplied, the records of that type once both sides are normalised;
    without one, every record. *)
Definition type_selected (q : query_value) (m : Measure) : Prop :=
  match supplied_type q with
  | Some s => toUpperCase (measure_type m) = toUpperCase s
  | None => True
  end.

Global Instance type_selected_dec q m : Decision (type_selected q m).
Proof. unfold type_selected. destruct (supplied_type q); apply _. Defined.

(** The listing as the specification words it: the records of the customer,
    further filtered by type, in the order of the database. *)
Definition listByCustomer (db : database) (c : string) (q : query_value)
    : list Measure :=
  filter (fun m => customer_code m = c /\ type_selected q m) db.

(** The same record without its numeric value. *)
Definition forget_value (m : Measure) : Measure :=
  {| measure_uuid := measure_uuid m;
     customer_code := customer_code m;
     measure_datetime := measure_datetime m;
     measure_type := measure_type m;
     filePath := filePath m;
     measure_value := None;
     has_confirmed := has_confirmed m |}.

(** What holds of every record the server stores: it has a numeric value and
    its type is WATER or GAS up to case. *)
Definition well_formed (m : Measure) : Prop :=
  is_Some (measure_value m)
  /\ (toUpperCase (measure_type m) = "WATER"
      \/ toUpperCase (measure_type m) = "GAS").

(** An answer with status 200. *)
Definition succeeded (r : response) : Prop :=
  exists b, r = Respond 200 b.

(** ** Further parts of the program *)

(** The payload that [isBase64Image] checks: the image without its data-URI
    prefix, when it has one of the allowed ones. *)
Definition validated_base64Data (image : string) : string :=
  match strip_data_uri image with
  | Some rest => rest
  | None => image
  end.

(** The payload that the upload handler decodes into [buffer]:
    [image.replace(/^data:image\/jpeg;base64,/, '')]. *)
Definition upload_base64Data (image : string) : string :=
  match strip_prefix "data:image/jpeg;base64," image with
  | Some rest => rest
  | None => image
  end.

(** A data URI of image type [t] with payload [body]. *)
Definition data_uri (t body : string) : string :=
  "data:image/" ++ t ++ ";base64," ++ body.

(** The padding that the regular expression of [isBase64Image] allows. *)
Definition is_padding (pad : string) : Prop :=
  pad = "" \/ pad = "=" \/ pad = "==".

(** The conditions of the first, third and fourth rule of the validator. *)
Definition customer_code_ok (cc : value) : Prop := typeof cc = TString.

Definition measure_type_ok (mt : value) : Prop :=
  exists t, mt = VString t
            /\ (toUpperCase t = "WATER" \/ toUpperCase t = "GAS").

Definition image_ok (img : value) : Prop :=
  exists i, img = VString i /\ i <> "" /\ isBase64Image_string i = true.

Definition lower_ascii (c : ascii) : ascii :=
  if is_upper c then ascii_of_N (N_of_ascii c + 32) else c.

(** [s.toLowerCase()] on ASCII text, which is what the extension of the
    temporary file is. *)
Fixpoint toLowerCase (s : string) : string :=
  match s with
  | EmptyString => EmptyString
  | String c r => String (lower_ascii c) (toLowerCase r)
  end.

(** The variables of the loop of [path.extname] on a POSIX system. *)
Record extname_state : Type := mkExtname {
  startDot : Z;
  startPart : Z;
  end_ : Z;
  matchedSlash : bool;
  preDotState : Z
}.

Definition extname_init : extname_state :=
  {| startDot := -1; startPart := 0; end_ := -1;
     matchedSlash := true; preDotState := 0 |}.

(** One iteration of the loop, on the character [c] at index [i]; the
    boolean says whether the loop is left by [break]. *)
Definition extname_step (c : ascii) (i : Z) (st : extname_state)
    : extname_state * bool :=
  if Ascii.eqb c "/" then
    if negb (matchedSlash st) then
      ({| startDot := startDot st; startPart := i + 1; end_ := end_ st;
          matchedSlash := matchedSlash st; preDotState := preDotState st |},
       true)
    else (st, false)
  else
    let st :=
      if (end_ st =? -1)%Z then
        {| startDot := startDot st; startPart := startPart st; end_ := i + 1;
           matchedSlash := false; preDotState := preDotState st |}
      else st in
    if Ascii.eqb c "." then
      if (startDot st =? -1)%Z then
        ({| startDot := i; startPart := startPart st; end_ := end_ st;
            matchedSlash := matchedSlash st; preDotState := preDotState st |},
         false)
      else if negb (preDotState st =? 1)%Z then
        ({| startDot := startDot st; startPart := startPart st;
            end_ := end_ st; matchedSlash := matchedSlash st;
            preDotState := 1 |}, false)
      else (st, false)
    else if negb (startDot st =? -1)%Z then
      ({| startDot := startDot st; startPart := startPart st; end_ := end_ st;
          matchedSlash := matchedSlash st; preDotState := -1 |}, false)
    else (st, false).

(** The loop [for (let i = path.length - 1; i >= 0; --i)], given the
    characters from index [i] down to index 0. *)
Fixpoint extname_loop (chars_down : list ascii) (i : Z) (st : extname_state)
    : extname_state :=
  match chars_down with
  | [] => st
  | c :: rest =>
    let (st', break) := extname_step c i st in
    if break then st' else extname_loop rest (i - 1) st'
  end.

(** [path.extname(path)] on a POSIX system: the text from the last dot of
    the last component to its end, or the empty text. *)
Definition extname (path : string) : string :=
  let st :=
    extname_loop (rev (list_ascii_of_string path))
                 (Z.of_nat (String.length path) - 1) extname_init in
  if (startDot st =? -1)%Z || (end_ st =? -1)%Z || (preDotState st =? 0)%Z
     || ((preDotState st =? 1)%Z && (startDot st =? end_ st - 1)%Z
         && (startDot st =? startPart st + 1)%Z)
  then ""
  else String.substring (Z.to_nat (startDot st))
                        (Z.to_nat (end_ st - startDot st)) path.

(** [getMimeType]. *)
Definition getMimeType (filePath0 : string) : string :=
  let extname0 := toLowerCase (extname filePath0) in
  if String.eqb extname0 ".jpg" || String.eqb extname0 ".jpeg"
  then "image/jpeg"
  else if String.eqb extname0 ".png" then "image/png"
  else if String.eqb extname0 ".gif" then "image/gif"
  else "application/octet-stream".

(** A character that is neither a path separator nor a dot. *)
Definition plain (c : ascii) : Prop := c <> "/"%char /\ c <> "."%char.

(** ** Observing a run *)

(** The request is an upload and its answer says that a record was
    created. *)
Definition creates (r : request) (a : response) : bool :=
  match r, a with
  | PostUpload _ _, Respond 200 _ => true
  | _, _ => false
  end.

(** The request is a confirmation and its answer says that it was done. *)
Definition confirms (r : request) (a : response) : bool :=
  match r, a with
  | PatchConfirm _ _, Respond 200 _ => true
  | _, _ => false
  end.

(** The reading of the clock that identifies the record a request creates,
    if its answer says that it created one. *)
Definition created_clock (r : request) (a : response) : list Z :=
  match r, a with
  | PostUpload _ env, Respond 200 _ => [now_uuid env]
  | _, _ => []
  end.

(** How many records are confirmed. *)
Definition confirmed_records (db : database) : nat :=
  length (filter (fun m => has_confirmed m = true) db).

(** An error answer with the given status and code. *)
Definition error_answer (a : response) (status : nat) (code : string) : Prop :=
  exists description, a = respond_error status code description.

Section Observers.

Variable Date_parse_ok : string -> bool.
Variable dirname : string.

(** How many of the requests satisfy [p] together with their answer, when
    they are handled one after the other from [db]. *)
Fixpoint count_answers (p : request -> response -> bool)
    (db : database) (rs : list request) : nat :=
  match rs with
  | [] => 0
  | r :: rs' =>
    (if p r (snd (handle Date_parse_ok dirname db r)) then 1 else 0)
    + count_answers p (fst (handle Date_parse_ok dirname db r)) rs'
  end.

(** The readings of the clock that identify the records created by the
    requests, in order. *)
Fixpoint created_clocks (db : database) (rs : list request) : list Z :=
  match rs with
  | [] => []
  | r :: rs' =>
    (created_clock r (snd (handle Date_parse_ok dirname db r))
     ++ created_clocks (fst (handle Date_parse_ok dirname db r)) rs')%list
  end.

End Observers.

(** ** A sample deployment

    Concrete values for what the handlers take from their surroundings, used
    to run the handlers on concrete requests. *)

Module Sample.

Definition digit (c : ascii) : option N :=
  if is_digit c then Some (N_of_ascii c - 48)%N else None.

Definition number_of (ds : list ascii) : option N :=
  fold_left (fun acc c =>
               match acc, digit c with
               | Some n, Some d => Some (10 * n + d)%N
               | _, _ => None
               end) ds (Some 0%N).

Definition leap_year (y : N) : bool :=
  ((y mod 4 =? 0) && negb (y mod 100 =? 0) || (y mod 400 =? 0))%N.

Definition days_in_month (y m : N) : N :=
  if (m =? 2)%N then (if leap_year y then 29 else 28)%N
  else if ((m =? 4) || (m =? 6) || (m =? 9) || (m =? 11))%N then 30%N
  else 31%N.

(** A date parser that accepts the UTC instants written
    [YYYY-MM-DDTHH:mm:ssZ], a form of the ECMAScript date-time string format
    that every engine parses, and nothing else. *)
Definition iso_utc (s : string) : bool :=
  match list_ascii_of_string s with
  | [y1; y2; y3; y4; "-"; m1; m2; "-"; d1; d2; "T";
     h1; h2; ":"; n1; n2; ":"; s1; s2; "Z"]%char =>
    match number_of [y1; y2; y3; y4], number_of [m1; m2], number_of [d1; d2],
          number_of [h1; h2], number_of [n1; n2], number_of [s1; s2] with
    | Some y, Some m, Some d, Some h, Some n, Some sec =>
      ((1 <=? m) && (m <=? 12) && (1 <=? d) && (d <=? days_in_month y m)
       && (h <=? 23) && (n <=? 59) && (sec <=? 59))%N
    | _, _, _, _, _, _ => false
    end
  | _ => false
  end.

(** The directory of the compiled script in the container. *)
Definition app_dir : string := "/app/dist".

(** A PNG picture of one pixel, in base64 without a data-URI prefix. *)
Definition picture : value :=
  VString "iVBORw0KGgoAAAANSUhEUgAAAAEAAAABCAYAAAAfFcSJAAAADUlEQVR42mNk+M9QDwADhgGAWjR9awAAAABJRU5ErkJggg==".

Definition january : value := VString "2024-01-10T10:00:00Z".
Definition february : value := VString "2024-02-10T10:00:00Z".

Definition submission (customer : string) (datetime : value) (type : string)
    : upload_body :=
  {| body_image := picture;
     body_customer_code := VString customer;
     body_measure_datetime := datetime;
     body_measure_type := VString type |}.

(** The image is written and recognised as [reading]; the file is named at
    [start] and the record identified at [finish] (milliseconds). *)
Definition answered (start finish : Z) (reading : number) : upload_env :=
  {| now_filename := start;
     sharp_ok := true;
     recognized := Some reading;
     now_uuid := finish |}.

Definition t0 : Z := 1725000000000.

Local Open Scope Z_scope.

Definition water_reading : request :=
  PostUpload (submission "C1" january "WATER")
             (answered t0 (t0 + 1500) 123.5%float).

Definition gas_reading : request :=
  PostUpload (submission "C1" january "GAS")
             (answered (t0 + 5000) (t0 + 6500) 77%float).

(** A gas reading by another customer, its type written in lower case. *)
Definition lowercase_reading : request :=
  PostUpload (submission "C2" february "gas")
             (answered (t0 + 5000) (t0 + 6500) 57%float).

(** The record stored for [water_reading]. *)
Definition water_record : Measure :=
  {| measure_uuid := "1725000001500";
     customer_code := "C1";
     measure_datetime := january;
     measure_type := "WATER";
     filePath := "/app/dist/tmp/1725000000000.jpg";
     measure_value := Some 123.5%float;
     has_confirmed := false |}.

(** The record stored for [lowercase_reading]. *)
Definition lowercase_record : Measure :=
  {| measure_uuid := "1725000006500";
     customer_code := "C2";
     measure_datetime := february;
     measure_type := "gas";
     filePath := "/app/dist/tmp/1725000005000.jpg";
     measure_value := Some 57%float;
     has_confirmed := false |}.

Definition gas_again : upload_env := answered (t0 + 9000) (t0 + 10500) 78%float.

(** Three readings with the same date: water, then gas, then gas again. *)
Definition water_gas_gas : list request :=
  [ water_reading; gas_reading;
    PostUpload (submission "C1" january "GAS") gas_again ].

(** Two readings of different months whose recognitions end within the same
    millisecond. *)
Definition same_millisecond : list request :=
  [ water_reading;
    PostUpload (submission "C2" february "GAS")
               (answered (t0 + 1) (t0 + 1500) 77%float) ].

(** The two readings of [same_millisecond], then one confirmation of the
    identifier that both records carry. *)
Definition same_millisecond_confirmed : list request :=
  (same_millisecond
   ++ [PatchConfirm (VString "1725000001500") (VNumber 120%float)])%list.

(** The gas reading of [lowercase_reading], its type written with the long
    s (U+017F), whose upper-case form is the letter S. *)
Definition long_s_reading : request :=
  PostUpload (submission "C2" february "gaſ")
             (answered (t0 + 5000) (t0 + 6500) 57%float).

(** The record stored for [long_s_reading]. *)
Definition long_s_record : Measure :=
  {| measure_uuid := "1725000006500";
     customer_code := "C2";
     measure_datetime := february;
     measure_type := "gaſ";
     filePath := "/app/dist/tmp/1725000005000.jpg";
     measure_value := Some 57%float;
     has_confirmed := false |}.

End Sample.

(** * Properties *)

(** ** Builtins and validation *)

Lemma includes_validMeasureTypes s :
  includes validMeasureTypes s = true <-> s = "WATER" \/ s = "GAS".
Proof.
  unfold includes, validMeasureTypes. simpl.
  rewrite !orb_true_iff, !String.eqb_eq. intuition congruence.
Qed.

Lemma typeof_not_string v :
  bool_decide (typeof v <> TString)
  = match v with VString _ => false | _ => true end.
Proof. by destruct v. Qed.

Lemma typeof_not_number v :
  bool_decide (typeof v <> TNumber)
  = match v with VNumber _ => false | _ => true end.
Proof. by destruct v. Qed.

Lemma error_bodies_distinct :
  customer_code_error <> measure_datetime_error
  /\ customer_code_error <> measure_type_error
  /\ customer_code_error <> image_error.
Proof. split_and!; intros [=]. Qed.

(** ** The confirm handler, case by case *)

Lemma confirm_well_typed db id v :
  confirm db (VString id) (VNumber v) =
  match find_by_uuid db id with
  | None => (db, measure_not_found)
  | Some (i, measure) =>
    if has_confirmed measure then (db, confirmation_duplicate)
    else (<[i := confirm_measure measure v]> db, Respond 200 (ConfirmBody true))
  end.
Proof. reflexivity. Qed.

(** After the in-place update, [find] stops at the same index, on the
    updated record. *)
Lemma find_by_uuid_confirmed (db : database) id i m v :
  find_by_uuid db id = Some (i, m) ->
  find_by_uuid (<[i := confirm_measure m v]> db) id
  = Some (i, confirm_measure m v).
Proof.
  unfold find_by_uuid. intros (Hl & HP & Hleast)%list_find_Some.
  apply list_find_Some. split_and!.
  - apply list_lookup_insert_eq. by eapply lookup_lt_Some.
  - done.
  - intros j y Hj Hlt. rewrite list_lookup_insert_ne in Hj by lia. eauto.
Qed.

(** A confirmation leaves the database as it was or updates, in place, the
    first record with the identifier, which was pending. *)
Lemma confirm_database db u cv :
  fst (confirm db u cv) = db \/
  exists id v i m, u = VString id /\ cv = VNumber v
    /\ db !! i = Some m /\ measure_uuid m = id /\ has_confirmed m = false
    /\ find_by_uuid db id = Some (i, m)
    /\ confirm db u cv
       = (<[i := confirm_measure m v]> db, Respond 200 (ConfirmBody true)).
Proof.
  unfold confirm. rewrite typeof_not_string, typeof_not_number.
  destruct u as [| | | |id]; try by left.
  destruct cv as [| | |v|]; try by left. cbn [orb].
  destruct (find_by_uuid db id) as [[i m]|] eqn:Hf; [|by left].
  destruct (has_confirmed m) eqn:Hc; [by left|].
  right. exists id, v, i, m. split_and!; try done.
  all: by apply list_find_Some in Hf as (? & ? & _).
Qed.

(** ** The list handler *)

Lemma list_filter_listByCustomer db c q :
  list_filter db c q = listByCustomer db c q.
Proof.
  unfold list_filter. destruct (supplied_type q) as [s|] eqn:Hs.
  - rewrite list_filter_filter. apply list_filter_iff.
    intros m. unfold type_selected. rewrite Hs. tauto.
  - apply list_filter_iff.
    intros m. unfold type_selected. rewrite Hs. tauto.
Qed.

Lemma list_measures_answer db c q :
  (forall s, supplied_type q = Some s ->
     includes validMeasureTypes (toUpperCase s) = true) ->
  list_measures db c q =
  match list_filter db c q with
  | [] => measures_not_found
  | _ :: _ => Respond 200 (ListBody c (to_view <$> list_filter db c q))
  end.
Proof.
  intros Hvalid. unfold list_measures.
  destruct (supplied_type q) as [s|] eqn:Hs.
  - rewrite (Hvalid s eq_refl). cbn [negb].
    by destruct (list_filter db c q).
  - by destruct (list_filter db c q).
Qed.

Lemma list_filter_forget_value db c q :
  list_filter (forget_value <$> db) c q = forget_value <$> list_filter db c q.
Proof.
  rewrite !list_filter_listByCustomer. unfold listByCustomer.
  induction db as [|m db IH]; [done|].
  rewrite fmap_cons, !filter_cons, IH.
  assert (type_selected q (forget_value m) <-> type_selected q m) as Ht.
  { unfold type_selected. by destruct (supplied_type q). }
  cbn [forget_value customer_code].
  repeat case_decide; try done; tauto.
Qed.

Lemma list_measures_forget_value db c q :
  list_measures (forget_value <$> db) c q = list_measures db c q.
Proof.
  unfold list_measures. rewrite list_filter_forget_value.
  by rewrite length_fmap, <- list_fmap_compose.
Qed.

(** ** The claims about confirmation and listing *)

(** Confirming twice.  When the first record with the identifier [id] is
    pending, a first confirmation with [v] is answered 200 and puts [v] and
    the confirmed mark in that record, changing nothing else; a second
    confirmation of [id], with [v2], is answered CONFIRMATION_DUPLICATE and
    changes nothing, so the record still holds [v]. *)
Theorem confirm_then_confirm_again (db : database) id v v2 i m :
  db !! i = Some m ->
  measure_uuid m = id ->
  has_confirmed m = false ->
  (forall j m', (j < i)%nat -> db !! j = Some m' -> measure_uuid m' <> id) ->
  let confirmed :=
    {| measure_uuid := id;
       customer_code := customer_code m;
       measure_datetime := measure_datetime m;
       measure_type := measure_type m;
       filePath := filePath m;
       measure_value := Some v;
       has_confirmed := true |} in
  let first := confirm db (VString id) (VNumber v) in
  let second := confirm (fst first) (VString id) (VNumber v2) in
  first = (<[i := confirmed]> db, Respond 200 (ConfirmBody true))
  /\ fst first !! i = Some confirmed
  /\ (forall j, j <> i -> fst first !! j = db !! j)
  /\ second = (fst first, confirmation_duplicate).
Proof.
  intros Hi Hid Hpending Hfirst_with_id confirmed first second.
  assert (find_by_uuid db id = Some (i, m)) as Hfind.
  { apply list_find_Some. split_and!; [done..|].
    intros j y Hj Hlt. by apply (Hfirst_with_id j). }
  assert (confirm_measure m v = confirmed) as Hm.
  { subst confirmed. unfold confirm_measure. by rewrite Hid. }
  assert (Hfirst : first = (<[i := confirmed]> db,
                            Respond 200 (ConfirmBody true))).
  { subst first. by rewrite confirm_well_typed, Hfind, Hpending, Hm. }
  pose proof (find_by_uuid_confirmed db id i m v Hfind) as Hfound.
  rewrite Hm in Hfound.
  assert (Hsecond : second = (fst first, confirmation_duplicate)).
  { subst second. rewrite confirm_well_typed, Hfirst. cbn [fst].
    by rewrite Hfound. }
  rewrite Hsecond, Hfirst. cbn [fst snd]. split_and!; try done.
  - apply list_lookup_insert_eq. by eapply lookup_lt_Some.
  - intros j Hj. by apply list_lookup_insert_ne.
Qed.

(** Claim C6: a confirmation whose identifier matches no record is answered
    MEASURE_NOT_FOUND and leaves the database unchanged; a confirmation
    whose value is not a number is answered INVALID_DATA, whatever the
    identifier and the database are. *)
Theorem C6_confirm_unknown_or_not_numeric (db : database) :
  (forall id v, (forall m, m ∈ db -> measure_uuid m <> id) ->
     confirm db (VString id) (VNumber v) = (db, measure_not_found))
  /\ (forall u cv, typeof cv <> TNumber ->
     confirm db u cv = (db, confirm_invalid_data)).
Proof.
  split.
  - intros id v Hnone. rewrite confirm_well_typed.
    assert (find_by_uuid db id = None) as ->; [|done].
    apply list_find_None, Forall_forall. auto.
  - intros u cv Hcv. unfold confirm.
    by rewrite (bool_decide_eq_true_2 _ Hcv), orb_true_r.
Qed.

(** Claim C7: for a type filter that is absent or valid, the listing answers
    with exactly the records of the customer that pass the type filter, in
    the order of the database, or with MEASURES_NOT_FOUND when there is
    none.  The entry answered for a record holds its identifier, date, type,
    confirmed mark and file path; the answer does not depend on the numeric
    values of the records. *)
Theorem C7_list_by_customer db c q :
  (forall s, supplied_type q = Some s ->
     includes validMeasureTypes (toUpperCase s) = true) ->
  let selected := listByCustomer db c q in
  let entry (m : Measure) :=
    {| view_measure_uuid := measure_uuid m;
       view_measure_datetime := measure_datetime m;
       view_measure_type := measure_type m;
       view_has_confirmed := has_confirmed m;
       view_image_url := filePath m |} in
  list_measures db c q =
    match selected with
    | [] => measures_not_found
    | _ :: _ => Respond 200 (ListBody c (entry <$> selected))
    end
  /\ sublist selected db
  /\ (forall m, m ∈ selected <->
        m ∈ db /\ customer_code m = c /\ type_selected q m)
  /\ list_measures (forget_value <$> db) c q = list_measures db c q.
Proof.
  intros Hvalid selected entry. split_and!.
  - rewrite (list_measures_answer db c q Hvalid).
    by rewrite list_filter_listByCustomer.
  - apply sublist_filter.
  - intros m. subst selected. unfold listByCustomer.
    rewrite list_elem_of_filter. tauto.
  - apply list_measures_forget_value.
Qed.

(** Claim C9: a type query that is the empty string or is not a string is
    handled as an absent one: the answer is never INVALID_TYPE, no record is
    filtered by type and all the records of the customer are answered. *)
Theorem C9_empty_or_non_string_type_is_no_filter db c q :
  q = QString "" \/ (forall s, q <> QString s) ->
  let of_customer := filter (fun m => customer_code m = c) db in
  list_filter db c q = of_customer
  /\ list_measures db c q = list_measures db c QUndefined
  /\ list_measures db c q <> invalid_type
  /\ list_measures db c q =
     match of_customer with
     | [] => measures_not_found
     | _ :: _ => Respond 200 (ListBody c (to_view <$> of_customer))
     end.
Proof.
  intros Hq of_customer.
  assert (supplied_type q = None) as Hnone.
  { destruct Hq as [->|Hq]; [done|]. destruct q; try done. by destruct (Hq s). }
  assert (list_filter db c q = of_customer) as Hf.
  { unfold list_filter. by rewrite Hnone. }
  assert (list_measures db c q =
     match of_customer with
     | [] => measures_not_found
     | _ :: _ => Respond 200 (ListBody c (to_view <$> of_customer))
     end) as Hl.
  { rewrite list_measures_answer, Hf; [done|]. intros s. by rewrite Hnone. }
  split_and!; try done.
  - rewrite Hl. unfold list_measures, list_filter. cbn [supplied_type].
    fold of_customer. by destruct of_customer.
  - rewrite Hl. unfold measures_not_found, invalid_type, respond_error.
    destruct of_customer; discriminate.
Qed.

(** Claim C10: with a valid type filter, a stored record of the customer is
    selected, and its entry answered, exactly when its stored type put in
    upper case is the filter put in upper case. *)
Theorem C10_type_filter_is_case_insensitive db c s m :
  s <> "" ->
  includes validMeasureTypes (toUpperCase s) = true ->
  m ∈ db ->
  customer_code m = c ->
  (m ∈ list_filter db c (QString s)
     <-> toUpperCase (measure_type m) = toUpperCase s)
  /\ ((exists views,
         list_measures db c (QString s) = Respond 200 (ListBody c views)
         /\ {| view_measure_uuid := measure_uuid m;
               view_measure_datetime := measure_datetime m;
               view_measure_type := measure_type m;
               view_has_confirmed := has_confirmed m;
               view_image_url := filePath m |} ∈ views)
     <-> toUpperCase (measure_type m) = toUpperCase s).
Proof.
  intros Hs Hvalid Hm Hc.
  change {| view_measure_uuid := measure_uuid m;
            view_measure_datetime := measure_datetime m;
            view_measure_type := measure_type m;
            view_has_confirmed := has_confirmed m;
            view_image_url := filePath m |} with (to_view m).
  assert (supplied_type (QString s) = Some s) as Hsup.
  { cbn. by destruct (String.eqb_spec s ""). }
  assert (forall x, x ∈ list_filter db c (QString s)
            <-> x ∈ db /\ customer_code x = c
                /\ toUpperCase (measure_type x) = toUpperCase s) as Hin.
  { intros x. unfold list_filter. rewrite Hsup.
    rewrite !list_elem_of_filter. tauto. }
  split.
  - rewrite Hin. tauto.
  - rewrite list_measures_answer
      by (intros s'; rewrite Hsup; by intros [= <-]).
    split.
    + destruct (list_filter db c (QString s)) as [|m0 l] eqn:Hl;
        intros (views & Hr & Hv); [discriminate|].
      assert (views = to_view <$> (m0 :: l)) as -> by congruence.
      apply list_elem_of_fmap in Hv as (m' & Hview & Hm').
      apply Hin in Hm' as (_ & _ & Hm').
      rewrite <- Hm'. f_equal.
      by apply (f_equal view_measure_type) in Hview.
    + intros Hup.
      assert (m ∈ list_filter db c (QString s)) as Hsel by by apply Hin.
      destruct (list_filter db c (QString s)) as [|m0 l] eqn:Hl.
      * by apply elem_of_nil in Hsel.
      * eexists. split; [done|]. by apply list_elem_of_fmap_2.
Qed.

Section Properties.

Variable Date_parse_ok : string -> bool.
Variable dirname : string.


(** The validator accepts exactly the requests whose image, customer code
    and type are strings, with a valid date, a type that is WATER or GAS up
    to case and a non-empty well-formed image. *)
Lemma validateUploadRequest_None img cc dt mt :
  validateUploadRequest Date_parse_ok img cc dt mt = None <->
  exists i c t, img = VString i /\ cc = VString c /\ mt = VString t
    /\ isValidDate Date_parse_ok dt = true
    /\ includes validMeasureTypes (toUpperCase t) = true
    /\ i <> "" /\ isBase64Image_string i = true.
Proof.
  unfold validateUploadRequest. rewrite !typeof_not_string. split.
  - destruct cc as [| | | |c]; try discriminate.
    destruct (isValidDate Date_parse_ok dt) eqn:Hd; try discriminate.
    destruct mt as [| | | |t]; try discriminate. cbn [negb orb].
    destruct (includes validMeasureTypes (toUpperCase t)) eqn:Ht;
      try discriminate.
    destruct img as [| |b|n|i]; cbn [truthy isBase64Image negb orb];
      try discriminate.
    + destruct b; discriminate.
    + rewrite orb_true_r. discriminate.
    + destruct (String.eqb_spec i ""); cbn [negb orb]; try discriminate.
      destruct (isBase64Image_string i) eqn:Hi; try discriminate.
      intros _. eauto 10.
  - intros (i & c & t & -> & -> & -> & -> & -> & Hne & Hi). cbn.
    rewrite Hi. by destruct (String.eqb_spec i "").
Qed.

(** ** The upload handler, case by case *)

Lemma upload_invalid db req env e :
  validateUploadRequest Date_parse_ok (body_image req) (body_customer_code req)
    (body_measure_datetime req) (body_measure_type req) = Some e ->
  upload Date_parse_ok dirname db req env = (db, Respond 400 (ErrorBody e)).
Proof. intros H. unfold upload. by rewrite H. Qed.

Lemma upload_valid db req env :
  validateUploadRequest Date_parse_ok (body_image req) (body_customer_code req)
    (body_measure_datetime req) (body_measure_type req) = None ->
  exists i c t,
    body_image req = VString i /\ body_customer_code req = VString c
    /\ body_measure_type req = VString t
    /\ upload Date_parse_ok dirname db req env =
       if match find_by_datetime db (body_measure_datetime req) with
          | Some (_, existing) => String.eqb (measure_type existing) t
          | None => false
          end
       then (db, double_report)
       else if negb (sharp_ok env) then (db, save_failed)
       else match recognized env with
            | None => (db, recognition_failed)
            | Some v =>
              ((db ++ [new_measure dirname req env c t v])%list,
               Respond 200 (UploadBody (tmp_file dirname (now_filename env)) v
                              (pretty (now_uuid env))))
            end.
Proof.
  intros H. pose proof H as H'.
  apply validateUploadRequest_None in H' as (i & c & t & Hi & Hc & Ht & _).
  exists i, c, t. split_and!; try done.
  unfold upload. by rewrite H, Hi, Hc, Ht.
Qed.

Lemma upload_200 db req env db' b :
  upload Date_parse_ok dirname db req env = (db', Respond 200 b) ->
  exists i c t v,
    body_image req = VString i /\ body_customer_code req = VString c
    /\ body_measure_type req = VString t
    /\ includes validMeasureTypes (toUpperCase t) = true
    /\ recognized env = Some v
    /\ db' = (db ++ [new_measure dirname req env c t v])%list
    /\ b = UploadBody (tmp_file dirname (now_filename env)) v
             (pretty (now_uuid env)).
Proof.
  intros H.
  destruct (validateUploadRequest Date_parse_ok (body_image req) (body_customer_code req)
    (body_measure_datetime req) (body_measure_type req)) as [e|] eqn:Hv.
  - rewrite (upload_invalid _ _ _ _ Hv) in H. discriminate.
  - pose proof Hv as Hv'.
    apply validateUploadRequest_None in Hv'
      as (i0 & c0 & t0 & Hi0 & Hc0 & Ht0 & _ & Hinc & _).
    destruct (upload_valid db req env Hv) as (i & c & t & Hi & Hc & Ht & Hu).
    rewrite Hu in H. clear Hu.
    assert (t0 = t) as -> by congruence.
    destruct (match find_by_datetime db (body_measure_datetime req) with
              | Some (_, existing) => String.eqb (measure_type existing) t
              | None => false end); [discriminate|].
    destruct (sharp_ok env); cbn in H; [|discriminate].
    destruct (recognized env) as [v|]; [|discriminate].
    injection H as <- <-. by exists i, c, t, v.
Qed.

(** The handler always answers: after validation the image, the customer
    code and the type are strings. *)
Lemma upload_answers db req env :
  snd (upload Date_parse_ok dirname db req env) <> Unhandled.
Proof.
  destruct (validateUploadRequest Date_parse_ok (body_image req)
    (body_customer_code req) (body_measure_datetime req)
    (body_measure_type req)) as [e|] eqn:Hv.
  - by rewrite (upload_invalid _ _ _ _ Hv).
  - destruct (upload_valid db req env Hv) as (i & c & t & _ & _ & _ & ->).
    repeat match goal with
           | |- context [if ?b then _ else _] => destruct b
           | |- context [match recognized env with _ => _ end] =>
               destruct (recognized env)
           end; discriminate.
Qed.

(** An upload leaves the database as it was or appends one record to it. *)
Lemma upload_database db req env :
  fst (upload Date_parse_ok dirname db req env) = db \/
  exists m b, upload Date_parse_ok dirname db req env = ((db ++ [m])%list, Respond 200 b).
Proof.
  destruct (validateUploadRequest Date_parse_ok (body_image req) (body_customer_code req)
    (body_measure_datetime req) (body_measure_type req)) as [e|] eqn:Hv.
  - left. by rewrite (upload_invalid _ _ _ _ Hv).
  - destruct (upload_valid db req env Hv) as (i & c & t & Hi & Hc & Ht & ->).
    destruct (match find_by_datetime db (body_measure_datetime req) with
              | Some (_, existing) => String.eqb (measure_type existing) t
              | None => false end); [by left|].
    destruct (sharp_ok env); cbn; [|by left].
    destruct (recognized env) as [v|]; [|by left].
    right. eauto.
Qed.

Lemma find_by_datetime_appended (db : database) m d :
  find_by_datetime db (VString d) = None ->
  measure_datetime m = VString d ->
  find_by_datetime (db ++ [m]) (VString d) = Some (length db, m).
Proof.
  unfold find_by_datetime. intros Hnone Hm.
  rewrite list_find_app_r by done. cbn.
  rewrite Hm. cbn. rewrite String.eqb_refl.
  by rewrite decide_True.
Qed.

(** ** The transition system *)

Lemma run_snoc db rs r :
  run Date_parse_ok dirname db (rs ++ [r])
  = fst (handle Date_parse_ok dirname (run Date_parse_ok dirname db rs) r).
Proof. unfold run. by rewrite fold_left_app. Qed.

Lemma handle_well_formed db r :
  Forall well_formed db -> Forall well_formed (fst (handle Date_parse_ok dirname db r)).
Proof.
  intros Hdb. destruct r as [req env|u cv|c q]; cbn [handle fst]; [| |done].
  - destruct (upload_database db req env) as [->|(m & b & Hup)]; [done|].
    rewrite Hup. cbn [fst].
    pose proof Hup
      as (i & c & t & v & _ & _ & _ & Hinc & _ & Hdb' & _)%upload_200.
    apply app_inj_1 in Hdb' as [_ [= ->]]; [|done].
    apply Forall_app. split; [done|]. apply Forall_singleton. split.
    + by eexists.
    + by apply includes_validMeasureTypes.
  - destruct (confirm_database db u cv)
      as [->|(id & v & i & m & _ & _ & Hi & _ & _ & _ & ->)]; [done|].
    cbn [fst]. apply Forall_insert; [done|].
    pose proof (Forall_lookup_1 _ _ _ _ Hdb Hi) as [_ Hty].
    split; [by eexists|done].
Qed.

(** ** The claims about submission *)

(** Claim C3, as the code has it: a record created by a successful
    submission stores the submitted type text unchanged.  The text is WATER
    or GAS once put in upper case, but it is not stored in upper case. *)
Theorem C3_type_stored_as_submitted db req env db' b :
  upload Date_parse_ok dirname db req env = (db', Respond 200 b) ->
  exists t m,
    body_measure_type req = VString t
    /\ db' = (db ++ [m])%list
    /\ measure_type m = t
    /\ (toUpperCase t = "WATER" \/ toUpperCase t = "GAS").
Proof.
  intros (i & c & t & v & _ & _ & Ht & Hinc & _ & -> & _)%upload_200.
  exists t, (new_measure dirname req env c t v).
  split_and!; try done. by apply includes_validMeasureTypes.
Qed.

(** Claim C4, as the code has it: the first rule of the validator rejects
    the customer codes that are not strings, before the date, type and image
    rules are looked at, and then no record is created; a customer code
    that is a string, the empty one included, never fails the first rule. *)
Theorem C4_customer_code_must_be_a_string db req env :
  let outcome :=
    validateUploadRequest Date_parse_ok (body_image req) (body_customer_code req)
      (body_measure_datetime req) (body_measure_type req) in
  (typeof (body_customer_code req) <> TString ->
     outcome = Some customer_code_error
     /\ upload Date_parse_ok dirname db req env = (db, Respond 400 (ErrorBody customer_code_error)))
  /\ (typeof (body_customer_code req) = TString ->
     outcome <> Some customer_code_error).
Proof.
  intros outcome. split.
  - intros Hty.
    assert (outcome = Some customer_code_error) as Ho.
    { subst outcome. unfold validateUploadRequest.
      by rewrite (bool_decide_eq_true_2 _ Hty). }
    split; [done|]. by apply upload_invalid.
  - intros Hty. subst outcome. unfold validateUploadRequest.
    rewrite bool_decide_eq_false_2 by (rewrite Hty; tauto).
    destruct error_bodies_distinct as (Hd & Ht & Hi).
    repeat match goal with
           | |- context [if ?b then _ else _] => destruct b
           end; congruence.
Qed.

(** ** Further properties of the store *)

(** The duplicate guard after a reading with a fresh date: once a reading
    with a date that no stored record has is accepted, a valid submission
    with the same date and the same type is answered DOUBLE_REPORT and
    stores nothing, and one with the same date and another type is
    accepted when the image is written and recognised. *)
Theorem duplicate_report_after_fresh_date db req env req2 env2 d t b :
  body_measure_datetime req = VString d ->
  body_measure_type req = VString t ->
  find_by_datetime db (VString d) = None ->
  snd (upload Date_parse_ok dirname db req env) = Respond 200 b ->
  body_measure_datetime req2 = VString d ->
  validateUploadRequest Date_parse_ok (body_image req2) (body_customer_code req2)
    (body_measure_datetime req2) (body_measure_type req2) = None ->
  let db1 := fst (upload Date_parse_ok dirname db req env) in
  (body_measure_type req2 = VString t ->
     upload Date_parse_ok dirname db1 req2 env2 = (db1, double_report))
  /\ (forall t2 v, body_measure_type req2 = VString t2 -> t2 <> t ->
       sharp_ok env2 = true -> recognized env2 = Some v ->
       exists m, upload Date_parse_ok dirname db1 req2 env2
                 = ((db1 ++ [m])%list,
                    Respond 200 (UploadBody (filePath m) v (measure_uuid m)))
                 /\ measure_type m = t2 /\ measure_datetime m = VString d).
Proof.
  intros Hd Ht Hfresh Hok Hd2 Hv2 db1.
  destruct (upload Date_parse_ok dirname db req env) as [db' r] eqn:Hup. cbn in Hok, db1. subst r.
  apply upload_200 in Hup as (i & c & t' & v & _ & _ & Ht' & _ & _ & Hdb' & _).
  assert (t' = t) as -> by congruence.
  assert (find_by_datetime db1 (VString d)
          = Some (length db, new_measure dirname req env c t v)) as Hfind.
  { subst db1. rewrite Hdb'. by apply find_by_datetime_appended. }
  destruct (upload_valid db1 req2 env2 Hv2) as (i2 & c2 & t2 & _ & _ & Ht2 & ->).
  rewrite Hd2, Hfind. cbn [measure_type new_measure].
  split.
  - intros Hsame. assert (t2 = t) as -> by congruence.
    by rewrite String.eqb_refl.
  - intros t3 v2 Ht3 Hne Hsharp Hrec. assert (t3 = t2) as -> by congruence.
    destruct (String.eqb_spec t t2) as [->|_]; [done|].
    rewrite Hsharp, Hrec. cbn [negb].
    exists (new_measure dirname req2 env2 c2 t2 v2). by split_and!.
Qed.

(** Every record of a database the server can reach has a numeric value and
    a type that is WATER or GAS up to case. *)
Theorem reachable_well_formed db :
  reachable Date_parse_ok dirname db -> Forall well_formed db.
Proof.
  intros [rs <-]. induction rs as [|r rs IH] using rev_ind.
  - constructor.
  - rewrite run_snoc. by apply handle_well_formed.
Qed.

(** No request deletes or moves a record or changes its identifier,
    customer, date, type or file; a confirmed record is never changed again,
    and a record that is still pending after a request is unchanged by it. *)
Theorem handle_keeps_records db r i m :
  db !! i = Some m ->
  exists m', fst (handle Date_parse_ok dirname db r) !! i = Some m'
    /\ measure_uuid m' = measure_uuid m
    /\ customer_code m' = customer_code m
    /\ measure_datetime m' = measure_datetime m
    /\ measure_type m' = measure_type m
    /\ filePath m' = filePath m
    /\ (has_confirmed m = true -> m' = m)
    /\ (has_confirmed m' = false -> m' = m).
Proof.
  intros Hi. destruct r as [req env|u cv|c q]; cbn [handle fst].
  - exists m. split_and!; try done.
    destruct (upload_database db req env) as [->|(m0 & b & ->)]; [done|].
    cbn [fst]. by apply lookup_app_l_Some.
  - destruct (confirm_database db u cv)
      as [->|(id & v & j & mj & _ & _ & Hj & _ & Hpending & _ & ->)].
    { exists m. by split_and!. }
    cbn [fst]. destruct (decide (i = j)) as [->|Hne].
    + assert (mj = m) as -> by congruence.
      exists (confirm_measure m v). split_and!; try done.
      * apply list_lookup_insert_eq. by eapply lookup_lt_Some.
      * congruence.
    + exists m. split_and!; try done. by rewrite list_lookup_insert_ne.
  - exists m. by split_and!.
Qed.

End Properties.

(** * The handlers on the sample deployment *)

Import Sample.

(** The two sample records are what the server stores for their requests. *)
Lemma sample_records_stored :
  run iso_utc app_dir [] [water_reading; lowercase_reading]
  = [water_record; lowercase_record].
Proof. reflexivity. Qed.

(** ** Where the store loses its invariants *)

(** Claim C1 at three accepted readings: water, gas and gas again, all of
    the same date.  The scan for the date stops at the water record, whose
    type differs, so the second gas reading is accepted, and the database
    holds two records with the same date and the same type. *)
Theorem C1_same_date_and_type_stored_twice :
  let db := run iso_utc app_dir [] water_gas_gas in
  Forall succeeded (answers iso_utc app_dir [] water_gas_gas)
  /\ (exists m1 m2,
        db !! 1 = Some m1 /\ db !! 2 = Some m2
        /\ measure_datetime m1 = january /\ measure_datetime m2 = january
        /\ measure_type m1 = "GAS" /\ measure_type m2 = "GAS")
  /\ ~ unique_keys db.
Proof.
  intros db. split_and!.
  - repeat constructor; by eexists.
  - by eexists _, _.
  - intros Hunique.
    by pose proof (Hunique 1 2 _ _ eq_refl eq_refl eq_refl eq_refl).
Qed.

(** Claim C2 at the same readings: once the water and the gas readings of
    one date are stored, a further gas reading of that date has the date
    and the type of a stored record, and yet it is accepted and stored. *)
Theorem C2_repeated_gas_reading_accepted :
  let db := run iso_utc app_dir [] [water_reading; gas_reading] in
  let again := submission "C1" january "GAS" in
  (exists m, db !! 1 = Some m
     /\ measure_datetime m = body_measure_datetime again
     /\ VString (measure_type m) = body_measure_type again)
  /\ (exists m',
        upload iso_utc app_dir db again gas_again
        = ((db ++ [m'])%list,
           Respond 200 (UploadBody (filePath m') 78%float (measure_uuid m')))
        /\ measure_datetime m' = january /\ measure_type m' = "GAS").
Proof.
  intros db again. split.
  - eexists. by split_and!.
  - exists (new_measure app_dir again gas_again "C1" "GAS" 78%float).
    by split_and!.
Qed.

(** Claim C8 at two accepted readings whose recognitions end within the same
    millisecond: both records get the reading of the clock as identifier,
    so the database holds two records with the same identifier. *)
Theorem C8_same_millisecond_same_identifier :
  let db := run iso_utc app_dir [] same_millisecond in
  Forall succeeded (answers iso_utc app_dir [] same_millisecond)
  /\ (exists m1 m2,
        db = [m1; m2]
        /\ measure_uuid m1 = "1725000001500"
        /\ measure_uuid m2 = "1725000001500")
  /\ ~ unique_ids db.
Proof.
  intros db. split_and!.
  - repeat constructor; by eexists.
  - by eexists _, _.
  - intros Hunique.
    by pose proof (Hunique 0 1 _ _ eq_refl eq_refl eq_refl).
Qed.

(** Claim C5 where two records share an identifier.  After the two readings
    of [same_millisecond] and one confirmation of their identifier, the
    second record is pending and carries that identifier; a confirmation of
    it is answered CONFIRMATION_DUPLICATE and the record stays pending, with
    the value that was recognised. *)
Theorem C5_pending_record_behind_confirmed_one :
  let db := run iso_utc app_dir [] same_millisecond_confirmed in
  Forall succeeded (answers iso_utc app_dir [] same_millisecond_confirmed)
  /\ (exists m1 m2,
        db = [m1; m2]
        /\ measure_uuid m1 = "1725000001500" /\ has_confirmed m1 = true
        /\ measure_uuid m2 = "1725000001500" /\ has_confirmed m2 = false
        /\ measure_value m2 = Some 77%float)
  /\ confirm db (VString "1725000001500") (VNumber 64%float)
     = (db, confirmation_duplicate).
Proof.
  intros db. split_and!.
  - repeat constructor; by eexists.
  - eexists _, _. by split_and!.
  - reflexivity.
Qed.

(** ** Where the claims fail as they are written *)

(** Claim C3 as written fails: the type submitted as "water" is stored as
    "water", which is not its upper-case form. *)
Lemma C3_lowercase_type_stored_as_is :
  exists m b,
    upload iso_utc app_dir [] (submission "C1" january "water")
      (answered t0 (t0 + 1500) 123.5%float) = ([m], Respond 200 b)
    /\ measure_type m = "water"
    /\ measure_type m <> toUpperCase "water".
Proof. eexists _, _. split_and!; [by vm_compute..|]. vm_compute. discriminate. Qed.

(** Claim C4 as written fails: the validator lets an empty customer code
    through, and the submission creates a record whose customer code is
    empty. *)
Lemma C4_empty_customer_code_accepted :
  validateUploadRequest iso_utc picture (VString "") january (VString "WATER")
  = None
  /\ exists m b,
      upload iso_utc app_dir [] (submission "" january "WATER")
        (answered t0 (t0 + 1500) 123.5%float) = ([m], Respond 200 b)
      /\ customer_code m = "".
Proof. split; [by vm_compute|]. eexists _, _. split; by vm_compute. Qed.

(** ** The theorems at concrete requests *)

Lemma C3_witness :
  exists t m,
    body_measure_type (submission "C1" january "water") = VString t
    /\ fst (upload iso_utc app_dir [] (submission "C1" january "water")
             (answered t0 (t0 + 1500) 123.5%float)) = ([] ++ [m])%list
    /\ measure_type m = t
    /\ (toUpperCase t = "WATER" \/ toUpperCase t = "GAS").
Proof.
  exact (C3_type_stored_as_submitted iso_utc app_dir []
           (submission "C1" january "water")
           (answered t0 (t0 + 1500) 123.5%float) _ _ eq_refl).
Defined.

Lemma C4_witness :
  let req := {| body_image := picture; body_customer_code := VNumber 42%float;
                body_measure_datetime := january;
                body_measure_type := VString "WATER" |} in
  typeof (body_customer_code req) <> TString
  /\ upload iso_utc app_dir [] req (answered t0 (t0 + 1500) 123.5%float)
     = ([], Respond 400 (ErrorBody customer_code_error)).
Proof.
  intros req.
  assert (typeof (body_customer_code req) <> TString) as Hty by discriminate.
  split; [exact Hty|].
  exact (proj2 (proj1 (C4_customer_code_must_be_a_string iso_utc app_dir [] req
                         (answered t0 (t0 + 1500) 123.5%float)) Hty)).
Defined.

Lemma confirm_then_confirm_again_witness :
  let first :=
    confirm [water_record] (VString "1725000001500") (VNumber 120%float) in
  let second := confirm (fst first) (VString "1725000001500") (VNumber 7%float) in
  [water_record] !! 0 = Some water_record
  /\ measure_uuid water_record = "1725000001500"
  /\ has_confirmed water_record = false
  /\ snd first = Respond 200 (ConfirmBody true)
  /\ (exists m', fst first !! 0 = Some m'
        /\ measure_uuid m' = "1725000001500"
        /\ measure_value m' = Some 120%float /\ has_confirmed m' = true)
  /\ second = (fst first, confirmation_duplicate).
Proof.
  intros first second.
  assert (forall j m', (j < 0)%nat -> [water_record] !! j = Some m' ->
            measure_uuid m' <> "1725000001500") as Hfirst_with_id.
  { intros j m' Hj. by apply Nat.nlt_0_r in Hj. }
  pose proof (confirm_then_confirm_again [water_record] "1725000001500"
                120%float 7%float 0 water_record eq_refl eq_refl eq_refl
                Hfirst_with_id)
    as (H1 & H2 & _ & H3).
  split_and!; [reflexivity | reflexivity | reflexivity
               | exact (f_equal snd H1)
               | exact (ex_intro _ _ (conj H2 (conj eq_refl (conj eq_refl eq_refl))))
               | exact H3].
Defined.

Lemma C6_witness :
  (forall m, m ∈ [water_record] -> measure_uuid m <> "1725000009999")
  /\ confirm [water_record] (VString "1725000009999") (VNumber 120%float)
     = ([water_record], measure_not_found)
  /\ typeof (VString "120") <> TNumber
  /\ confirm [water_record] (VString "1725000009999") (VString "120")
     = ([water_record], confirm_invalid_data).
Proof.
  assert (forall m, m ∈ [water_record] -> measure_uuid m <> "1725000009999")
    as Hunknown.
  { intros m ->%list_elem_of_singleton. discriminate. }
  assert (typeof (VString "120") <> TNumber) as Hty by discriminate.
  destruct (C6_confirm_unknown_or_not_numeric [water_record]) as [Hnone Hbad].
  split_and!;
    [exact Hunknown | exact (Hnone _ 120%float Hunknown)
     | exact Hty | exact (Hbad _ _ Hty)].
Defined.

Lemma C7_witness :
  supplied_type (QString "gas") = Some "gas"
  /\ includes validMeasureTypes (toUpperCase "gas") = true
  /\ list_measures [water_record; lowercase_record] "C2" (QString "gas")
     = Respond 200
         (ListBody "C2"
            [ {| view_measure_uuid := "1725000006500";
                 view_measure_datetime := february;
                 view_measure_type := "gas";
                 view_has_confirmed := false;
                 view_image_url := "/app/dist/tmp/1725000005000.jpg" |} ]).
Proof.
  assert (forall s, supplied_type (QString "gas") = Some s ->
            includes validMeasureTypes (toUpperCase s) = true) as Hvalid.
  { by intros s [= <-]. }
  split_and!; [reflexivity | reflexivity |].
  exact (proj1 (C7_list_by_customer [water_record; lowercase_record] "C2"
                  (QString "gas") Hvalid)).
Defined.

Lemma C9_witness :
  list_measures [water_record; lowercase_record] "C1" (QString "")
  = Respond 200 (ListBody "C1" [to_view water_record])
  /\ list_measures [water_record; lowercase_record] "C1" QOther
     = Respond 200 (ListBody "C1" [to_view water_record]).
Proof.
  split.
  - exact (proj2 (proj2 (proj2
      (C9_empty_or_non_string_type_is_no_filter
         [water_record; lowercase_record] "C1" (QString "")
         (or_introl eq_refl))))).
  - exact (proj2 (proj2 (proj2
      (C9_empty_or_non_string_type_is_no_filter
         [water_record; lowercase_record] "C1" QOther
         (or_intror (fun s (H : QOther = QString s) =>
                       eq_ind QOther
                         (fun q => match q with QOther => True | _ => False end)
                         I _ H)))))).
Defined.

Lemma C10_witness :
  lowercase_record ∈ [water_record; lowercase_record]
  /\ measure_type lowercase_record = "gas"
  /\ lowercase_record
       ∈ list_filter [water_record; lowercase_record] "C2" (QString "GAS")
  /\ (exists views,
       list_measures [water_record; lowercase_record] "C2" (QString "GAS")
       = Respond 200 (ListBody "C2" views)
       /\ {| view_measure_uuid := "1725000006500";
             view_measure_datetime := february;
             view_measure_type := "gas";
             view_has_confirmed := false;
             view_image_url := "/app/dist/tmp/1725000005000.jpg" |} ∈ views)
  /\ ~ water_record
        ∈ list_filter [water_record; lowercase_record] "C1" (QString "GAS").
Proof.
  assert (lowercase_record ∈ [water_record; lowercase_record]) as Hin.
  { apply list_elem_of_further, list_elem_of_here. }
  assert (water_record ∈ [water_record; lowercase_record]) as Hin'.
  { apply list_elem_of_here. }
  assert ("GAS" <> "") as Hne by discriminate.
  destruct (C10_type_filter_is_case_insensitive
              [water_record; lowercase_record] "C2" "GAS" lowercase_record
              Hne eq_refl Hin eq_refl) as [Hsel Hview].
  destruct (C10_type_filter_is_case_insensitive
              [water_record; lowercase_record] "C1" "GAS" water_record
              Hne eq_refl Hin' eq_refl) as [Hsel' _].
  split_and!; [exact Hin | reflexivity
               | exact (proj2 Hsel eq_refl) | exact (proj2 Hview eq_refl) |].
  intros Hw. apply Hsel' in Hw. discriminate Hw.
Defined.

Lemma duplicate_report_after_fresh_date_witness :
  let db1 := run iso_utc app_dir [] [water_reading] in
  upload iso_utc app_dir db1 (submission "C9" january "WATER") gas_again
  = (db1, double_report)
  /\ exists m,
       upload iso_utc app_dir db1 (submission "C1" january "GAS") gas_again
       = ((db1 ++ [m])%list,
          Respond 200 (UploadBody (filePath m) 78%float (measure_uuid m)))
       /\ measure_type m = "GAS" /\ measure_datetime m = january.
Proof.
  intros db1. split.
  - exact (proj1 (duplicate_report_after_fresh_date iso_utc app_dir []
             (submission "C1" january "WATER")
             (answered t0 (t0 + 1500) 123.5%float)
             (submission "C9" january "WATER") gas_again
             "2024-01-10T10:00:00Z" "WATER" _
             eq_refl eq_refl eq_refl eq_refl eq_refl eq_refl) eq_refl).
  - exact (proj2 (duplicate_report_after_fresh_date iso_utc app_dir []
             (submission "C1" january "WATER")
             (answered t0 (t0 + 1500) 123.5%float)
             (submission "C1" january "GAS") gas_again
             "2024-01-10T10:00:00Z" "WATER" _
             eq_refl eq_refl eq_refl eq_refl eq_refl eq_refl)
             "GAS" 78%float eq_refl ltac:(discriminate) eq_refl eq_refl).
Defined.

Lemma reachable_well_formed_witness :
  Forall well_formed (run iso_utc app_dir [] water_gas_gas).
Proof.
  exact (reachable_well_formed iso_utc app_dir _
           (ex_intro _ water_gas_gas eq_refl)).
Defined.

Lemma handle_keeps_records_witness :
  exists m',
    fst (handle iso_utc app_dir [water_record]
           (PatchConfirm (VString "1725000001500") (VNumber 120%float))) !! 0
    = Some m'
    /\ measure_uuid m' = "1725000001500"
    /\ customer_code m' = "C1"
    /\ measure_datetime m' = january
    /\ measure_type m' = "WATER"
    /\ filePath m' = filePath water_record
    /\ (has_confirmed water_record = true -> m' = water_record)
    /\ (has_confirmed m' = false -> m' = water_record).
Proof.
  exact (handle_keeps_records iso_utc app_dir [water_record]
           (PatchConfirm (VString "1725000001500") (VNumber 120%float))
           0 water_record eq_refl).
Defined.

(** * Further properties *)

(** ** Strings *)

Lemma append_String c (s1 s2 : string) :
  String c s1 ++ s2 = String c (s1 ++ s2).
Proof. reflexivity. Qed.

Lemma string_app_assoc (s1 s2 s3 : string) :
  (s1 ++ s2) ++ s3 = s1 ++ (s2 ++ s3).
Proof.
  induction s1 as [|c s1 IH]; [done|]. by rewrite !append_String, IH.
Qed.

Lemma string_length_app s1 s2 :
  String.length (s1 ++ s2) = String.length s1 + String.length s2.
Proof.
  induction s1 as [|c s1 IH]; [done|]. rewrite append_String. cbn.
  by rewrite IH.
Qed.

Lemma list_ascii_of_string_app s1 s2 :
  list_ascii_of_string (s1 ++ s2)
  = (list_ascii_of_string s1 ++ list_ascii_of_string s2)%list.
Proof.
  induction s1 as [|c s1 IH]; [done|]. rewrite append_String. cbn.
  by rewrite IH.
Qed.

Lemma length_list_ascii_of_string s :
  length (list_ascii_of_string s) = String.length s.
Proof. induction s as [|c s IH]; [done|]. cbn. by rewrite IH. Qed.

Lemma substring_all s : String.substring 0 (String.length s) s = s.
Proof. induction s as [|c s IH]; [done|]. cbn. by rewrite IH. Qed.

Lemma substring_app_r s1 s2 :
  String.substring (String.length s1) (String.length s2) (s1 ++ s2) = s2.
Proof.
  induction s1 as [|c s1 IH]; [apply substring_all|].
  rewrite append_String. cbn. apply IH.
Qed.

Lemma strip_prefix_app p s : strip_prefix p (p ++ s) = Some s.
Proof.
  induction p as [|c p IH]; [done|]. rewrite append_String. cbn.
  by rewrite Ascii.eqb_refl.
Qed.

Lemma utf8_chars_cons s c cs :
  utf8_chars s = Some (c :: cs) ->
  exists r, s = c ++ r /\ utf8_chars r = Some cs /\ utf8_char c.
Proof.
  destruct s as [|b1 r1]; [done|]. cbn [utf8_chars].
  destruct (in_range 0 127 b1) eqn:H1.
  { destruct (utf8_chars r1) as [l|] eqn:Hr; [|done]. intros [= <- <-].
    exists r1. split_and!; [done..|]. intros r.
    change (utf8_chars (String b1 r) = cons (String b1 "") <$> utf8_chars r).
    cbn [utf8_chars]. by rewrite H1. }
  destruct (in_range 194 223 b1) eqn:H2.
  { destruct r1 as [|b2 r2]; [done|].
    destruct (is_continuation b2) eqn:C2; [|done].
    destruct (utf8_chars r2) as [l|] eqn:Hr; [|done]. intros [= <- <-].
    exists r2. split_and!; [done..|]. intros r.
    change (utf8_chars (String b1 (String b2 r))
            = cons (String b1 (String b2 "")) <$> utf8_chars r).
    cbn [utf8_chars]. by rewrite H1, H2, C2. }
  destruct (in_range 224 239 b1) eqn:H3.
  { destruct r1 as [|b2 [|b3 r3]]; [done..|].
    destruct (is_continuation b2) eqn:C2; [|done].
    destruct (is_continuation b3) eqn:C3; [|done].
    cbn [andb].
    destruct (utf8_chars r3) as [l|] eqn:Hr; [|done]. intros [= <- <-].
    exists r3. split_and!; [done..|]. intros r.
    change (utf8_chars (String b1 (String b2 (String b3 r)))
            = cons (String b1 (String b2 (String b3 ""))) <$> utf8_chars r).
    cbn [utf8_chars]. by rewrite H1, H2, H3, C2, C3. }
  destruct (in_range 240 244 b1) eqn:H4; [|done].
  destruct r1 as [|b2 [|b3 [|b4 r4]]]; [done..|].
  destruct (is_continuation b2) eqn:C2; [|done].
  destruct (is_continuation b3) eqn:C3; [|done].
  destruct (is_continuation b4) eqn:C4; [|done].
  cbn [andb].
  destruct (utf8_chars r4) as [l|] eqn:Hr; [|done]. intros [= <- <-].
  exists r4. split_and!; [done..|]. intros r.
  change (utf8_chars (String b1 (String b2 (String b3 (String b4 r))))
          = cons (String b1 (String b2 (String b3 (String b4 ""))))
              <$> utf8_chars r).
  cbn [utf8_chars]. by rewrite H1, H2, H3, H4, C2, C3, C4.
Qed.

Lemma utf8_chars_nil s : utf8_chars s = Some [] -> s = "".
Proof.
  destruct s as [|b1 r1]; [done|]. cbn [utf8_chars].
  destruct (in_range 0 127 b1).
  { by destruct (utf8_chars r1). }
  destruct (in_range 194 223 b1).
  { destruct r1 as [|b2 r2]; [done|].
    destruct (is_continuation b2); [|done]. by destruct (utf8_chars r2). }
  destruct (in_range 224 239 b1).
  { destruct r1 as [|b2 [|b3 r3]]; [done..|].
    destruct (is_continuation b2 && is_continuation b3); [|done].
    by destruct (utf8_chars r3). }
  destruct (in_range 240 244 b1); [|done].
  destruct r1 as [|b2 [|b3 [|b4 r4]]]; [done..|].
  destruct (is_continuation b2 && is_continuation b3 && is_continuation b4);
    [|done].
  by destruct (utf8_chars r4).
Qed.

Lemma utf8_chars_join s cs :
  utf8_chars s = Some cs -> join cs = s /\ Forall utf8_char cs.
Proof.
  revert s. induction cs as [|c cs IH]; intros s Hs.
  - by rewrite (utf8_chars_nil s Hs).
  - destruct (utf8_chars_cons s c cs Hs) as (r & -> & Hr & Hc).
    destruct (IH r Hr) as [<- Hall]. split; [done|by constructor].
Qed.

Lemma utf8_chars_app cs r :
  Forall utf8_char cs ->
  utf8_chars (join cs ++ r) = (cs ++.)%list <$> utf8_chars r.
Proof.
  induction 1 as [|c cs Hc _ IH].
  - change (join [] ++ r) with r. by destruct (utf8_chars r).
  - change (join (c :: cs)) with (c ++ join cs).
    rewrite string_app_assoc, Hc, IH. by destruct (utf8_chars r).
Qed.

Lemma utf8_char_nonempty c : utf8_char c -> c <> "".
Proof. intros Hc ->. by specialize (Hc ""). Qed.

Lemma table_lookup_In k t v : table_lookup k t = Some v -> In (k, v) t.
Proof.
  induction t as [|[k' v'] t IH]; [done|]. cbn.
  destruct (String.eqb_spec k' k) as [->|]; [intros [= ->]; by left|].
  intros H. right. by apply IH.
Qed.

Lemma upper_ascii_idemp c : upper_ascii (upper_ascii c) = upper_ascii c.
Proof. by destruct c as [[] [] [] [] [] [] [] []]. Qed.

Lemma upper_ascii_in_range c :
  in_range 0 127 (upper_ascii c) = in_range 0 127 c.
Proof. by destruct c as [[] [] [] [] [] [] [] []]. Qed.

Lemma upper_table_upper_case :
  forallb (fun kv => upper_case_text (snd kv)) upper_table = true.
Proof. vm_compute. reflexivity. Qed.

Lemma append_nil_r s : s ++ "" = s.
Proof. induction s as [|c s IH]; [done|]. by rewrite append_String, IH. Qed.

Lemma upper_char_cases c :
  (exists b, c = String b "" /\ upper_char c = String (upper_ascii b) "")
  \/ ((forall b, c <> String b "")
      /\ upper_char c = default c (table_lookup c upper_table)).
Proof.
  destruct c as [|b [|b2 r]].
  - right. split; [intros b [=]|reflexivity].
  - left. exists b. split; reflexivity.
  - right. split; [intros b' [=]|reflexivity].
Qed.

Lemma utf8_char_single b : utf8_char (String b "") -> in_range 0 127 b = true.
Proof.
  intros Hc. specialize (Hc "").
  change (utf8_chars (String b "") = Some [String b ""]) in Hc.
  cbn [utf8_chars] in Hc. destruct (in_range 0 127 b); [done|].
  exfalso. revert Hc.
  destruct (in_range 194 223 b); [intros [=]|].
  destruct (in_range 224 239 b); [intros [=]|].
  destruct (in_range 240 244 b); intros [=].
Qed.

Lemma upper_char_upper_case c :
  utf8_char c -> upper_case_text (upper_char c) = true.
Proof.
  intros Hc.
  destruct (upper_char_cases c) as [(b & -> & ->)|[Hmany ->]].
  - apply utf8_char_single in Hc. unfold upper_case_text.
    cbn [utf8_chars]. rewrite upper_ascii_in_range, Hc.
    change (utf8_chars "") with (Some (@nil string)).
    cbn [fmap option_fmap option_map forallb andb negb String.eqb].
    destruct (upper_char_cases (String (upper_ascii b) ""))
      as [(b' & [= <-] & ->)|[Hno _]]; [|by destruct (Hno (upper_ascii b))].
    by rewrite upper_ascii_idemp, String.eqb_refl.
  - destruct (table_lookup c upper_table) as [u|] eqn:Hu; cbn [default].
    + apply table_lookup_In in Hu. pose proof upper_table_upper_case as Hall.
      rewrite forallb_forall in Hall. apply (Hall _ Hu).
    + unfold upper_case_text. pose proof (Hc "") as H0.
      rewrite append_nil_r in H0.
      change (cons c <$> utf8_chars "") with (Some [c]) in H0. rewrite H0.
      cbn [forallb].
      destruct (upper_char_cases c) as [(b & -> & _)|[_ ->]];
        [by destruct (Hmany b)|].
      rewrite Hu. cbn [default]. rewrite String.eqb_refl.
      apply utf8_char_nonempty in Hc.
      by destruct (String.eqb_spec c "").
Qed.

Lemma upper_case_text_chars u :
  upper_case_text u = true ->
  u <> "" /\ exists cs, utf8_chars u = Some cs /\ Forall utf8_char cs
                       /\ join cs = u /\ upper_char <$> cs = cs.
Proof.
  unfold upper_case_text. destruct (utf8_chars u) as [cs|] eqn:Hu; [|done].
  rewrite andb_true_iff, negb_true_iff, String.eqb_neq, forallb_forall.
  intros [Hne Hfix]. split; [done|]. exists cs.
  destruct (utf8_chars_join u cs Hu) as [Hj Hall]. split_and!; try done.
  clear -Hfix. induction cs as [|c cs IH]; [done|].
  cbn [fmap list_fmap]. f_equal.
  - apply String.eqb_eq, Hfix. by left.
  - apply IH. intros x Hx. apply Hfix. by right.
Qed.

(** The upper-case form of a text of characters is a text of characters
    that upper-casing leaves as they are. *)
Lemma join_upper_char cs :
  Forall utf8_char cs ->
  exists us, utf8_chars (join (upper_char <$> cs)) = Some us
             /\ join us = join (upper_char <$> cs)
             /\ upper_char <$> us = us.
Proof.
  induction 1 as [|c cs Hc _ (us & Hus & Hj & Hfix)].
  - by exists [].
  - destruct (upper_case_text_chars _ (upper_char_upper_case c Hc))
      as (_ & os & Hos & Hall & Hjo & Hfo).
    exists (os ++ us)%list.
    change (join (upper_char <$> c :: cs))
      with (upper_char c ++ join (upper_char <$> cs)).
    rewrite <- Hjo at 1. rewrite utf8_chars_app, Hus by done.
    split_and!; [done| |by rewrite fmap_app, Hfo, Hfix].
    rewrite <- Hjo, <- Hj. clear. induction os as [|o os IH]; [done|].
    change (o ++ join (os ++ us) = (o ++ join os) ++ join us).
    by rewrite IH, string_app_assoc.
Qed.

Lemma toUpperCase_idemp s : toUpperCase (toUpperCase s) = toUpperCase s.
Proof.
  unfold toUpperCase at 2 3. destruct (utf8_chars s) as [cs|] eqn:Hs.
  - destruct (utf8_chars_join s cs Hs) as [_ Hall].
    destruct (join_upper_char cs Hall) as (us & Hus & Hj & Hfix).
    unfold toUpperCase. by rewrite Hus, Hfix.
  - unfold toUpperCase. by rewrite Hs.
Qed.

Lemma toUpperCase_empty s : String.eqb (toUpperCase s) "" = String.eqb s "".
Proof.
  unfold toUpperCase. destruct (utf8_chars s) as [[|c cs]|] eqn:Hs; [| |done].
  - by rewrite (utf8_chars_nil s Hs).
  - destruct (utf8_chars_cons s c cs Hs) as (r & -> & _ & Hc).
    destruct (upper_case_text_chars _ (upper_char_upper_case c Hc))
      as [Hne _].
    pose proof (utf8_char_nonempty c Hc) as Hne'.
    change (join (upper_char <$> c :: cs))
      with (upper_char c ++ join (upper_char <$> cs)).
    destruct (upper_char c) as [|a u]; [done|]. destruct c as [|b c]; [done|].
    reflexivity.
Qed.

Lemma toUpperCase_examples :
  toUpperCase "water" = "WATER" /\ toUpperCase "Gas" = "GAS"
  /\ toUpperCase "gaſ" = "GAS" /\ toUpperCase "straße" = "STRASSE".
Proof. by vm_compute. Qed.

Lemma filter_iff_in {A} (P Q : A -> Prop)
    `{!forall x, Decision (P x)} `{!forall x, Decision (Q x)} (l : list A) :
  (forall x, x ∈ l -> P x <-> Q x) -> filter P l = filter Q l.
Proof.
  induction l as [|x l IH]; intros Hall; [done|].
  rewrite !filter_cons, IH by (intros; apply Hall; by right).
  pose proof (Hall x ltac:(by left)) as Hx.
  repeat case_decide; tauto || done.
Qed.

(** ** The image check *)

Lemma base64_char_not_whitespace c :
  is_base64_char c = true \/ c = "="%char -> is_ascii_whitespace c = false.
Proof.
  destruct c as [[] [] [] [] [] [] [] []]; cbv; intuition discriminate.
Qed.

Lemma drop_padding_rev_keep c r :
  c <> "="%char -> drop_padding_rev (c :: r) = c :: r.
Proof.
  destruct c as [[] [] [] [] [] [] [] []]; intros H; try reflexivity.
  by destruct H.
Qed.

Lemma drop_padding_rev_one c r :
  c <> "="%char -> drop_padding_rev ("="%char :: c :: r) = c :: r.
Proof.
  destruct c as [[] [] [] [] [] [] [] []]; intros H; try reflexivity.
  by destruct H.
Qed.

(** The regular expression splits its input into a run of base64
    characters and what follows it. *)
Lemma base64Pattern_rest_split s :
  exists core,
    s = core ++ base64Pattern_rest s
    /\ forallb is_base64_char (list_ascii_of_string core) = true.
Proof.
  induction s as [|c s (core & Hs & Hcore)].
  - by exists "".
  - cbn [base64Pattern_rest]. destruct (is_base64_char c) eqn:Hc.
    + exists (String c core). rewrite append_String.
      cbn [list_ascii_of_string forallb].
      rewrite Hc, Hcore. split; [|done]. by rewrite <- Hs.
    + by exists "".
Qed.

Lemma base64Pattern_rest_core core pad :
  forallb is_base64_char (list_ascii_of_string core) = true ->
  match pad with
  | String c _ => is_base64_char c = false
  | EmptyString => True
  end ->
  base64Pattern_rest (core ++ pad) = pad.
Proof.
  intros Hcore Hpad. induction core as [|c core IH].
  - destruct pad as [|c pad]; [done|]. cbn [base64Pattern_rest].
    change ("" ++ String c pad) with (String c pad).
    cbn [base64Pattern_rest]. by rewrite Hpad.
  - rewrite append_String. cbn [list_ascii_of_string forallb] in Hcore.
    apply andb_true_iff in Hcore as [Hc Hcore].
    cbn [base64Pattern_rest]. rewrite Hc. auto.
Qed.

Lemma base64Pattern_test_true s :
  base64Pattern_test s = true <->
  exists core pad, s = core ++ pad
    /\ forallb is_base64_char (list_ascii_of_string core) = true
    /\ is_padding pad.
Proof.
  unfold base64Pattern_test, is_padding.
  rewrite !orb_true_iff, !String.eqb_eq. split.
  - intros H. destruct (base64Pattern_rest_split s) as (core & Hs & Hcore).
    exists core, (base64Pattern_rest s). tauto.
  - intros (core & pad & -> & Hcore & Hpad).
    rewrite base64Pattern_rest_core; [tauto|done|].
    by destruct Hpad as [->|[->| ->]].
Qed.

Lemma last_not_equals core :
  forallb is_base64_char core = true ->
  match rev core with c :: _ => c <> "="%char | [] => True end.
Proof.
  intros H. destruct (rev core) as [|c r] eqn:Hr; [done|].
  intros ->. assert (In "="%char core) as Hin.
  { apply in_rev. rewrite Hr. by left. }
  rewrite forallb_forall in H. by apply H in Hin.
Qed.

(** Once the length and the regular expression are checked, [atob] does
    not throw. *)
Lemma atob_ok_after_checks s :
  (N.of_nat (String.length s) mod 4 =? 0)%N = true ->
  base64Pattern_test s = true ->
  atob_ok s = true.
Proof.
  intros Hlen (core & pad & -> & Hcore & Hpad)%base64Pattern_test_true.
  unfold atob_ok.
  set (cs := list_ascii_of_string core) in *.
  assert (List.filter (fun c => negb (is_ascii_whitespace c))
            (list_ascii_of_string (core ++ pad))
          = (cs ++ list_ascii_of_string pad)%list) as ->.
  { rewrite list_ascii_of_string_app. fold cs.
    apply forallb_filter_id. apply forallb_forall. intros c Hc.
    rewrite base64_char_not_whitespace; [done|].
    apply in_app_or in Hc as [Hc|Hc].
    - left. rewrite forallb_forall in Hcore. auto.
    - right. destruct Hpad as [->|[->| ->]]; cbn in Hc; intuition. }
  rewrite <- length_list_ascii_of_string, list_ascii_of_string_app in Hlen.
  fold cs in Hlen. rewrite Hlen.
  assert (rev (drop_padding_rev (rev (cs ++ list_ascii_of_string pad))) = cs)
    as ->.
  { rewrite rev_app_distr. pose proof (last_not_equals cs Hcore) as Hlast.
    destruct Hpad as [->|[->| ->]]; cbn [list_ascii_of_string rev app].
    - destruct (rev cs) as [|c r] eqn:Hr.
      + cbn. by rewrite <- (rev_involutive cs), Hr.
      + rewrite drop_padding_rev_keep by done.
        by rewrite <- Hr, rev_involutive.
    - destruct (rev cs) as [|c r] eqn:Hr.
      + cbn. by rewrite <- (rev_involutive cs), Hr.
      + rewrite drop_padding_rev_one by done.
        by rewrite <- Hr, rev_involutive.
    - cbn. apply rev_involutive. }
  rewrite Hcore, andb_true_r.
  apply N.eqb_eq in Hlen. rewrite length_app, Nat2N.inj_add in Hlen.
  apply negb_true_iff, N.eqb_neq. intros H1.
  rewrite N.Div0.add_mod, H1 in Hlen.
  destruct Hpad as [->|[->| ->]]; vm_compute in Hlen; discriminate.
Qed.

Lemma nat_mod4 n : (N.of_nat n mod 4 =? 0)%N = true <-> n mod 4 = 0.
Proof.
  rewrite N.eqb_eq. change 4%N with (N.of_nat 4).
  rewrite <- Nat2N.inj_mod. lia.
Qed.

(** [isBase64Image] accepts exactly the images whose payload, after an
    allowed data-URI prefix is removed, has a length that is a multiple of
    four and consists of base64 characters followed by at most two [=]; the
    call of [atob] never turns such an image down. *)
Theorem isBase64Image_string_accepts image :
  isBase64Image_string image = true <->
  exists core pad,
    validated_base64Data image = core ++ pad
    /\ forallb is_base64_char (list_ascii_of_string core) = true
    /\ is_padding pad
    /\ String.length (core ++ pad) mod 4 = 0.
Proof.
  unfold isBase64Image_string. fold (validated_base64Data image).
  set (data := validated_base64Data image).
  destruct (N.of_nat (String.length data) mod 4 =? 0)%N eqn:Hlen; cbn [negb].
  - destruct (base64Pattern_test data) eqn:Hpat; cbn [negb].
    + rewrite atob_ok_after_checks by done. split; [intros _|done].
      apply base64Pattern_test_true in Hpat as (core & pad & Hd & Hcore & Hpad).
      exists core, pad. split_and!; try done. rewrite <- Hd. by apply nat_mod4.
    + split; [done|]. intros (core & pad & Hd & Hcore & Hpad & _).
      rewrite <- Hpat. apply base64Pattern_test_true. eauto.
  - split; [done|]. intros (core & pad & Hd & _ & _ & Hmod).
    rewrite <- Hd in Hmod. apply nat_mod4 in Hmod. congruence.
Qed.

Lemma strip_data_uri_data_uri t body :
  t ∈ data_uri_types -> strip_data_uri (data_uri t body) = Some body.
Proof.
  unfold data_uri_types. rewrite !elem_of_cons, elem_of_nil.
  intros [->|[->|[->|[->|[->|[]]]]]]; unfold strip_data_uri;
    cbn [fold_left data_uri_types].
  all: repeat match goal with
       | |- context [strip_prefix ?p (data_uri ?t body)] =>
           first
             [ change (strip_prefix p (data_uri t body)) with (@None string)
             | change (strip_prefix p (data_uri t body))
                 with (strip_prefix EmptyString body) ]
       end; reflexivity.
Qed.

Lemma upload_base64Data_data_uri t body :
  t ∈ data_uri_types ->
  upload_base64Data (data_uri t body)
  = if decide (t = "jpeg") then body else data_uri t body.
Proof.
  unfold data_uri_types. rewrite !elem_of_cons, elem_of_nil.
  intros [->|[->|[->|[->|[->|[]]]]]]; reflexivity.
Qed.

Lemma data_uri_longer t body : data_uri t body <> body.
Proof.
  intros H. apply (f_equal String.length) in H.
  unfold data_uri in H. rewrite !string_length_app in H. cbn in H. lia.
Qed.

(** For an image sent as a data URI of an allowed type, the validator
    checks the payload after the prefix, but the handler removes the prefix
    before decoding only when the type is jpeg: for png, webp, heic and heif
    it decodes the whole text, prefix included. *)
Theorem data_uri_payloads t body :
  t ∈ data_uri_types ->
  validated_base64Data (data_uri t body) = body
  /\ (upload_base64Data (data_uri t body) = body <-> t = "jpeg")
  /\ (t <> "jpeg" -> upload_base64Data (data_uri t body) = data_uri t body).
Proof.
  intros Ht. unfold validated_base64Data.
  rewrite strip_data_uri_data_uri, upload_base64Data_data_uri by done.
  split_and!; [done| |].
  - case_decide; [done|]. split; [|done].
    intros Heq. by apply data_uri_longer in Heq.
  - intros. by case_decide.
Qed.

(** ** The file type declared to the recognition service *)

Lemma plain_eqb c :
  plain c -> Ascii.eqb c "/" = false /\ Ascii.eqb c "." = false.
Proof. intros [H1 H2]. by rewrite !Ascii.eqb_neq. Qed.

Lemma extname_step_plain_no_dot c i st :
  plain c -> end_ st <> (-1)%Z -> startDot st = (-1)%Z ->
  extname_step c i st = (st, false).
Proof.
  intros [Hc1 Hc2]%plain_eqb Hend%Z.eqb_neq Hdot. unfold extname_step.
  by rewrite Hc1, Hc2, Hend, Hdot.
Qed.

Lemma extname_step_plain_after_dot c i st :
  plain c -> end_ st <> (-1)%Z -> startDot st <> (-1)%Z ->
  extname_step c i st
  = ({| startDot := startDot st; startPart := startPart st; end_ := end_ st;
        matchedSlash := matchedSlash st; preDotState := -1 |}, false).
Proof.
  intros [Hc1 Hc2]%plain_eqb Hend%Z.eqb_neq Hdot%Z.eqb_neq.
  unfold extname_step. by rewrite Hc1, Hc2, Hend, Hdot.
Qed.

Lemma extname_step_plain_first c i :
  plain c ->
  extname_step c i extname_init
  = ({| startDot := -1; startPart := 0; end_ := i + 1;
        matchedSlash := false; preDotState := 0 |}, false).
Proof.
  intros [Hc1 Hc2]%plain_eqb. unfold extname_step. by rewrite Hc1, Hc2.
Qed.

Lemma extname_step_dot i st :
  startDot st = (-1)%Z ->
  extname_step "." i st
  = ({| startDot := i; startPart := startPart st;
        end_ := if (end_ st =? -1)%Z then i + 1 else end_ st;
        matchedSlash := if (end_ st =? -1)%Z then false else matchedSlash st;
        preDotState := preDotState st |}, false).
Proof.
  intros Hdot. unfold extname_step. cbn [Ascii.eqb Bool.eqb].
  destruct (end_ st =? -1)%Z; cbn [startDot]; by rewrite Hdot.
Qed.

Lemma extname_step_slash i st :
  matchedSlash st = false ->
  extname_step "/" i st
  = ({| startDot := startDot st; startPart := i + 1; end_ := end_ st;
        matchedSlash := matchedSlash st; preDotState := preDotState st |},
     true).
Proof.
  intros H. unfold extname_step. cbn [Ascii.eqb Bool.eqb]. by rewrite H.
Qed.

(** Plain characters before any dot is seen leave the state as it is, once
    the end of the last component is known. *)
Lemma extname_loop_plain_no_dot cs rest i st :
  Forall plain cs -> end_ st <> (-1)%Z -> startDot st = (-1)%Z ->
  extname_loop (cs ++ rest) i st
  = extname_loop rest (i - Z.of_nat (length cs)) st.
Proof.
  intros Hcs Hend Hdot. revert i.
  induction Hcs as [|c cs Hc _ IH]; intros i.
  - cbn. f_equal. lia.
  - cbn [app extname_loop]. rewrite extname_step_plain_no_dot by done.
    rewrite IH. f_equal. cbn [length]. lia.
Qed.

(** Plain characters after the dot only record that the dot has something
    before it. *)
Lemma extname_loop_plain_after_dot cs rest i st :
  Forall plain cs -> cs <> [] ->
  end_ st <> (-1)%Z -> startDot st <> (-1)%Z ->
  extname_loop (cs ++ rest) i st
  = extname_loop rest (i - Z.of_nat (length cs))
      {| startDot := startDot st; startPart := startPart st; end_ := end_ st;
         matchedSlash := matchedSlash st; preDotState := -1 |}.
Proof.
  intros Hcs. revert i st.
  induction Hcs as [|c cs Hc Hcs IH]; intros i st Hne Hend Hdot; [done|].
  cbn [app extname_loop]. rewrite extname_step_plain_after_dot by done.
  destruct cs as [|c' cs].
  - cbn. f_equal; lia.
  - rewrite IH by done. cbn [startDot startPart end_ matchedSlash].
    f_equal. cbn [length]. lia.
Qed.

Lemma extname_loop_extension cs rest i :
  Forall plain cs -> (0 <= i)%Z ->
  extname_loop (cs ++ "."%char :: rest) i extname_init
  = extname_loop rest (i - Z.of_nat (length cs) - 1)
      {| startDot := i - Z.of_nat (length cs); startPart := 0; end_ := i + 1;
         matchedSlash := false; preDotState := 0 |}.
Proof.
  intros Hcs Hi. destruct Hcs as [|c cs Hc Hcs].
  - cbn [app extname_loop length]. rewrite extname_step_dot by done.
    cbn. f_equal; [lia|]. f_equal. lia.
  - cbn [app extname_loop]. rewrite extname_step_plain_first by done.
    rewrite extname_loop_plain_no_dot by (done || cbn; lia).
    cbn [extname_loop]. rewrite extname_step_dot by done.
    cbn [end_ startPart matchedSlash preDotState].
    assert ((i + 1 =? -1)%Z = false) as -> by lia.
    cbn [length]. f_equal; [lia|]. f_equal. lia.
Qed.

(** The extension of a file [name.ext] in a directory, when neither the
    name nor the extension holds a dot or a separator. *)
Lemma extname_of_plain_file dir name ext :
  name <> "" ->
  Forall plain (list_ascii_of_string name) ->
  Forall plain (list_ascii_of_string ext) ->
  extname (dir ++ "/" ++ name ++ "." ++ ext) = "." ++ ext.
Proof.
  intros Hname Hn He. unfold extname.
  set (path := dir ++ "/" ++ name ++ "." ++ ext).
  set (ld := String.length dir). set (ln := String.length name).
  set (le := String.length ext).
  assert (String.length path = ld + 1 + ln + 1 + le) as Hlen.
  { subst path. rewrite !string_length_app. cbn. lia. }
  assert (rev (list_ascii_of_string path)
          = (rev (list_ascii_of_string ext)
             ++ "."%char
                :: (rev (list_ascii_of_string name)
                    ++ "/"%char :: rev (list_ascii_of_string dir)))%list)
    as ->.
  { subst path. rewrite !list_ascii_of_string_app, !rev_app_distr. cbn.
    by rewrite <- !app_assoc. }
  rewrite Hlen.
  rewrite extname_loop_extension; [|by apply Forall_rev|lia].
  rewrite extname_loop_plain_after_dot; cbn [end_ startDot];
    rewrite ?length_rev, ?length_list_ascii_of_string; try lia.
  2: by apply Forall_rev.
  2: { destruct name; [done|]. cbn. by destruct (rev _). }
  cbn [extname_loop]. rewrite extname_step_slash by done.
  cbn [startDot startPart end_ preDotState].
  rewrite ?length_rev, ?length_list_ascii_of_string. fold ld ln le.
  assert ((Z.of_nat (ld + 1 + ln + 1 + le) - 1 - Z.of_nat le =? -1)%Z = false)
    as -> by (apply Z.eqb_neq; lia).
  assert ((Z.of_nat (ld + 1 + ln + 1 + le) - 1 + 1 =? -1)%Z = false)
    as -> by (apply Z.eqb_neq; lia).
  cbn [orb andb Z.eqb].
  replace (Z.to_nat (Z.of_nat (ld + 1 + ln + 1 + le) - 1 - Z.of_nat le))
    with (String.length (dir ++ "/" ++ name)).
  2: { rewrite !string_length_app. cbn. fold ld ln. lia. }
  replace (Z.to_nat (Z.of_nat (ld + 1 + ln + 1 + le) - 1 + 1
                     - (Z.of_nat (ld + 1 + ln + 1 + le) - 1 - Z.of_nat le)))
    with (String.length ("." ++ ext)).
  2: { rewrite string_length_app. cbn. fold le. lia. }
  subst path.
  replace (dir ++ "/" ++ name ++ "." ++ ext)
    with ((dir ++ "/" ++ name) ++ "." ++ ext)
    by (by rewrite !string_app_assoc).
  apply substring_app_r.
Qed.

Lemma pretty_N_char_plain x : plain (pretty_N_char x).
Proof. unfold pretty_N_char. repeat case_match; by split. Qed.

Lemma pretty_N_go_plain x s :
  Forall plain (list_ascii_of_string s) ->
  Forall plain (list_ascii_of_string (pretty_N_go x s)).
Proof.
  revert s. induction (N.lt_wf_0 x) as [x _ IH]; intros s Hs.
  destruct (decide (x = 0)%N) as [->|Hx]; [by rewrite pretty_N_go_0|].
  rewrite pretty_N_go_step by lia. apply IH.
  - apply N.div_lt; lia.
  - cbn. constructor; [apply pretty_N_char_plain|done].
Qed.

Lemma pretty_N_go_nonempty x s :
  (0 < x)%N \/ s <> "" -> pretty_N_go x s <> "".
Proof.
  revert s. induction (N.lt_wf_0 x) as [x _ IH]; intros s Hs.
  destruct (decide (x = 0)%N) as [->|Hx].
  - rewrite pretty_N_go_0. destruct Hs; [lia|done].
  - rewrite pretty_N_go_step by lia.
    apply IH; [apply N.div_lt; lia|by right].
Qed.

(** The decimal text of an integer is not empty and holds no dot and no
    separator. *)
Lemma pretty_Z_plain (z : Z) :
  pretty z <> "" /\ Forall plain (list_ascii_of_string (pretty z)).
Proof.
  assert (forall p : positive,
            pretty p <> "" /\ Forall plain (list_ascii_of_string (pretty p)))
    as Hpos.
  { intros p. unfold pretty, pretty_positive, pretty, pretty_N.
    rewrite decide_False by done. split.
    - apply pretty_N_go_nonempty. left. lia.
    - by apply pretty_N_go_plain. }
  destruct z as [|p|p]; unfold pretty, pretty_Z.
  - split; [done|]. repeat constructor; done.
  - apply Hpos.
  - split; [done|]. rewrite list_ascii_of_string_app. apply Forall_app.
    split; [repeat constructor; done|apply Hpos].
Qed.

(** Whatever the directory of the script and the reading of the clock, the
    file that the upload handler writes has the extension [.jpg], so
    [getMimeType] declares it as image/jpeg to the recognition service,
    whatever the format of the submitted image. *)
Theorem uploaded_file_is_declared_jpeg dirname now :
  extname (tmp_file dirname now) = ".jpg"
  /\ getMimeType (tmp_file dirname now) = "image/jpeg".
Proof.
  assert (extname (tmp_file dirname now) = ".jpg") as Hext.
  { unfold tmp_file.
    change (dirname ++ "/tmp/" ++ pretty now ++ ".jpg")
      with (dirname ++ "/tmp" ++ "/" ++ pretty now ++ "." ++ "jpg").
    rewrite <- (string_app_assoc dirname "/tmp").
    destruct (pretty_Z_plain now) as [Hne Hplain].
    rewrite extname_of_plain_file; [done|done|done|].
    repeat constructor; done. }
  split; [done|]. unfold getMimeType. by rewrite Hext.
Qed.

(** ** The validator, rule by rule *)

Lemma validation_errors_distinct :
  customer_code_error <> measure_datetime_error
  /\ customer_code_error <> measure_type_error
  /\ customer_code_error <> image_error
  /\ measure_datetime_error <> measure_type_error
  /\ measure_datetime_error <> image_error
  /\ measure_type_error <> image_error.
Proof. split_and!; intros [=]. Qed.

Lemma customer_code_rule cc :
  bool_decide (typeof cc <> TString) = false <-> customer_code_ok cc.
Proof.
  unfold customer_code_ok. rewrite bool_decide_eq_false. split; [|tauto].
  intros H. by destruct (decide (typeof cc = TString)).
Qed.

Lemma measure_type_rule mt :
  bool_decide (typeof mt <> TString)
  || match mt with
     | VString t => negb (includes validMeasureTypes (toUpperCase t))
     | _ => true
     end = false
  <-> measure_type_ok mt.
Proof.
  unfold measure_type_ok. rewrite typeof_not_string.
  destruct mt as [| | | |t]; cbn [orb];
    try (split; [done|by intros (? & ? & _)]).
  rewrite negb_false_iff, includes_validMeasureTypes.
  split; [eauto|]. by intros (? & [= <-] & ?).
Qed.

Lemma image_rule img :
  negb (truthy img) || negb (isBase64Image img) = false <-> image_ok img.
Proof.
  unfold image_ok. rewrite orb_false_iff, !negb_false_iff.
  destruct img as [| |b|n|i]; cbn [truthy isBase64Image].
  1-4: split; [by intros []|by intros (? & ? & _)].
  rewrite negb_true_iff, String.eqb_neq.
  split; [intros []; eauto|]. by intros (? & [= <-] & ? & ?).
Qed.

(** ** The confirm handler, all cases *)

Lemma confirm_cases db u cv :
  (confirm db u cv = (db, confirm_invalid_data)
     /\ (typeof u <> TString \/ typeof cv <> TNumber))
  \/ (exists id v, u = VString id /\ cv = VNumber v
        /\ find_by_uuid db id = None
        /\ confirm db u cv = (db, measure_not_found))
  \/ (exists id v i m, u = VString id /\ cv = VNumber v
        /\ find_by_uuid db id = Some (i, m) /\ has_confirmed m = true
        /\ confirm db u cv = (db, confirmation_duplicate))
  \/ (exists id v i m, u = VString id /\ cv = VNumber v
        /\ find_by_uuid db id = Some (i, m) /\ has_confirmed m = false
        /\ confirm db u cv
           = (<[i := confirm_measure m v]> db, Respond 200 (ConfirmBody true))).
Proof.
  destruct u as [| | | |id]; try (left; split; [done|left; discriminate]).
  destruct cv as [| | |v|]; try (left; split; [done|right; discriminate]).
  right. rewrite confirm_well_typed.
  destruct (find_by_uuid db id) as [[i m]|] eqn:Hf.
  - destruct (has_confirmed m) eqn:Hc.
    + right. left. by exists id, v, i, m.
    + right. right. by exists id, v, i, m.
  - left. by exists id, v.
Qed.


Lemma confirmed_records_insert (db : database) i m v :
  db !! i = Some m -> has_confirmed m = false ->
  confirmed_records (<[i := confirm_measure m v]> db)
  = S (confirmed_records db).
Proof.
  intros Hi Hc. unfold confirmed_records.
  rewrite insert_take_drop by by eapply lookup_lt_Some.
  rewrite <- (take_drop_middle db i m Hi) at 3.
  rewrite !filter_app, !filter_cons, !length_app.
  rewrite decide_True by done. rewrite decide_False by congruence.
  cbn. lia.
Qed.

(** ** The list handler, further *)

Lemma supplied_type_toUpperCase s :
  supplied_type (QString (toUpperCase s))
  = toUpperCase <$> supplied_type (QString s).
Proof.
  cbn. rewrite toUpperCase_empty. by destruct (String.eqb s "").
Qed.

(** The listing does not look at the case of the type in the query: the
    query put in upper case gets the same answer. *)
Theorem list_type_query_ignores_case db c s :
  list_measures db c (QString (toUpperCase s)) = list_measures db c (QString s)
  /\ list_filter db c (QString (toUpperCase s)) = list_filter db c (QString s).
Proof.
  unfold list_measures, list_filter. rewrite supplied_type_toUpperCase.
  destruct (supplied_type (QString s)) as [t|];
    cbn [fmap option_fmap option_map]; by rewrite ?toUpperCase_idemp.
Qed.

(** The answer of the listing is INVALID_TYPE exactly when the query holds a
    non-empty string whose upper-case form is neither WATER nor GAS,
    whatever the customer and the database are. *)
Theorem list_invalid_type_iff db c q :
  list_measures db c q = invalid_type <->
  exists s, q = QString s /\ s <> ""
            /\ toUpperCase s <> "WATER" /\ toUpperCase s <> "GAS".
Proof.
  unfold list_measures.
  destruct q as [|s|]; cbn [supplied_type].
  - split; [|by intros (? & ? & _)].
    by destruct (Nat.eqb _ _).
  - destruct (String.eqb_spec s "") as [->|Hne].
    + split; [|by intros (? & [= <-] & ? & _)]. by destruct (Nat.eqb _ _).
    + destruct (includes validMeasureTypes (toUpperCase s)) eqn:Hinc;
        cbn [negb].
      * apply includes_validMeasureTypes in Hinc.
        split; [by destruct (Nat.eqb _ _)|].
        intros (? & [= <-] & _ & ? & ?). tauto.
      * split; [intros _|done]. exists s. split_and!; try done.
        all: intros Heq; by rewrite Heq in Hinc.
  - split; [|by intros (? & ? & _)].
    by destruct (Nat.eqb _ _).
Qed.

(** In a database whose types are all WATER or GAS up to case, the records
    listed for a customer without a type are those listed under WATER
    together with those listed under GAS, and no record is listed under
    both. *)
Theorem list_types_partition db c :
  Forall well_formed db ->
  (list_filter db c (QString "WATER") ++ list_filter db c (QString "GAS"))%list
    ≡ₚ list_filter db c QUndefined
  /\ (forall m, m ∈ list_filter db c (QString "WATER") ->
               m ∈ list_filter db c (QString "GAS") -> False).
Proof.
  intros Hwf. unfold list_filter.
  change (supplied_type (QString "WATER")) with (Some "WATER").
  change (supplied_type (QString "GAS")) with (Some "GAS").
  change (supplied_type QUndefined) with (@None string).
  change (toUpperCase "WATER") with "WATER".
  change (toUpperCase "GAS") with "GAS".
  set (mine := filter (fun m => customer_code m = c) db).
  assert (Forall well_formed mine) as Hmine.
  { apply Forall_forall. intros m Hm%list_elem_of_filter.
    rewrite Forall_forall in Hwf. apply Hwf. tauto. }
  split.
  - rewrite (filter_iff_in (fun m => toUpperCase (measure_type m) = "GAS")
               (fun m => ~ toUpperCase (measure_type m) = "WATER") mine).
    + apply filter_app_complement.
    + intros m Hm. rewrite Forall_forall in Hmine.
      destruct (Hmine m Hm) as [_ [Hw|Hg]].
      * rewrite Hw. split; [discriminate|done].
      * rewrite Hg. split; [discriminate|done].
  - intros m [Hw _]%list_elem_of_filter [Hg _]%list_elem_of_filter.
    cbn beta in Hw, Hg. rewrite Hw in Hg. discriminate.
Qed.

Lemma listByCustomer_snoc db m c q :
  listByCustomer (db ++ [m]) c q
  = (listByCustomer db c q
     ++ if decide (customer_code m = c /\ type_selected q m)
        then [m] else [])%list.
Proof. unfold listByCustomer. by rewrite filter_app. Qed.

Lemma unique_ids_NoDup db : unique_ids db <-> NoDup (measure_uuid <$> db).
Proof.
  rewrite NoDup_alt. unfold unique_ids. split.
  - intros H i j x Hi Hj.
    apply list_lookup_fmap_Some in Hi as (m1 & -> & Hi).
    apply list_lookup_fmap_Some in Hj as (m2 & Heq & Hj). eauto.
  - intros H i j m1 m2 Hi Hj Heq.
    apply (H i j (measure_uuid m1)); rewrite list_lookup_fmap.
    + by rewrite Hi.
    + rewrite Hj. cbn. by rewrite Heq.
Qed.

Section Validator.

Variable Date_parse_ok : string -> bool.

(** On fields that are scalars or absent, the validator reports the first
    rule that fails, in the order customer code, date, type, image, and
    accepts the request when none fails. *)
Theorem validateUploadRequest_first_failure_wins img cc dt mt :
  let outcome := validateUploadRequest Date_parse_ok img cc dt mt in
  let date_ok := isValidDate Date_parse_ok dt = true in
  (outcome = Some customer_code_error <-> ~ customer_code_ok cc)
  /\ (outcome = Some measure_datetime_error <->
        customer_code_ok cc /\ ~ date_ok)
  /\ (outcome = Some measure_type_error <->
        customer_code_ok cc /\ date_ok /\ ~ measure_type_ok mt)
  /\ (outcome = Some image_error <->
        customer_code_ok cc /\ date_ok /\ measure_type_ok mt
        /\ ~ image_ok img)
  /\ (outcome = None <->
        customer_code_ok cc /\ date_ok /\ measure_type_ok mt /\ image_ok img).
Proof.
  intros outcome date_ok.
  destruct validation_errors_distinct as (H12 & H13 & H14 & H23 & H24 & H34).
  pose proof (customer_code_rule cc) as R1.
  pose proof (measure_type_rule mt) as R3.
  pose proof (image_rule img) as R4.
  subst outcome date_ok. unfold validateUploadRequest.
  destruct (bool_decide (typeof cc <> TString));
    [|destruct (isValidDate Date_parse_ok dt); cbn [negb];
      [destruct (_ || _) in R3 |- *;
        [|destruct (_ || _) in R4 |- *]|]].
  all: split_and!; split; intros; try congruence; intuition congruence.
Qed.

(** The validator turns down an image that is the empty text, but accepts
    an image that is only a data-URI prefix of an allowed type, with no
    payload at all. *)
Theorem empty_payload_accepted cc dt mt :
  customer_code_ok cc ->
  isValidDate Date_parse_ok dt = true ->
  measure_type_ok mt ->
  validateUploadRequest Date_parse_ok (VString "") cc dt mt = Some image_error
  /\ (forall t, t ∈ data_uri_types ->
        validateUploadRequest Date_parse_ok (VString (data_uri t "")) cc dt mt
        = None).
Proof.
  intros Hcc Hdt (t0 & -> & Ht%includes_validMeasureTypes).
  destruct cc as [| | | |c]; try done. split.
  - unfold validateUploadRequest. cbn [typeof truthy isBase64Image].
    rewrite Hdt. rewrite !bool_decide_eq_false_2 by tauto.
    cbn [negb orb]. by rewrite Ht.
  - intros t Hin. apply validateUploadRequest_None.
    exists (data_uri t ""), c, t0. split_and!; try done.
    revert Hin. unfold data_uri_types. rewrite !elem_of_cons, elem_of_nil.
    by intros [->|[->|[->|[->|[->|[]]]]]].
Qed.

End Validator.

Section MoreProperties.

Variable Date_parse_ok : string -> bool.
Variable dirname : string.

(** ** Submission *)

(** A submission that is answered 400 or 409 is answered so whatever the
    image library and the recognition service would do, and stores
    nothing. *)
Theorem upload_rejection_ignores_processing db req env env' st b :
  snd (upload Date_parse_ok dirname db req env) = Respond st b ->
  st = 400 \/ st = 409 ->
  upload Date_parse_ok dirname db req env' = (db, Respond st b).
Proof.
  intros Hans Hst.
  destruct (validateUploadRequest Date_parse_ok (body_image req)
    (body_customer_code req) (body_measure_datetime req)
    (body_measure_type req)) as [e|] eqn:Hv.
  - rewrite (upload_invalid _ dirname db req env e Hv) in Hans.
    rewrite (upload_invalid _ dirname db req env' e Hv).
    cbn in Hans. by rewrite Hans.
  - destruct (upload_valid _ dirname db req env Hv)
      as (i & c & t & _ & _ & Ht & Hu).
    destruct (upload_valid _ dirname db req env' Hv)
      as (i' & c' & t' & _ & _ & Ht' & ->).
    rewrite Hu in Hans. clear Hu. assert (t' = t) as -> by congruence.
    destruct (match find_by_datetime db (body_measure_datetime req) with
              | Some (_, existing) => String.eqb (measure_type existing) t
              | None => false end).
    + cbn in Hans. by rewrite Hans.
    + exfalso. destruct (sharp_ok env); cbn in Hans.
      * destruct (recognized env); cbn in Hans; injection Hans as <- _; lia.
      * injection Hans as <- _; lia.
Qed.

(** A submission stores all or nothing: answered 200, it has appended one
    pending record that holds the identifier, the value and the file of the
    answer and the customer, date and type of the request; answered
    otherwise, it has left the database as it was. *)
Theorem upload_all_or_nothing db req env :
  match snd (upload Date_parse_ok dirname db req env) with
  | Respond 200 (UploadBody url v id) =>
    exists c t,
      body_customer_code req = VString c /\ body_measure_type req = VString t
      /\ fst (upload Date_parse_ok dirname db req env)
         = (db ++ [ {| measure_uuid := id;
                       customer_code := c;
                       measure_datetime := body_measure_datetime req;
                       measure_type := t;
                       filePath := url;
                       measure_value := Some v;
                       has_confirmed := false |} ])%list
  | _ => fst (upload Date_parse_ok dirname db req env) = db
  end.
Proof.
  destruct (validateUploadRequest Date_parse_ok (body_image req)
    (body_customer_code req) (body_measure_datetime req)
    (body_measure_type req)) as [e|] eqn:Hv.
  - by rewrite (upload_invalid _ dirname db req env e Hv).
  - destruct (upload_valid _ dirname db req env Hv)
      as (i & c & t & _ & Hc & Ht & ->).
    destruct (match find_by_datetime db (body_measure_datetime req) with
              | Some (_, existing) => String.eqb (measure_type existing) t
              | None => false end); [done|].
    destruct (sharp_ok env); cbn [negb]; [|done].
    destruct (recognized env) as [v|]; [|done].
    cbn [fst snd]. by exists c, t.
Qed.

(** [database.find] on the date: the first record, in insertion order,
    whose date is strictly equal to the one looked for. *)
Lemma find_by_datetime_first (db : database) d i m :
  find_by_datetime db d = Some (i, m) <->
  db !! i = Some m
  /\ strict_eq (measure_datetime m) d = true
  /\ (forall j m', (j < i)%nat -> db !! j = Some m' ->
        strict_eq (measure_datetime m') d = false).
Proof.
  unfold find_by_datetime. rewrite list_find_Some.
  split; intros (Hi & Hd & Hbefore); split_and!; try done.
  - intros j m' Hlt Hj. apply not_true_is_false. by apply (Hbefore j).
  - intros j m' Hj Hlt. by rewrite (Hbefore j m' Hlt Hj).
Qed.

(** The duplicate guard, exactly: a submission is answered DOUBLE_REPORT
    when it passes validation and the first stored record with its date has
    its type, letter for letter. *)
Theorem double_report_iff db req env :
  snd (upload Date_parse_ok dirname db req env) = double_report <->
  validateUploadRequest Date_parse_ok (body_image req) (body_customer_code req)
    (body_measure_datetime req) (body_measure_type req) = None
  /\ exists i existing,
       db !! i = Some existing
       /\ strict_eq (measure_datetime existing) (body_measure_datetime req)
          = true
       /\ (forall j m, (j < i)%nat -> db !! j = Some m ->
             strict_eq (measure_datetime m) (body_measure_datetime req)
             = false)
       /\ body_measure_type req = VString (measure_type existing).
Proof.
  assert ((exists i existing,
       db !! i = Some existing
       /\ strict_eq (measure_datetime existing) (body_measure_datetime req)
          = true
       /\ (forall j m, (j < i)%nat -> db !! j = Some m ->
             strict_eq (measure_datetime m) (body_measure_datetime req)
             = false)
       /\ body_measure_type req = VString (measure_type existing))
    <-> exists i existing,
       find_by_datetime db (body_measure_datetime req) = Some (i, existing)
       /\ body_measure_type req = VString (measure_type existing)) as ->.
  { split; intros (i & existing & H); exists i, existing;
      rewrite find_by_datetime_first in *; tauto. }
  destruct (validateUploadRequest Date_parse_ok (body_image req)
    (body_customer_code req) (body_measure_datetime req)
    (body_measure_type req)) as [e|] eqn:Hv.
  - rewrite (upload_invalid _ dirname db req env e Hv). cbn [snd].
    split; [discriminate|]. by intros [? _].
  - destruct (upload_valid _ dirname db req env Hv)
      as (i & c & t & _ & _ & Ht & ->).
    destruct (find_by_datetime db (body_measure_datetime req))
      as [[j existing]|] eqn:Hf.
    + destruct (String.eqb_spec (measure_type existing) t) as [<-|Hne].
      * split; [|done]. intros _. split; [done|]. by exists j, existing.
      * split.
        -- destruct (sharp_ok env); cbn [negb]; [|discriminate].
           destruct (recognized env); discriminate.
        -- intros [_ (j' & ex' & [= <- <-] & Ht')]. congruence.
    + split.
      * destruct (sharp_ok env); cbn [negb]; [|discriminate].
        destruct (recognized env); discriminate.
      * by intros [_ (j' & ex' & ? & _)].
Qed.

(** ** Counting *)

Lemma run_cons db r rs :
  run Date_parse_ok dirname db (r :: rs)
  = run Date_parse_ok dirname (fst (handle Date_parse_ok dirname db r)) rs.
Proof. reflexivity. Qed.

(** One request changes the number of records by one when it is an accepted
    upload and not at all otherwise. *)
Lemma handle_length db r :
  length (fst (handle Date_parse_ok dirname db r))
  = length db
    + (if creates r (snd (handle Date_parse_ok dirname db r)) then 1 else 0).
Proof.
  destruct r as [req env|u cv|c q]; cbn [handle fst snd].
  - destruct (upload_database Date_parse_ok dirname db req env)
      as [Hsame|(m & b & ->)].
    + rewrite Hsame.
      destruct (upload Date_parse_ok dirname db req env) as [db' a] eqn:Hup.
      cbn [fst snd] in *. subst db'.
      destruct a as [st b|]; [|cbn [creates]; lia].
      destruct (decide (st = 200)) as [->|Hne].
      * apply upload_200 in Hup
          as (i & c & t & v & _ & _ & _ & _ & _ & Habs & _).
        apply (f_equal length) in Habs. rewrite length_app in Habs.
        cbn in Habs. lia.
      * assert (creates (PostUpload req env) (Respond st b) = false) as ->;
          [|lia].
        cbn. do 201 (destruct st as [|st]; try done).
    + cbn [fst snd]. rewrite length_app. cbn. lia.
  - destruct (confirm_database db u cv)
      as [->|(id & v & i & m & _ & _ & _ & _ & _ & _ & ->)].
    + cbn [creates]. lia.
    + cbn [fst snd creates]. rewrite length_insert. lia.
  - cbn [creates]. lia.
Qed.

(** The database grows by exactly one record for each upload answered 200:
    no request removes a record and no other request adds one. *)
Theorem stored_records_counted db rs :
  length (run Date_parse_ok dirname db rs)
  = length db + count_answers Date_parse_ok dirname creates db rs.
Proof.
  revert db. induction rs as [|r rs IH]; intros db.
  - cbn. lia.
  - rewrite run_cons, IH. cbn [count_answers]. rewrite handle_length. lia.
Qed.

Lemma handle_confirmed_records db r :
  confirmed_records (fst (handle Date_parse_ok dirname db r))
  = confirmed_records db
    + (if confirms r (snd (handle Date_parse_ok dirname db r)) then 1 else 0).
Proof.
  destruct r as [req env|u cv|c q]; cbn [handle fst snd].
  - change (confirms (PostUpload req env) _) with false.
    rewrite Nat.add_0_r.
    destruct (upload_database Date_parse_ok dirname db req env)
      as [->|(m & b & Hup)]; [done|].
    rewrite Hup. cbn [fst].
    apply upload_200 in Hup as (i & c & t & v & _ & _ & _ & _ & _ & Hdb & _).
    apply app_inj_1 in Hdb as [_ [= ->]]; [|done].
    unfold confirmed_records. rewrite filter_app, length_app.
    rewrite filter_cons, decide_False by done. cbn. lia.
  - destruct (confirm_cases db u cv)
      as [[-> _]|[(id & v & _ & _ & _ & ->)
         |[(id & v & i & m & _ & _ & _ & _ & ->)
          |(id & v & i & m & _ & _ & Hf & Hc & ->)]]]; cbn [fst snd];
      try (change (confirms _ _) with false; cbn iota; lia).
    change (confirms _ _) with true. cbn iota.
    apply list_find_Some in Hf as (Hi & _ & _).
    rewrite confirmed_records_insert by done. lia.
  - change (confirms _ _) with false. cbn iota. lia.
Qed.

(** The number of confirmed records grows by exactly one for each
    confirmation answered 200: a successful confirmation confirms one
    pending record, and nothing ever takes a confirmation back. *)
Theorem confirmed_records_counted db rs :
  confirmed_records (run Date_parse_ok dirname db rs)
  = confirmed_records db
    + count_answers Date_parse_ok dirname confirms db rs.
Proof.
  revert db. induction rs as [|r rs IH]; intros db.
  - unfold run. cbn [fold_left count_answers]. lia.
  - rewrite run_cons, IH. cbn [count_answers].
    rewrite handle_confirmed_records. lia.
Qed.

(** ** Identifiers *)

Lemma handle_ids db r :
  measure_uuid <$> fst (handle Date_parse_ok dirname db r)
  = ((measure_uuid <$> db)
     ++ (pretty <$> created_clock r
                      (snd (handle Date_parse_ok dirname db r))))%list.
Proof.
  destruct r as [req env|u cv|c q]; cbn [handle fst snd].
  - destruct (upload Date_parse_ok dirname db req env) as [db' a] eqn:Hup.
    pose proof (upload_database Date_parse_ok dirname db req env) as Hdb.
    rewrite Hup in Hdb. cbn [fst snd] in *.
    destruct a as [st b|].
    + destruct (decide (st = 200)) as [->|Hne].
      * pose proof Hup
          as (i & c & t & v & _ & _ & _ & _ & _ & -> & ->)%upload_200.
        by rewrite fmap_app.
      * assert (created_clock (PostUpload req env) (Respond st b) = [])
          as ->.
        { cbn. do 201 (destruct st as [|st]; try done). }
        destruct Hdb as [->|(m & b' & [= _ ? _])]; [|done].
        by rewrite app_nil_r.
    + destruct Hdb as [->|(m & b' & [=])]. by rewrite app_nil_r.
  - destruct (confirm_database db u cv)
      as [->|(id & v & i & m & _ & _ & Hi & _ & _ & _ & ->)];
      rewrite app_nil_r; [done|].
    cbn [fst]. rewrite list_fmap_insert. cbn [confirm_measure measure_uuid].
    apply list_insert_id. by rewrite list_lookup_fmap, Hi.
  - by rewrite app_nil_r.
Qed.

Lemma run_ids db rs :
  measure_uuid <$> run Date_parse_ok dirname db rs
  = ((measure_uuid <$> db)
     ++ (pretty <$> created_clocks Date_parse_ok dirname db rs))%list.
Proof.
  revert db. induction rs as [|r rs IH]; intros db.
  - cbn. by rewrite app_nil_r.
  - rewrite run_cons, IH, handle_ids. cbn [created_clocks].
    by rewrite fmap_app, app_assoc.
Qed.

(** The identifiers in the database are, in order, the decimal texts of the
    clock readings taken when the accepted uploads created their records;
    so the identifiers are unique exactly when no two records were created
    in the same millisecond. *)
Theorem stored_ids_are_clock_readings rs :
  measure_uuid <$> run Date_parse_ok dirname [] rs
  = pretty <$> created_clocks Date_parse_ok dirname [] rs
  /\ (unique_ids (run Date_parse_ok dirname [] rs)
      <-> NoDup (created_clocks Date_parse_ok dirname [] rs)).
Proof.
  pose proof (run_ids [] rs) as Hids. cbn [fmap list_fmap app] in Hids.
  split; [done|].
  rewrite unique_ids_NoDup, Hids. apply (NoDup_fmap pretty).
Qed.

Lemma handle_keeps_uuid db r i m :
  db !! i = Some m ->
  exists m', fst (handle Date_parse_ok dirname db r) !! i = Some m'
             /\ measure_uuid m' = measure_uuid m.
Proof.
  intros Hi. destruct r as [req env|u cv|c q]; cbn [handle fst].
  - exists m. split; [|done].
    destruct (upload_database Date_parse_ok dirname db req env)
      as [->|(m0 & b & ->)]; [done|].
    cbn [fst]. by apply lookup_app_l_Some.
  - destruct (confirm_database db u cv)
      as [->|(id & v & j & mj & _ & _ & Hj & _ & _ & _ & ->)]; [by exists m|].
    cbn [fst]. destruct (decide (i = j)) as [->|Hne].
    + assert (mj = m) as -> by congruence.
      exists (confirm_measure m v). split; [|done].
      apply list_lookup_insert_eq. by eapply lookup_lt_Some.
    + exists m. by rewrite list_lookup_insert_ne.
  - by exists m.
Qed.

(** A record that stands behind another record with the same identifier is
    out of reach: whatever requests follow, it is never changed, so it can
    never be confirmed. *)
Theorem shadowed_record_never_changes db rs i j mi mj :
  db !! i = Some mi -> db !! j = Some mj -> i < j ->
  measure_uuid mi = measure_uuid mj ->
  run Date_parse_ok dirname db rs !! j = Some mj.
Proof.
  revert db mi. induction rs as [|r rs IH]; intros db mi Hi Hj Hlt Hid; [done|].
  rewrite run_cons.
  destruct (handle_keeps_uuid db r i mi Hi) as (mi' & Hi' & Hid').
  apply (IH _ mi'); try done; [|congruence].
  destruct r as [req env|u cv|c q]; cbn [handle fst]; [| |done].
  - destruct (upload_database Date_parse_ok dirname db req env)
      as [->|(m & b & ->)]; [done|].
    cbn [fst]. by apply lookup_app_l_Some.
  - destruct (confirm_database db u cv)
      as [->|(id & v & k & mk & _ & _ & Hk & Hidk & _ & Hf & ->)]; [done|].
    cbn [fst]. rewrite list_lookup_insert_ne; [done|].
    intros ->. assert (mk = mj) as -> by congruence.
    apply list_find_Some in Hf as (_ & _ & Hleast).
    apply (Hleast i mi); [done|lia|]. congruence.
Qed.

(** ** Round trips *)

(** Upload, then confirm: when no earlier record has the identifier that a
    successful upload answers, a confirmation with that identifier succeeds
    and stores its value in the record just created, leaving the others as
    they are. *)
Theorem upload_then_confirm db req env db1 url v0 id v :
  upload Date_parse_ok dirname db req env
  = (db1, Respond 200 (UploadBody url v0 id)) ->
  (forall m, m ∈ db -> measure_uuid m <> id) ->
  exists m,
    db1 = (db ++ [m])%list
    /\ measure_uuid m = id /\ has_confirmed m = false
    /\ measure_value m = Some v0
    /\ confirm db1 (VString id) (VNumber v)
       = ((db ++ [confirm_measure m v])%list, Respond 200 (ConfirmBody true)).
Proof.
  intros Hup Hfresh.
  apply upload_200 in Hup
    as (i & c & t & v1 & _ & _ & _ & _ & _ & -> & [= -> -> ->]).
  eexists. split; [done|]. split_and!; try done.
  rewrite confirm_well_typed.
  assert (find_by_uuid (db ++ [new_measure dirname req env c t v1])
            (pretty (now_uuid env))
          = Some (length db, new_measure dirname req env c t v1)) as ->.
  { unfold find_by_uuid. rewrite list_find_app_r.
    - cbn. by rewrite decide_True.
    - apply list_find_None, Forall_forall. auto. }
  cbn [has_confirmed new_measure].
  by rewrite insert_app_r_alt, Nat.sub_diag by lia.
Qed.

(** Upload, then list: a record created by a successful upload is at once
    the last entry of the listing of its customer, pending, under the
    identifier and the file of the answer, without a type in the query or
    with its own type in any case; the listings of the other customers do
    not change. *)
Theorem upload_then_list db req env db1 url v id c :
  upload Date_parse_ok dirname db req env
  = (db1, Respond 200 (UploadBody url v id)) ->
  body_customer_code req = VString c ->
  exists t,
    body_measure_type req = VString t
    /\ (forall q,
          supplied_type q = None
          \/ (exists s, supplied_type q = Some s
                        /\ toUpperCase s = toUpperCase t) ->
          list_measures db1 c q
          = Respond 200
              (ListBody c
                 ((to_view <$> list_filter db c q)
                  ++ [ {| view_measure_uuid := id;
                          view_measure_datetime := body_measure_datetime req;
                          view_measure_type := t;
                          view_has_confirmed := false;
                          view_image_url := url |} ])%list))
    /\ (forall c' q, c' <> c -> list_measures db1 c' q = list_measures db c' q).
Proof.
  intros Hup Hc.
  pose proof Hup
    as (i & c0 & t & v1 & _ & Hc0 & Ht & Hinc & _ & -> & [= -> -> ->])%upload_200.
  assert (c0 = c) as -> by congruence.
  exists t. split; [done|]. split.
  - intros q Hq.
    assert (type_selected q (new_measure dirname req env c t v1)) as Hsel.
    { unfold type_selected. destruct Hq as [->|(s & -> & Hs)]; [done|].
      by rewrite Hs. }
    rewrite list_measures_answer.
    + rewrite !list_filter_listByCustomer, listByCustomer_snoc.
      rewrite decide_True by done. rewrite fmap_app.
      by destruct (listByCustomer db c q).
    + intros s Hs. destruct Hq as [Hq|(s' & Hs' & Hup')]; [congruence|].
      assert (s' = s) as -> by congruence. by rewrite Hup'.
  - intros c' q Hne. unfold list_measures.
    rewrite !list_filter_listByCustomer, listByCustomer_snoc.
    rewrite decide_False by (cbn; intros [? _]; congruence).
    by rewrite app_nil_r.
Qed.

(** ** The answers of the server *)

(** Every request is answered, and with one of the answers of its endpoint:
    an upload with 200, 400 INVALID_DATA, 409 DOUBLE_REPORT or 500
    INTERNAL_ERROR; a confirmation with 200, 400 INVALID_DATA, 404
    MEASURE_NOT_FOUND or 409 CONFIRMATION_DUPLICATE; a listing with 200 and
    at least one entry, 400 INVALID_TYPE or 404 MEASURES_NOT_FOUND. *)
Theorem handle_answers db r :
  let a := snd (handle Date_parse_ok dirname db r) in
  match r with
  | PostUpload _ _ =>
    succeeded a \/ error_answer a 400 "INVALID_DATA"
    \/ error_answer a 409 "DOUBLE_REPORT"
    \/ error_answer a 500 "INTERNAL_ERROR"
  | PatchConfirm _ _ =>
    a = Respond 200 (ConfirmBody true) \/ error_answer a 400 "INVALID_DATA"
    \/ error_answer a 404 "MEASURE_NOT_FOUND"
    \/ error_answer a 409 "CONFIRMATION_DUPLICATE"
  | GetList c _ =>
    (exists views, a = Respond 200 (ListBody c views) /\ views <> [])
    \/ error_answer a 400 "INVALID_TYPE"
    \/ error_answer a 404 "MEASURES_NOT_FOUND"
  end.
Proof.
  intros a. subst a. destruct r as [req env|u cv|c q]; cbn [handle snd].
  - destruct (validateUploadRequest Date_parse_ok (body_image req)
      (body_customer_code req) (body_measure_datetime req)
      (body_measure_type req)) as [e|] eqn:Hv.
    + rewrite (upload_invalid _ dirname db req env e Hv). cbn [snd].
      right. left. exists (error_description e).
      unfold validateUploadRequest in Hv.
      repeat match type of Hv with
             | (if ?b then _ else _) = _ => destruct b
             end; first [discriminate | by injection Hv as <-].
    + destruct (upload_valid _ dirname db req env Hv)
        as (i & c & t & _ & _ & _ & ->).
      destruct (match find_by_datetime db (body_measure_datetime req) with
                | Some (_, existing) => String.eqb (measure_type existing) t
                | None => false end).
      { right. right. left. by eexists. }
      destruct (sharp_ok env); cbn [negb].
      * destruct (recognized env).
        -- left. by eexists.
        -- right. right. right. by eexists.
      * right. right. right. by eexists.
  - destruct (confirm_cases db u cv)
      as [[-> _]|[(id & v & _ & _ & _ & ->)
         |[(id & v & i & m & _ & _ & _ & _ & ->)
          |(id & v & i & m & _ & _ & _ & _ & ->)]]]; cbn [snd].
    + right. left. by eexists.
    + right. right. left. by eexists.
    + right. right. right. by eexists.
    + by left.
  - unfold list_measures.
    destruct (match supplied_type q with
              | Some s => negb (includes validMeasureTypes (toUpperCase s))
              | None => false end).
    { right. left. by eexists. }
    destruct (list_filter db c q) as [|m l]; cbn.
    + right. right. by eexists.
    + left. eexists. by split.
Qed.

End MoreProperties.

(** ** The further theorems at concrete requests *)

Lemma data_uri_payloads_witness :
  "png" ∈ data_uri_types
  /\ validated_base64Data (data_uri "png" "iVBORw0KGgo=") = "iVBORw0KGgo="
  /\ upload_base64Data (data_uri "png" "iVBORw0KGgo=")
     = "data:image/png;base64,iVBORw0KGgo=".
Proof.
  assert ("png" ∈ data_uri_types) as Hin.
  { apply list_elem_of_further, list_elem_of_here. }
  destruct (data_uri_payloads "png" "iVBORw0KGgo=" Hin) as (Hv & _ & Hu).
  split_and!; [exact Hin | exact Hv | exact (Hu ltac:(discriminate))].
Defined.

Lemma upload_rejection_ignores_processing_witness :
  let db := run iso_utc app_dir [] [water_reading] in
  let failing :=
    {| now_filename := t0 + 9000; sharp_ok := false;
       recognized := None; now_uuid := t0 + 9001 |} in
  snd (upload iso_utc app_dir db (submission "C9" january "WATER") gas_again)
  = double_report
  /\ upload iso_utc app_dir db (submission "C9" january "WATER") failing
     = (db, double_report).
Proof.
  intros db failing. split; [reflexivity|].
  exact (upload_rejection_ignores_processing iso_utc app_dir db
           (submission "C9" january "WATER") gas_again failing 409 _
           eq_refl (or_intror eq_refl)).
Defined.

Lemma upload_then_confirm_witness :
  let db1 :=
    fst (upload iso_utc app_dir [water_record]
           (submission "C2" february "gas")
           (answered (t0 + 5000) (t0 + 6500) 57%float)) in
  exists m,
    db1 = ([water_record] ++ [m])%list
    /\ measure_uuid m = "1725000006500" /\ has_confirmed m = false
    /\ measure_value m = Some 57%float
    /\ confirm db1 (VString "1725000006500") (VNumber 60%float)
       = (([water_record] ++ [confirm_measure m 60%float])%list,
          Respond 200 (ConfirmBody true)).
Proof.
  intros db1.
  assert (forall m, m ∈ [water_record] -> measure_uuid m <> "1725000006500")
    as Hfresh.
  { intros m ->%list_elem_of_singleton. discriminate. }
  exact (upload_then_confirm iso_utc app_dir [water_record]
           (submission "C2" february "gas")
           (answered (t0 + 5000) (t0 + 6500) 57%float)
           db1 "/app/dist/tmp/1725000005000.jpg" 57%float "1725000006500"
           60%float eq_refl Hfresh).
Defined.

Lemma upload_then_list_witness :
  exists t,
    body_measure_type (submission "C2" february "gas") = VString t
    /\ list_measures
         (fst (upload iso_utc app_dir [water_record]
                 (submission "C2" february "gas")
                 (answered (t0 + 5000) (t0 + 6500) 57%float)))
         "C2" (QString "GAS")
       = Respond 200 (ListBody "C2" [to_view lowercase_record])
    /\ list_measures
         (fst (upload iso_utc app_dir [water_record]
                 (submission "C2" february "gas")
                 (answered (t0 + 5000) (t0 + 6500) 57%float)))
         "C1" QUndefined
       = list_measures [water_record] "C1" QUndefined.
Proof.
  destruct (upload_then_list iso_utc app_dir [water_record]
              (submission "C2" february "gas")
              (answered (t0 + 5000) (t0 + 6500) 57%float)
              _ _ _ _ "C2" eq_refl eq_refl)
    as (t & Ht & Hmine & Hothers).
  exists t. split_and!.
  - exact Ht.
  - injection Ht as <-.
    exact (Hmine (QString "GAS")
             (or_intror (ex_intro _ "GAS" (conj eq_refl eq_refl)))).
  - exact (Hothers "C1" QUndefined ltac:(discriminate)).
Defined.

Lemma shadowed_record_never_changes_witness :
  let db := run iso_utc app_dir [] same_millisecond in
  exists m1 m2,
    db !! 0 = Some m1 /\ db !! 1 = Some m2
    /\ measure_uuid m1 = measure_uuid m2
    /\ run iso_utc app_dir db
         [PatchConfirm (VString "1725000001500") (VNumber 120%float);
          PatchConfirm (VString "1725000001500") (VNumber 80%float)] !! 1
       = Some m2
    /\ has_confirmed m2 = false.
Proof.
  intros db. eexists _, _.
  split_and!; [reflexivity | reflexivity | reflexivity | | reflexivity].
  exact (shadowed_record_never_changes iso_utc app_dir db
           [PatchConfirm (VString "1725000001500") (VNumber 120%float);
            PatchConfirm (VString "1725000001500") (VNumber 80%float)]
           0 1 _ _ eq_refl eq_refl (le_n 1) eq_refl).
Defined.

Lemma list_types_partition_witness :
  Forall well_formed [water_record; lowercase_record]
  /\ (list_filter [water_record; lowercase_record] "C2" (QString "WATER")
      ++ list_filter [water_record; lowercase_record] "C2" (QString "GAS"))%list
     ≡ₚ list_filter [water_record; lowercase_record] "C2" QUndefined.
Proof.
  assert (Forall well_formed [water_record; lowercase_record]) as Hwf.
  { repeat constructor; by eexists || (by left) || by right. }
  split; [exact Hwf|].
  exact (proj1 (list_types_partition [water_record; lowercase_record] "C2" Hwf)).
Defined.

Lemma empty_payload_accepted_witness :
  validateUploadRequest iso_utc (VString "") (VString "C1") january
    (VString "water") = Some image_error
  /\ validateUploadRequest iso_utc (VString "data:image/webp;base64,")
       (VString "C1") january (VString "water") = None.
Proof.
  assert (measure_type_ok (VString "water")) as Hmt.
  { exists "water". split; [reflexivity|by left]. }
  destruct (empty_payload_accepted iso_utc (VString "C1") january
              (VString "water") eq_refl eq_refl Hmt) as [Hempty Hprefix].
  split; [exact Hempty|].
  apply (Hprefix "webp").
  apply list_elem_of_further, list_elem_of_further, list_elem_of_here.
Defined.

(** The long s.  A type written "gaſ" passes the validator, because its
    upper-case form is GAS; it is stored as written, and the listing gives
    the record under the filter GAS, as it gives the records of type "gas"
    under the filter "gaſ". *)
Theorem long_s_spelling_of_gas :
  let entry (m : Measure) :=
    {| view_measure_uuid := "1725000006500";
       view_measure_datetime := february;
       view_measure_type := measure_type m;
       view_has_confirmed := false;
       view_image_url := "/app/dist/tmp/1725000005000.jpg" |} in
  toUpperCase (measure_type long_s_record) = "GAS"
  /\ run iso_utc app_dir [] [long_s_reading] = [long_s_record]
  /\ list_measures [water_record; long_s_record] "C2" (QString "GAS")
     = Respond 200 (ListBody "C2" [entry long_s_record])
  /\ list_measures [water_record; lowercase_record] "C2" (QString "gaſ")
     = Respond 200 (ListBody "C2" [entry lowercase_record])
  /\ list_measures [water_record; long_s_record] "C2" (QString "WATER")
     = measures_not_found.
Proof. by vm_compute. Qed.
